(** * The chat relay (edge function [chat-grok]): provider failover

    A shallow embedding of the request handler passed to [serve] and of the
    two provider clients [callGrok] and [callCampusAssistantAI], followed by
    the properties of the handler's HTTP outcomes.

    Conventions of the embedding.
    - A JavaScript value that came out of [JSON.parse] is a [json]; a
      possibly [undefined] value is an [option json] with [None] for
      [undefined].
    - [await e] either resolves or rejects: [Tried].
    - The handler's observable effects (identity verification, reading the
      request body, outbound [fetch]) are recorded in order in a log;
      [console.log] and [console.error] are not recorded.
    - What the outside world answers (environment variables, the identity
      verifier, the remote endpoints) is a [World]. *)

From Stdlib Require Import String Ascii List ZArith QArith Bool Lia.
Import ListNotations.
Local Open Scope string_scope.
Local Open Scope Z_scope.

(** ** JavaScript values *)

Module JS.

(** A JSON document.  Numbers are the rationals a JSON number literal
    denotes; the rounding to a double, by which a literal beyond the range
    is read as an infinity and written back as [null], is not modelled, and
    what is said of a value a page reads back is said of strings.  [JObj]
    lists the members in text order. *)
#[warnings="-register-all"]
Inductive json : Type :=
| JNull
| JBool (b : bool)
| JNum (q : Q)
| JStr (s : string)
| JArr (items : list json)
| JObj (members : list (string * json)).

(** [None] is [undefined]. *)
Definition value : Type := option json.

Definition undefined : value := None.

(** What may be thrown: an [Error] instance with its [message], or any
    other value. *)
Inductive JsError : Type :=
| ErrorObject (name message : string)
| NotAnError.

(** The result of awaiting a promise, or of a call that may throw. *)
Inductive Tried (A : Type) : Type :=
| Resolved (a : A)
| Rejected (e : JsError).
Arguments Resolved {A} a.
Arguments Rejected {A} e.

(** [Boolean(v)] *)
Definition truthy (v : value) : bool :=
  match v with
  | None => false
  | Some JNull => false
  | Some (JBool b) => b
  | Some (JNum q) => negb (Qeq_bool q 0)
  | Some (JStr s) => negb (s =? "")%string
  | Some (JArr _) => true
  | Some (JObj _) => true
  end.

(** Truthiness of a [string | undefined], as returned by [Deno.env.get]. *)
Definition truthy_string (s : option string) : bool :=
  match s with
  | None => false
  | Some s => negb (s =? "")%string
  end.

(** [typeof v === 'string'] *)
Definition is_string (v : value) : bool :=
  match v with
  | Some (JStr _) => true
  | _ => false
  end.

(** Own property of a parsed object; a repeated key holds its last value. *)
Fixpoint lookup (k : string) (members : list (string * json)) : value :=
  match members with
  | [] => None
  | (k', v) :: rest =>
      match lookup k rest with
      | Some v' => Some v'
      | None => if (k =? k')%string then Some v else None
      end
  end.

(** [v.k] for a key [k] that no prototype defines ([message], [role],
    [content], [choices], [conversationHistory]) and a [v] that is neither
    [null] nor [undefined]. *)
Definition get (v : json) (k : string) : value :=
  match v with
  | JObj members => lookup k members
  | _ => None
  end.

Definition TypeError (message : string) : JsError :=
  ErrorObject "TypeError" message.

Definition RangeError (message : string) : JsError :=
  ErrorObject "RangeError" message.

(** [v.k]: throws on [null]. *)
Definition member (v : json) (k : string) : Tried value :=
  match v with
  | JNull => Rejected (TypeError ("Cannot read properties of null (reading '" ++ k ++ "')"))
  | _ => Resolved (get v k)
  end.

(** [v?.k] *)
Definition opt_member (v : value) (k : string) : value :=
  match v with
  | None => None
  | Some JNull => None
  | Some j => get j k
  end.

(** [v?.[0]] *)
Definition opt_first (v : value) : value :=
  match v with
  | None => None
  | Some JNull => None
  | Some (JArr items) => nth_error items 0
  | Some (JStr s) =>
      match s with
      | EmptyString => None
      | String c _ => Some (JStr (String c EmptyString))
      end
  | Some (JObj members) => lookup "0" members
  | Some _ => None
  end.

(** [s.replace(pat, rep)] for a non-empty string pattern: the first
    occurrence is replaced. *)
Fixpoint drop (n : nat) (s : string) : string :=
  match n, s with
  | O, _ => s
  | S n', String _ s' => drop n' s'
  | S _, EmptyString => EmptyString
  end.

Fixpoint replace (pat rep s : string) : string :=
  if String.prefix pat s then rep ++ drop (String.length pat) s
  else match s with
       | EmptyString => EmptyString
       | String c s' => String c (replace pat rep s')
       end.

(** [x ?? d] *)
Definition nullish {A : Type} (x : option A) (d : A) : A :=
  match x with
  | Some a => a
  | None => d
  end.

(** [JSON.stringify] of an object literal keeps the members whose value is
    not [undefined]. *)
Fixpoint defined_members (members : list (string * value)) : list (string * json) :=
  match members with
  | [] => []
  | (k, Some v) :: rest => (k, v) :: defined_members rest
  | (_, None) :: rest => defined_members rest
  end.

Definition object (members : list (string * value)) : json :=
  JObj (defined_members members).

End JS.
Import JS.

(** ** HTTP messages and the outside world *)

Module Http.

(** A [Response].  The body is the JSON document that was given to
    [JSON.stringify], or [None] for a [null] body. *)
Record Response : Type := mkResponse {
  status : Z;
  headers : list (string * string);
  body : option json
}.

(** The statuses that admit no body. *)
Definition null_body_status (st : Z) : bool :=
  existsb (Z.eqb st) [101; 103; 204; 205; 304].

(** [new Response(body, { status, headers })]: a [RangeError] for a status
    outside 200..599, a [TypeError] for a body together with a status that
    admits none.  The status is an integer as [response.status] of a
    fetched response or a literal of the handler gives it, within the
    unsigned short range, where the conversion of the argument changes
    nothing. *)
Definition new_Response (body : option json) (st : Z)
    (headers : list (string * string)) : Tried Response :=
  if negb ((200 <=? st) && (st <=? 599)) then
    Rejected (RangeError "The status provided is outside the range [200, 599]")
  else
    match body with
    | Some _ =>
        if null_body_status st then
          Rejected (TypeError "Response with null body status cannot have body")
        else Resolved {| status := st; headers := headers; body := body |}
    | None => Resolved {| status := st; headers := headers; body := body |}
    end.

(** The inbound request, as far as the handler looks at it:
    [req.method], [req.headers.get('Authorization')] and what
    [await req.json()] settles to. *)
Record Request : Type := mkRequest {
  method : string;
  authorization : option string;
  json_body : Tried json
}.

(** [{ role, content }] *)
Record Message : Type := mkMessage {
  role : value;
  content : value
}.

(** The object given to [JSON.stringify] for the body of an outbound
    chat-completion request. *)
Record ChatCompletion : Type := mkChatCompletion {
  model : string;
  messages : list Message;
  max_tokens : option Z;
  temperature : option Q
}.

(** The second argument of [fetch]. *)
Record FetchInit : Type := mkFetchInit {
  fetch_method : string;
  fetch_headers : list (string * string);
  fetch_body : ChatCompletion
}.

(** The upstream response: [response.status], what [await response.text()]
    settles to, and what [JSON.parse] makes of that text. *)
Record Upstream : Type := mkUpstream {
  upstream_status : Z;
  upstream_text : Tried string;
  upstream_json : Tried json
}.

(** [response.ok] *)
Definition upstream_ok (r : Upstream) : bool :=
  (200 <=? upstream_status r) && (upstream_status r <=? 299).

(** The client built by [createClient(url, key, options)]. *)
Record SupabaseClient : Type := mkSupabaseClient {
  supabaseUrl : option string;
  supabaseKey : option string;
  global_authorization : string
}.

(** The client [createClient(url, key, { global: { headers:
    { Authorization } } })] builds, when it builds one. *)
Definition createClient (url key : option string) (authorization : string)
  : SupabaseClient :=
  {| supabaseUrl := url; supabaseKey := key; global_authorization := authorization |}.

(** [{ data, error }] as [supabase.auth.getClaims(token)] resolves to;
    [None] is [null]. *)
Record ClaimsData : Type := mkClaimsData { claims : value }.

Record ClaimsResult : Type := mkClaimsResult {
  claims_data : option ClaimsData;
  claims_error : option JsError
}.

(** Everything the handler asks of its surroundings: the environment
    variables, the Supabase library (whether [createClient] throws for the
    arguments it is given, what [auth.getClaims] settles to) and the remote
    endpoints. *)
Record World : Type := mkWorld {
  env_get : string -> option string;
  createClient_throws : SupabaseClient -> option JsError;
  getClaims : SupabaseClient -> string -> Tried ClaimsResult;
  fetch : string -> FetchInit -> Tried Upstream
}.

(** What the constructor throws for a status it refuses with a body. *)
Definition constructor_error (st : Z) : JsError :=
  if negb ((200 <=? st) && (st <=? 599)) then
    RangeError "The status provided is outside the range [200, 599]"
  else TypeError "Response with null body status cannot have body".

(** The constructor accepts the status together with a body. *)
Definition carries_body (st : Z) : bool :=
  (200 <=? st) && (st <=? 599) && negb (null_body_status st).

(** The call [createClient(...)] in world [w]. *)
Definition created (w : World) (client : SupabaseClient) : Tried SupabaseClient :=
  match createClient_throws w client with
  | Some e => Rejected e
  | None => Resolved client
  end.

End Http.
Import Http.

(** ** Effects: a log of external interactions, early [return], [throw] *)

Module Effects.

Inductive Event : Type :=
| GetClaims (client : SupabaseClient) (token : string)
| ReadJson
| Fetch (url : string) (init : FetchInit).

(** How a block of statements ends: it runs to its end with a value, it
    executes [return r], or it throws. *)
Inductive Completion (R A : Type) : Type :=
| Normal (a : A)
| Return (r : R)
| Throw (e : JsError).
Arguments Normal {R A} a.
Arguments Return {R A} r.
Arguments Throw {R A} e.

Definition Eff (R A : Type) : Type := (Completion R A * list Event)%type.

Definition ret {R A : Type} (a : A) : Eff R A := (Normal a, []).

Definition bind {R A B : Type} (m : Eff R A) (k : A -> Eff R B) : Eff R B :=
  match m with
  | (Normal a, log) => let (c, log') := k a in (c, (log ++ log')%list)
  | (Return r, log) => (Return r, log)
  | (Throw e, log) => (Throw e, log)
  end.

Definition return_ {R A : Type} (r : R) : Eff R A := (Return r, []).

Definition throw {R A : Type} (e : JsError) : Eff R A := (Throw e, []).

Definition emit {R : Type} (ev : Event) : Eff R unit := (Normal tt, [ev]).

(** [await p], after the interaction [ev] that produced [p]. *)
Definition await {R A : Type} (ev : Event) (p : Tried A) : Eff R A :=
  match p with
  | Resolved a => (Normal a, [ev])
  | Rejected e => (Throw e, [ev])
  end.

(** An expression that may throw, without external interaction. *)
Definition eval {R A : Type} (p : Tried A) : Eff R A :=
  match p with
  | Resolved a => ret a
  | Rejected e => throw e
  end.

(** [try { body } catch (error) { handler }] as the whole body of a
    function: every path of [body] and of [handler] ends in [return]. *)
Definition try_catch {R : Type} (body : Eff R Empty_set)
    (handler : JsError -> Eff R Empty_set) : Eff R Empty_set :=
  match body with
  | (Throw e, log) => let (c, log') := handler e in (c, (log ++ log')%list)
  | done => done
  end.

(** Calling a function of result type [R] whose every path ends in
    [return]: the value returned, or the error thrown, and the log. *)
Definition call {R : Type} (f : Eff R Empty_set) : Tried R * list Event :=
  match f with
  | (Return r, log) => (Resolved r, log)
  | (Throw e, log) => (Rejected e, log)
  | (Normal a, _) => match a with end
  end.

Declare Scope eff_scope.
Delimit Scope eff_scope with eff.
Notation "x <- m ;; k" := (bind m (fun x => k))
  (at level 100, m at next level, right associativity) : eff_scope.
Notation "' pat <- m ;; k" := (bind m (fun x => match x with pat => k end))
  (at level 100, pat pattern, m at next level, right associativity) : eff_scope.
Notation "m ;; k" := (bind m (fun _ => k))
  (at level 100, right associativity) : eff_scope.

End Effects.
Import Effects.

(** ** The edge function *)

Module ChatGrok.

Local Open Scope eff_scope.

Definition corsHeaders : list (string * string) :=
  [ ("Access-Control-Allow-Origin", "*");
    ("Access-Control-Allow-Headers",
     "authorization, x-client-info, apikey, content-type") ].

Definition IARE_SYSTEM_PROMPT : string :=
"You are a friendly and helpful AI Assistant for the Institute of Aeronautical Engineering (IARE), Dundigal, Hyderabad. Your role is to assist students, parents, and visitors with IARE-specific queries.

About IARE:
- Full Name: Institute of Aeronautical Engineering
- Location: Dundigal, Hyderabad, Telangana, India
- Established: 2000
- Affiliation: Jawaharlal Nehru Technological University Hyderabad (JNTUH)
- Accreditation: NAAC 'A++' Grade, NBA Accredited programs
- Campus: 32 acres with modern infrastructure

Departments & Courses:
- Aeronautical Engineering
- Computer Science & Engineering (CSE)
- Information Technology (IT)
- Electronics & Communication Engineering (ECE)
- Electrical & Electronics Engineering (EEE)
- Mechanical Engineering
- Civil Engineering
- MBA & MCA programs

Key Information:
- Admissions: Through TS EAMCET / ECET / ICET / Management quota
- Academic Year: June to May
- Placements: 90%+ placement record with top recruiters like TCS, Infosys, Wipro, Amazon, Microsoft
- Facilities: Library, hostels, sports complex, labs, Wi-Fi campus, cafeteria
- Contact: +91-40-24193276, info@iare.ac.in
- Website: www.iare.ac.in

Guidelines:
- Be polite, accurate, and helpful
- Answer ONLY IARE-related queries
- For non-IARE questions, politely redirect to IARE topics
- If unsure, suggest contacting the college directly
- Keep responses concise and student-friendly

Remember: You represent IARE, maintain professionalism and helpfulness.".

(** What a provider client returns: [{ ok, response?, status?, errorDetails? }]. *)
Record ProviderResult : Type := mkProviderResult {
  ok : bool;
  response : value;
  status : option Z;
  errorDetails : option string
}.

(** A call of an async function from the handler: its [return] value is the
    value of the [await], its exception propagates. *)
Definition invoke {R R' : Type} (f : Eff R' Empty_set) : Eff R R' :=
  match call f with
  | (Resolved r, log) => (Normal r, log)
  | (Rejected e, log) => (Throw e, log)
  end.

Definition grok_url : string := "https://api.x.ai/v1/chat/completions".

Definition grok_init (messages : list Message) (apiKey : string) : FetchInit :=
  {| fetch_method := "POST";
     fetch_headers := [ ("Authorization", "Bearer " ++ apiKey);
                        ("Content-Type", "application/json") ];
     fetch_body := {| model := "grok-2-latest";
                      messages := messages;
                      max_tokens := Some 1024;
                      temperature := Some (7 # 10)%Q |} |}.

(** [data.choices?.[0]?.message?.content] *)
Definition first_choice_content (data : json) : Tried value :=
  match member data "choices" with
  | Resolved choices =>
      Resolved (opt_member (opt_member (opt_first choices) "message") "content")
  | Rejected e => Rejected e
  end.

(** [async function callGrok(messages, apiKey)] *)
Definition callGrok (w : World) (messages : list Message) (apiKey : string)
  : Eff ProviderResult Empty_set :=
  response <- await (Fetch grok_url (grok_init messages apiKey))
                    (fetch w grok_url (grok_init messages apiKey)) ;;
  text <- eval (upstream_text response) ;;
  if negb (upstream_ok response) then
    return_ {| ok := false; response := undefined;
               status := Some (upstream_status response);
               errorDetails := Some text |}
  else
    data <- eval (upstream_json response) ;;
    content <- eval (first_choice_content data) ;;
    return_ {| ok := true; response := content;
               status := None; errorDetails := None |}.

Definition campus_url : string := "https://ai.gateway.lovable.dev/v1/chat/completions".

Definition campus_init (messages : list Message) (apiKey : string) : FetchInit :=
  {| fetch_method := "POST";
     fetch_headers := [ ("Authorization", "Bearer " ++ apiKey);
                        ("Content-Type", "application/json") ];
     fetch_body := {| model := "google/gemini-3-flash-preview";
                      messages := messages;
                      max_tokens := None;
                      temperature := None |} |}.

(** [async function callCampusAssistantAI(messages, apiKey)] *)
Definition callCampusAssistantAI (w : World) (messages : list Message) (apiKey : string)
  : Eff ProviderResult Empty_set :=
  response <- await (Fetch campus_url (campus_init messages apiKey))
                    (fetch w campus_url (campus_init messages apiKey)) ;;
  text <- eval (upstream_text response) ;;
  if negb (upstream_ok response) then
    return_ {| ok := false; response := undefined;
               status := Some (upstream_status response);
               errorDetails := Some text |}
  else
    data <- eval (upstream_json response) ;;
    content <- eval (first_choice_content data) ;;
    return_ {| ok := true; response := content;
               status := None; errorDetails := None |}.

(** The response that [new Response(JSON.stringify({ ... }), { status,
    headers: { ...corsHeaders, 'Content-Type': 'application/json' } })]
    builds, when it builds one. *)
Definition json_response (st : Z) (members : list (string * value)) : Response :=
  {| Http.status := st;
     headers := corsHeaders ++ [ ("Content-Type", "application/json") ];
     body := Some (object members) |}.

(** [return new Response(body, { status, headers })] *)
Definition return_new {A : Type} (body : option json) (st : Z)
    (headers : list (string * string)) : Eff Response A :=
  match new_Response body st headers with
  | Resolved r => return_ r
  | Rejected e => throw e
  end.

(** [return new Response(JSON.stringify({ ... }), { status, headers:
    { ...corsHeaders, 'Content-Type': 'application/json' } })] *)
Definition return_response {A : Type} (st : Z) (members : list (string * value))
  : Eff Response A :=
  return_new (Some (object members)) st
    (corsHeaders ++ [ ("Content-Type", "application/json") ]).

(** A number as a JSON value. *)
Definition number (n : option Z) : value :=
  match n with
  | Some z => Some (JNum (inject_Z z))
  | None => undefined
  end.

Definition text (s : option string) : value :=
  match s with
  | Some s => Some (JStr s)
  | None => undefined
  end.

(** A [string | undefined] inside [if (key) { ... }]: the string, when it is
    truthy. *)
Definition narrowed (key : option string) : option string :=
  match key with
  | Some k => if (k =? "")%string then None else Some k
  | None => None
  end.

(** [const { message, conversationHistory = [] } = await req.json()] *)
Definition destructure (parsed : json) : Tried (value * json) :=
  match parsed with
  | JNull => Rejected (TypeError "Cannot destructure 'message' of null")
  | _ => Resolved (get parsed "message",
                   nullish (get parsed "conversationHistory") (JArr []))
  end.

(** [conversationHistory.map((msg) => ({ role: msg.role, content: msg.content }))] *)
Fixpoint map_history (items : list json) : Tried (list Message) :=
  match items with
  | [] => Resolved []
  | msg :: rest =>
      match member msg "role", member msg "content" with
      | Resolved r, Resolved c =>
          match map_history rest with
          | Resolved ms => Resolved ({| role := r; content := c |} :: ms)
          | Rejected e => Rejected e
          end
      | Rejected e, _ => Rejected e
      | _, Rejected e => Rejected e
      end
  end.

Definition history_messages (conversationHistory : json) : Tried (list Message) :=
  match conversationHistory with
  | JArr items => map_history items
  | JNull => Rejected (TypeError "Cannot read properties of null (reading 'map')")
  | _ => Rejected (TypeError "conversationHistory.map is not a function")
  end.

(** [[ { role: 'system', content: IARE_SYSTEM_PROMPT }, ...history,
    { role: 'user', content: message } ]] *)
Definition build_messages (message : value) (conversationHistory : json)
  : Tried (list Message) :=
  match history_messages conversationHistory with
  | Resolved history =>
      Resolved ({| role := Some (JStr "system");
                   content := Some (JStr IARE_SYSTEM_PROMPT) |}
                :: history
                ++ [ {| role := Some (JStr "user"); content := message |} ])
  | Rejected e => Rejected e
  end.

(** [[403, 429, 500, 502, 503].includes(n)] *)
Definition fallback_statuses : list Z := [403; 429; 500; 502; 503].

Definition includes (l : list Z) (n : Z) : bool := existsb (Z.eqb n) l.

(** [error instanceof Error ? error.message : 'An error occurred'] *)
Definition error_message (error : JsError) : string :=
  match error with
  | ErrorObject _ message => message
  | NotAnError => "An error occurred"
  end.

(** [result.status === n] *)
Definition is_status (s : option Z) (n : Z) : bool :=
  match s with
  | Some z => z =? n
  | None => false
  end.

(** [claimsData?.claims] *)
Definition claims_of (data : option ClaimsData) : value :=
  match data with
  | Some d => claims d
  | None => undefined
  end.

Definition is_set {A : Type} (x : option A) : bool :=
  match x with
  | Some _ => true
  | None => false
  end.

(** The handler's two variables [aiResponse] and [usedProvider] are
    threaded through the three blocks that end the [try]: the primary
    attempt, the fallback, the final response. *)

(** [// --- Try Grok first (if key exists) ---] *)
Definition try_grok (w : World) (messages : list Message)
    (aiResponse : value) (usedProvider : string)
  : Eff Response (value * string) :=
  let GROK_API_KEY := env_get w "GROK_API_KEY" in
  match narrowed GROK_API_KEY with
  | Some key =>
      grokResult <- invoke (callGrok w messages key) ;;
      if ok grokResult && truthy (response grokResult)
      then ret (response grokResult, "grok")
      else
        (* Fallback conditions: 403 (no credits), 429 (rate limit), or other
           transient errors *)
        let shouldFallback :=
          includes fallback_statuses (nullish (status grokResult) 0) in
        if negb shouldFallback
        then
          (* Hard failure (e.g., 401 invalid key): don't fallback, surface error *)
          return_response (nullish (status grokResult) 500)
            [ ("error", Some (JStr "AI provider error. Please check your Grok API key."));
              ("details", text (errorDetails grokResult));
              ("status", number (status grokResult)) ]
        else ret (aiResponse, usedProvider)
  | None => ret (aiResponse, usedProvider)
  end.

(** [// --- Fallback to Campus Assistant AI if Grok didn't succeed ---] *)
Definition fallback_to_campus (w : World) (messages : list Message)
    (aiResponse : value) (usedProvider : string)
  : Eff Response (value * string) :=
  let CAMPUS_ASSISTANT_API_KEY := env_get w "CAMPUS_ASSISTANT_API_KEY" in
  match negb (truthy aiResponse), narrowed CAMPUS_ASSISTANT_API_KEY with
  | true, Some key =>
      campusAssistantResult <- invoke (callCampusAssistantAI w messages key) ;;
      if ok campusAssistantResult && truthy (response campusAssistantResult)
      then ret (response campusAssistantResult, "campus-assistant-ai")
      else
        (* Handle Campus Assistant AI rate limits gracefully *)
        if is_status (status campusAssistantResult) 429
        then
          return_response 429
            [ ("error", Some (JStr "Rate limit exceeded. Please try again in a moment.")) ]
        else
        if is_status (status campusAssistantResult) 402
        then
          return_response 402
            [ ("error", Some (JStr "AI credits exhausted. Please add credits to your workspace.")) ]
        else
          return_response 500
            [ ("error", Some (JStr "AI service error. Please try again."));
              ("details", text (errorDetails campusAssistantResult));
              ("status", number (status campusAssistantResult)) ]
  | _, _ => ret (aiResponse, usedProvider)
  end.

(** The end of the [try] block. *)
Definition respond (aiResponse : value) (usedProvider : string)
  : Eff Response Empty_set :=
  if negb (truthy aiResponse)
  then
    return_response 503
      [ ("error", Some (JStr "No AI provider could fulfill the request.")) ]
  else
    (* no status given: 200 *)
    return_response 200
      [ ("response", aiResponse); ("provider", Some (JStr usedProvider)) ].

(** From [let aiResponse; let usedProvider = 'none';] to the end of the
    [try] block. *)
Definition attempt_providers (w : World) (messages : list Message)
  : Eff Response Empty_set :=
  '(aiResponse, usedProvider) <- try_grok w messages undefined "none" ;;
  '(aiResponse, usedProvider) <- fallback_to_campus w messages aiResponse usedProvider ;;
  respond aiResponse usedProvider.

(** The statements inside [try { ... }] of the handler; the provider
    attempts that end it are [attempt_providers]. *)
Definition handler_try (w : World) (req : Request) : Eff Response Empty_set :=
  let GROK_API_KEY := env_get w "GROK_API_KEY" in
  let CAMPUS_ASSISTANT_API_KEY := env_get w "CAMPUS_ASSISTANT_API_KEY" in
  if negb (truthy_string GROK_API_KEY) && negb (truthy_string CAMPUS_ASSISTANT_API_KEY)
  then
    return_response 500
      [ ("error", Some (JStr "AI service not configured. Please contact administrator.")) ]
  else
  (* Validate authorization *)
  authHeader <-
    match authorization req with
    | Some h =>
        if String.prefix "Bearer " h then ret h
        else return_response 401 [ ("error", Some (JStr "Unauthorized")) ]
    | None => return_response 401 [ ("error", Some (JStr "Unauthorized")) ]
    end ;;
  supabase <-
    eval (created w (createClient (env_get w "SUPABASE_URL")
                       (env_get w "SUPABASE_ANON_KEY") authHeader)) ;;
  let token := replace "Bearer " "" authHeader in
  claimsResult <- await (GetClaims supabase token) (getClaims w supabase token) ;;
  let claimsData := claims_data claimsResult in
  let claimsError := claims_error claimsResult in
  if is_set claimsError || negb (truthy (claims_of claimsData))
  then return_response 401 [ ("error", Some (JStr "Unauthorized")) ]
  else
  parsed <- await ReadJson (json_body req) ;;
  '(message, conversationHistory) <- eval (destructure parsed) ;;
  if negb (truthy message) || negb (is_string message)
  then return_response 400 [ ("error", Some (JStr "Message is required")) ]
  else
  (* Build messages array with conversation history *)
  messages <- eval (build_messages message conversationHistory) ;;
  attempt_providers w messages.

(** The [catch (error) { ... }] of the handler. *)
Definition handler_catch (error : JsError) : Eff Response Empty_set :=
  return_response 500 [ ("error", Some (JStr (error_message error))) ].

(** The function given to [serve]. *)
Definition handler (w : World) (req : Request) : Eff Response Empty_set :=
  (* Handle CORS preflight requests *)
  if (method req =? "OPTIONS")%string
  then return_new None 200 corsHeaders (* no status given: 200 *)
  else try_catch (handler_try w req) handler_catch.

(** One request served: the response (or the exception that escaped the
    handler) and the external interactions, in order. *)
Definition serve (w : World) (req : Request) : Tried Response * list Event :=
  call (handler w req).

End ChatGrok.
Import ChatGrok.

(** ** Concrete worlds and requests *)

Module Samples.

Definition sample_env (grok campus : option string) (name : string) : option string :=
  if (name =? "GROK_API_KEY")%string then grok
  else if (name =? "CAMPUS_ASSISTANT_API_KEY")%string then campus
  else if (name =? "SUPABASE_URL")%string then Some "https://project.supabase.co"
  else if (name =? "SUPABASE_ANON_KEY")%string then Some "anon-key"
  else None.

(** A verifier that accepts every token. *)
Definition accept (_ : SupabaseClient) (_ : string) : Tried ClaimsResult :=
  Resolved
    {| claims_data := Some {| claims := Some (JObj [ ("sub", JStr "user-1") ]) |};
       claims_error := None |}.

(** A verifier that rejects every token. *)
Definition reject (_ : SupabaseClient) (_ : string) : Tried ClaimsResult :=
  Resolved
    {| claims_data := None;
       claims_error := Some (ErrorObject "AuthApiError" "invalid JWT") |}.

(** A [createClient] that insists on its two first arguments. *)
Definition needs_url_and_key (client : SupabaseClient) : option JsError :=
  match supabaseUrl client, supabaseKey client with
  | None, _ => Some (ErrorObject "Error" "supabaseUrl is required.")
  | Some _, None => Some (ErrorObject "Error" "supabaseKey is required.")
  | Some _, Some _ => None
  end.

(** A world with the given credentials, where the primary endpoint answers
    [primary] and the secondary endpoint [secondary]. *)
Definition sample_world (grok campus : option string)
    (primary secondary : Tried Upstream) : World :=
  {| env_get := sample_env grok campus;
     createClient_throws := needs_url_and_key;
     getClaims := accept;
     fetch := fun url _ => if (url =? grok_url)%string then primary else secondary |}.

(** A chat-completion document whose first choice carries [t]. *)
Definition completion (t : string) : json :=
  JObj [ ("choices",
          JArr [ JObj [ ("message",
                         JObj [ ("role", JStr "assistant");
                                ("content", JStr t) ]) ] ]) ].

Definition answers (t : string) : Tried Upstream :=
  Resolved {| upstream_status := 200;
              upstream_text := Resolved "(raw completion)";
              upstream_json := Resolved (completion t) |}.

(** A 200 answer without any choice. *)
Definition answers_nothing : Tried Upstream :=
  Resolved {| upstream_status := 200;
              upstream_text := Resolved "(raw completion)";
              upstream_json := Resolved (JObj [ ("choices", JArr []) ]) |}.

Definition fails (st : Z) (raw : string) : Tried Upstream :=
  Resolved {| upstream_status := st;
              upstream_text := Resolved raw;
              upstream_json := Rejected (ErrorObject "SyntaxError" "Unexpected token") |}.

Definition unreachable : Tried Upstream :=
  Rejected (TypeError "error sending request").

Definition never_called : Tried Upstream :=
  Rejected (TypeError "no such endpoint").

Definition post (auth : option string) (payload : Tried json) : Request :=
  {| method := "POST"; authorization := auth; json_body := payload |}.

Definition hello : Request :=
  post (Some "Bearer token-1") (Resolved (JObj [ ("message", JStr "Hello") ])).



(** Both credentials configured; the primary answers. *)
Definition primary_up_world : World :=
  sample_world (Some "k1") (Some "k2") (answers "Hi there") (answers "Hello").

(** Both credentials configured; the primary is rate limited, the secondary
    answers. *)
Definition rate_limited_world : World :=
  sample_world (Some "k1") (Some "k2") (fails 429 "slow down") (answers "Hello").

(** Both credentials configured; the primary answers 200 without choices. *)
Definition no_choices_world : World :=
  sample_world (Some "k1") (Some "k2") answers_nothing (answers "Hello").

(** Both credentials configured; the primary endpoint cannot be reached. *)
Definition primary_unreachable_world : World :=
  sample_world (Some "k1") (Some "k2") unreachable (answers "Hello").

(** Only the secondary configured, and it fails with 500. *)
Definition secondary_only_down_world : World :=
  sample_world None (Some "k2") never_called (fails 500 "upstream down").

(** Only the primary configured, and it fails with 503. *)
Definition primary_only_down_world : World :=
  sample_world (Some "k1") None (fails 503 "unavailable") never_called.

(** Primary unavailable, secondary out of credits. *)
Definition out_of_credits_world : World :=
  sample_world (Some "k1") (Some "k2") (fails 503 "unavailable") (fails 402 "no credits").

(** No credential at all. *)
Definition unconfigured_world : World :=
  sample_world None None never_called never_called.

(** Both provider credentials configured, but neither [SUPABASE_URL] nor
    [SUPABASE_ANON_KEY]. *)
Definition no_supabase_world : World :=
  {| env_get := fun name =>
       if (name =? "GROK_API_KEY")%string then Some "k1"
       else if (name =? "CAMPUS_ASSISTANT_API_KEY")%string then Some "k2"
       else None;
     createClient_throws := needs_url_and_key;
     getClaims := accept;
     fetch := fun url _ => if (url =? grok_url)%string then answers "Hi there"
                           else answers "Hello" |}.

Definition hello_body : json := JObj [ ("message", JStr "Hello") ].

(** A request whose body is not JSON. *)
Definition garbled : Request :=
  post (Some "Bearer token-1")
    (Rejected (ErrorObject "SyntaxError" "Unexpected end of JSON input")).

(** A request without [message]. *)
Definition wordless : Request :=
  post (Some "Bearer token-1") (Resolved (JObj [ ("conversationHistory", JArr []) ])).

(** A request without [Authorization] header. *)
Definition anonymous : Request :=
  post None (Resolved (JObj [ ("message", JStr "Hello") ])).

(** Both credentials configured; the primary is unavailable, the secondary
    answers. *)
Definition primary_unavailable_world : World :=
  sample_world (Some "k1") (Some "k2") (fails 503 "unavailable") (answers "Hello").

Definition hello_with_history : Request :=
  post (Some "Bearer token-1")
    (Resolved (JObj
      [ ("message", JStr "And the fees?");
        ("conversationHistory",
         JArr [ JObj [ ("role", JStr "user"); ("content", JStr "Hi") ];
                JObj [ ("role", JStr "assistant"); ("content", JStr "Hello!") ] ]) ])).

Definition hello_messages : list Message :=
  [ {| role := Some (JStr "system"); content := Some (JStr IARE_SYSTEM_PROMPT) |};
    {| role := Some (JStr "user"); content := Some (JStr "Hello") |} ].

End Samples.

(** ** Vocabulary of the properties *)

Module Spec.

(** The identity verifier accepted the token: the negation of
    [claimsError || !claimsData?.claims]. *)
Definition verified (r : ClaimsResult) : bool :=
  negb (is_set (claims_error r) || negb (truthy (claims_of (claims_data r)))).

(** At least one provider credential is configured. *)
Definition configured (w : World) : bool :=
  truthy_string (env_get w "GROK_API_KEY")
  || truthy_string (env_get w "CAMPUS_ASSISTANT_API_KEY").

(** The client and token the handler verifies for an [Authorization]
    header. *)
Definition client_of (w : World) (authHeader : string) : SupabaseClient :=
  createClient (env_get w "SUPABASE_URL") (env_get w "SUPABASE_ANON_KEY") authHeader.

Definition token_of (authHeader : string) : string :=
  replace "Bearer " "" authHeader.

(** What the identity check of a header settles to: the verifier's answer,
    or what [createClient] or [getClaims] throws. *)
Definition identity (w : World) (authHeader : string) : Tried ClaimsResult :=
  match created w (client_of w authHeader) with
  | Resolved client => getClaims w client (token_of authHeader)
  | Rejected e => Rejected e
  end.

(** The identity check ran to its end and the verifier accepted the token. *)
Definition accepted (w : World) (authHeader : string) : bool :=
  match identity w authHeader with
  | Resolved r => verified r
  | Rejected _ => false
  end.

(** The request is authenticated: it carries a bearer header whose token the
    verifier accepts. *)
Definition authenticated (w : World) (req : Request) (authHeader : string) : Prop :=
  authorization req = Some authHeader /\
  String.prefix "Bearer " authHeader = true /\
  accepted w authHeader = true.

(** The [Authorization] header, when it is a bearer header. *)
Definition bearer_of (req : Request) : option string :=
  match authorization req with
  | Some h => if String.prefix "Bearer " h then Some h else None
  | None => None
  end.

(** [message] is rejected by [!message || typeof message !== 'string']. *)
Definition message_rejected (message : value) : bool :=
  negb (truthy message) || negb (is_string message).

(** The four preconditions hold for a chat request: a credential is
    configured, the request is authenticated with header [authHeader], and
    its body parses to [parsed], whose [message] is the non-empty string
    [message]. *)
Record Passes (w : World) (req : Request) (authHeader : string)
    (parsed : json) (message : string) : Prop := {
  not_preflight : method req <> "OPTIONS";
  some_credential : configured w = true;
  is_authenticated : authenticated w req authHeader;
  body_parses : json_body req = Resolved parsed;
  message_valid : get parsed "message" = Some (JStr message) /\ message <> ""
}.

(** Some precondition fails: the request does not pass the four of them,
    whatever header, body and message one reads in it. *)
Definition precondition_fails (w : World) (req : Request) : Prop :=
  forall h parsed message, ~ Passes w req h parsed message.

(** [conversationHistory] after destructuring with its default. *)
Definition history_of (parsed : json) : json :=
  nullish (get parsed "conversationHistory") (JArr []).

(** The interactions that precede the provider attempts. *)
Definition entry_log (w : World) (authHeader : string) : list Event :=
  [ GetClaims (client_of w authHeader) (token_of authHeader); ReadJson ].

(** Number of requests sent to [url]. *)
Fixpoint calls_to (url : string) (log : list Event) : nat :=
  match log with
  | [] => O
  | Fetch u _ :: rest =>
      if (u =? url)%string then S (calls_to url rest) else calls_to url rest
  | _ :: rest => calls_to url rest
  end.

(** Number of requests sent to any provider. *)
Definition provider_calls (log : list Event) : nat :=
  (calls_to grok_url log + calls_to campus_url log)%nat.

(** A provider result counts as a success for the handler. *)
Definition succeeded (r : ProviderResult) : bool :=
  ok r && truthy (response r).

(** The assembled provider messages of a parsed body with the string
    [message]. *)
Definition assembled (parsed : json) (message : string) : Tried (list Message) :=
  build_messages (Some (JStr message)) (history_of parsed).

(** A primary credential is configured and the primary call returns
    [{ ok: false, status: st, errorDetails: details }]. *)
Definition primary_failed (w : World) (msgs : list Message)
    (st : Z) (details : option string) : Prop :=
  exists key r,
    narrowed (env_get w "GROK_API_KEY") = Some key /\
    fst (call (callGrok w msgs key)) = Resolved r /\
    ok r = false /\ status r = Some st /\ errorDetails r = details.

(** A primary credential is configured and the primary call returns
    [{ ok: true, response: v }]. *)
Definition primary_answered (w : World) (msgs : list Message) (v : value) : Prop :=
  exists key r,
    narrowed (env_get w "GROK_API_KEY") = Some key /\
    fst (call (callGrok w msgs key)) = Resolved r /\
    ok r = true /\ response r = v.

(** A primary credential is configured and the primary call throws [e]. *)
Definition primary_threw (w : World) (msgs : list Message) (e : JsError) : Prop :=
  exists key,
    narrowed (env_get w "GROK_API_KEY") = Some key /\
    fst (call (callGrok w msgs key)) = Rejected e.

(** The same three for the secondary provider. *)
Definition secondary_failed (w : World) (msgs : list Message)
    (st : Z) (details : option string) : Prop :=
  exists key r,
    narrowed (env_get w "CAMPUS_ASSISTANT_API_KEY") = Some key /\
    fst (call (callCampusAssistantAI w msgs key)) = Resolved r /\
    ok r = false /\ status r = Some st /\ errorDetails r = details.

Definition secondary_answered (w : World) (msgs : list Message) (v : value) : Prop :=
  exists key r,
    narrowed (env_get w "CAMPUS_ASSISTANT_API_KEY") = Some key /\
    fst (call (callCampusAssistantAI w msgs key)) = Resolved r /\
    ok r = true /\ response r = v.

Definition secondary_threw (w : World) (msgs : list Message) (e : JsError) : Prop :=
  exists key,
    narrowed (env_get w "CAMPUS_ASSISTANT_API_KEY") = Some key /\
    fst (call (callCampusAssistantAI w msgs key)) = Rejected e.

(** The fallback is attempted only when the primary attempt neither
    succeeded nor returned: no primary credential is configured, or the
    primary call failed with a status of [fallback_statuses]. *)
Definition primary_falls_through (w : World) (msgs : list Message) : Prop :=
  narrowed (env_get w "GROK_API_KEY") = None \/
  exists st details, primary_failed w msgs st details /\ In st fallback_statuses.

(** The HTTP status of what was served. *)
Definition status_of (served : Tried Response * list Event) : option Z :=
  match fst served with
  | Resolved r => Some (Http.status r)
  | Rejected _ => None
  end.

(** A member of the JSON body of what was served. *)
Definition body_member (served : Tried Response * list Event) (k : string) : value :=
  match fst served with
  | Resolved r =>
      match body r with
      | Some b => get b k
      | None => undefined
      end
  | Rejected _ => undefined
  end.

(** The event is a provider request whose body carries [msgs]. *)
Definition sends (msgs : list Message) (ev : Event) : Prop :=
  match ev with
  | Fetch _ init => messages (fetch_body init) = msgs
  | _ => True
  end.

(** A history entry as [map] copies it. *)
Definition entry_message (msg : json) : Message :=
  {| role := get msg "role"; content := get msg "content" |}.

(** A valid history entry: an object whose [role] and [content] are
    strings. *)
Definition valid_entry (msg : json) : Prop :=
  exists r c, get msg "role" = Some (JStr r) /\ get msg "content" = Some (JStr c).

Definition system_message : Message :=
  {| role := Some (JStr "system"); content := Some (JStr IARE_SYSTEM_PROMPT) |}.

Definition user_message (message : string) : Message :=
  {| role := Some (JStr "user"); content := Some (JStr message) |}.

End Spec.
Import Spec.

(** ** Five sentences of the specification, as written

    Each is a proposition about [serve]; the theorems below settle which of
    them the handler satisfies. *)

Module AsWritten.


(** The message is not valid: the body does not parse as JSON, or parses to
    a value without a non-empty string [message]. *)
Definition message_not_valid (req : Request) : Prop :=
  (exists e, json_body req = Rejected e) \/
  (exists parsed,
     json_body req = Resolved parsed /\
     message_rejected (get parsed "message") = true).

(** The fourth precondition: an authenticated request, with a credential
    configured, whose message is not valid is answered 400. *)
Definition invalid_message_is_400 : Prop :=
  forall w req h,
    method req <> "OPTIONS" ->
    configured w = true ->
    authenticated w req h ->
    message_not_valid req ->
    status_of (serve w req) = Some 400.

(** The third precondition: a request with a bearer header whose identity
    verification does not succeed is answered 401. *)
Definition unverified_is_401 : Prop :=
  forall w req h,
    method req <> "OPTIONS" ->
    configured w = true ->
    bearer_of req = Some h ->
    accepted w h = false ->
    status_of (serve w req) = Some 401.

(** A retryable primary failure followed by a secondary answer [t] yields
    200 with [t] and the provider label "secondary". *)
Definition secondary_answer_labelled_secondary : Prop :=
  forall w req h parsed message msgs st details t,
    Passes w req h parsed message ->
    assembled parsed message = Resolved msgs ->
    primary_failed w msgs st details ->
    In st fallback_statuses ->
    secondary_answered w msgs (Some (JStr t)) ->
    t <> "" ->
    status_of (serve w req) = Some 200 /\
    body_member (serve w req) "response" = Some (JStr t) /\
    body_member (serve w req) "provider" = Some (JStr "secondary").

(** A primary answer [t] yields 200 with [t] and the provider label
    "primary", without any request to the secondary provider. *)
Definition primary_answer_labelled_primary : Prop :=
  forall w req h parsed message msgs t,
    Passes w req h parsed message ->
    assembled parsed message = Resolved msgs ->
    primary_answered w msgs (Some (JStr t)) ->
    t <> "" ->
    status_of (serve w req) = Some 200 /\
    body_member (serve w req) "response" = Some (JStr t) /\
    body_member (serve w req) "provider" = Some (JStr "primary") /\
    calls_to campus_url (snd (serve w req)) = 0%nat.

(** The body of the request does not parse as JSON, or its [message] is
    absent, [null], the empty string or not a string. *)
Definition bad_body (req : Request) : Prop :=
  (exists e, json_body req = Rejected e) \/
  (exists parsed,
     json_body req = Resolved parsed /\
     (get parsed "message" = undefined \/
      get parsed "message" = Some JNull \/
      get parsed "message" = Some (JStr "") \/
      is_string (get parsed "message") = false)).

(** Every authenticated request with such a body is answered 400 without
    any request to a provider. *)
Definition bad_body_is_400 : Prop :=
  forall w req h,
    method req <> "OPTIONS" ->
    configured w = true ->
    authenticated w req h ->
    bad_body req ->
    status_of (serve w req) = Some 400 /\
    provider_calls (snd (serve w req)) = 0%nat.

(** When the primary call throws and a secondary credential is configured,
    the secondary provider is still asked. *)
Definition thrown_primary_falls_back : Prop :=
  forall w req h parsed message msgs e key,
    Passes w req h parsed message ->
    assembled parsed message = Resolved msgs ->
    primary_threw w msgs e ->
    narrowed (env_get w "CAMPUS_ASSISTANT_API_KEY") = Some key ->
    calls_to campus_url (snd (serve w req)) = 1%nat.

(** A provider produced no success: it is not configured, or its call
    failed. *)
Definition primary_without_success (w : World) (msgs : list Message) : Prop :=
  narrowed (env_get w "GROK_API_KEY") = None \/
  exists st details, primary_failed w msgs st details.

Definition secondary_without_success (w : World) (msgs : list Message) : Prop :=
  narrowed (env_get w "CAMPUS_ASSISTANT_API_KEY") = None \/
  exists st details, secondary_failed w msgs st details.

(** Whenever neither provider produced a success the answer is 503. *)
Definition no_success_is_503 : Prop :=
  forall w req h parsed message msgs,
    Passes w req h parsed message ->
    assembled parsed message = Resolved msgs ->
    primary_without_success w msgs ->
    secondary_without_success w msgs ->
    status_of (serve w req) = Some 503.

End AsWritten.

(** ** The browser pages that call the edge function

    [sendMessage] of the chat pages builds the body given to
    [supabase.functions.invoke('chat-grok', { body })] from the page's
    [messages] state and reads [data.response] of the answer.  The body the
    handler parses is taken to be the body the page built. *)

Module Client.

(** [role: 'user' | 'assistant'] *)
Inductive Role : Type := user | assistant.

(** [inputType: 'text' | 'voice'] *)
Inductive InputType : Type := text | voice.

(** [interface Message] of the pages. *)
Record Message : Type := mkMessage {
  id : string;
  role : Role;
  content : string;
  inputType : InputType;
  timestamp : string
}.

Definition role_name (r : Role) : string :=
  match r with
  | user => "user"
  | assistant => "assistant"
  end.

(** [arr.slice(-n)]: the last [n] elements, all of them when there are
    fewer. *)
Definition slice_last {A : Type} (n : nat) (arr : list A) : list A :=
  skipn (length arr - n) arr.

(** [{ role: m.role, content: m.content }] *)
Definition history_entry (m : Message) : json :=
  JObj [ ("role", JStr (role_name (role m))); ("content", JStr (content m)) ].

(** [{ message: userMessage,
       conversationHistory: messages.slice(-10).map(m => ({ ... })) }] *)
Definition invoke_body (userMessage : string) (messages : list Message) : json :=
  JObj [ ("message", JStr userMessage);
         ("conversationHistory", JArr (map history_entry (slice_last 10 messages))) ].

(** [data.response || 'I apologize, ...'] *)
Definition reply (data : json) : value :=
  if truthy (get data "response") then get data "response"
  else Some (JStr "I apologize, but I was unable to generate a response. Please try again.").

End Client.

(** ** The paths through the handler

    [Attempted w msgs] lists the ways the provider attempts can end, with
    the interactions of each; [Served w req] does the same for a whole
    request.  The facts below show that the handler always takes one of
    these paths. *)

Module Paths.

(** The answer to a secondary call that did not succeed. *)
Definition campus_failure_response (r : ProviderResult) : Response :=
  if is_status (status r) 429 then
    json_response 429
      [ ("error", Some (JStr "Rate limit exceeded. Please try again in a moment.")) ]
  else if is_status (status r) 402 then
    json_response 402
      [ ("error", Some (JStr "AI credits exhausted. Please add credits to your workspace.")) ]
  else
    json_response 500
      [ ("error", Some (JStr "AI service error. Please try again."));
        ("details", ChatGrok.text (errorDetails r));
        ("status", number (status r)) ].

(** The primary attempt is over without an answer and without [return]:
    the interactions it made. *)
Inductive FellThrough (w : World) (msgs : list Message) : list Event -> Prop :=
| no_primary_key :
    narrowed (env_get w "GROK_API_KEY") = None ->
    FellThrough w msgs []
| primary_retryable (key : string) (r : ProviderResult) :
    narrowed (env_get w "GROK_API_KEY") = Some key ->
    fst (call (callGrok w msgs key)) = Resolved r ->
    succeeded r = false ->
    includes fallback_statuses (nullish (status r) 0) = true ->
    FellThrough w msgs [ Fetch grok_url (grok_init msgs key) ].

Inductive Attempted (w : World) (msgs : list Message)
  : Eff Response Empty_set -> Prop :=
| by_primary (key : string) (r : ProviderResult) :
    narrowed (env_get w "GROK_API_KEY") = Some key ->
    fst (call (callGrok w msgs key)) = Resolved r ->
    succeeded r = true ->
    Attempted w msgs
      (Return (json_response 200
         [ ("response", response r); ("provider", Some (JStr "grok")) ]),
       [ Fetch grok_url (grok_init msgs key) ])
| primary_hard (key : string) (r : ProviderResult) :
    narrowed (env_get w "GROK_API_KEY") = Some key ->
    fst (call (callGrok w msgs key)) = Resolved r ->
    succeeded r = false ->
    includes fallback_statuses (nullish (status r) 0) = false ->
    carries_body (nullish (status r) 500) = true ->
    Attempted w msgs
      (Return (json_response (nullish (status r) 500)
         [ ("error", Some (JStr "AI provider error. Please check your Grok API key."));
           ("details", ChatGrok.text (errorDetails r));
           ("status", number (status r)) ]),
       [ Fetch grok_url (grok_init msgs key) ])
| primary_hard_unanswerable (key : string) (r : ProviderResult) :
    narrowed (env_get w "GROK_API_KEY") = Some key ->
    fst (call (callGrok w msgs key)) = Resolved r ->
    succeeded r = false ->
    includes fallback_statuses (nullish (status r) 0) = false ->
    carries_body (nullish (status r) 500) = false ->
    Attempted w msgs
      (Throw (constructor_error (nullish (status r) 500)),
       [ Fetch grok_url (grok_init msgs key) ])
| primary_thrown (key : string) (e : JsError) :
    narrowed (env_get w "GROK_API_KEY") = Some key ->
    fst (call (callGrok w msgs key)) = Rejected e ->
    Attempted w msgs (Throw e, [ Fetch grok_url (grok_init msgs key) ])
| nobody_left (before : list Event) :
    FellThrough w msgs before ->
    narrowed (env_get w "CAMPUS_ASSISTANT_API_KEY") = None ->
    Attempted w msgs
      (Return (json_response 503
         [ ("error", Some (JStr "No AI provider could fulfill the request.")) ]),
       before)
| by_secondary (before : list Event) (key : string) (r : ProviderResult) :
    FellThrough w msgs before ->
    narrowed (env_get w "CAMPUS_ASSISTANT_API_KEY") = Some key ->
    fst (call (callCampusAssistantAI w msgs key)) = Resolved r ->
    succeeded r = true ->
    Attempted w msgs
      (Return (json_response 200
         [ ("response", response r);
           ("provider", Some (JStr "campus-assistant-ai")) ]),
       before ++ [ Fetch campus_url (campus_init msgs key) ])%list
| secondary_down (before : list Event) (key : string) (r : ProviderResult) :
    FellThrough w msgs before ->
    narrowed (env_get w "CAMPUS_ASSISTANT_API_KEY") = Some key ->
    fst (call (callCampusAssistantAI w msgs key)) = Resolved r ->
    succeeded r = false ->
    Attempted w msgs
      (Return (campus_failure_response r),
       before ++ [ Fetch campus_url (campus_init msgs key) ])%list
| secondary_thrown (before : list Event) (key : string) (e : JsError) :
    FellThrough w msgs before ->
    narrowed (env_get w "CAMPUS_ASSISTANT_API_KEY") = Some key ->
    fst (call (callCampusAssistantAI w msgs key)) = Rejected e ->
    Attempted w msgs
      (Throw e, before ++ [ Fetch campus_url (campus_init msgs key) ])%list.

(** A request to a provider goes to that provider's endpoint and is built
    with that provider's configured credential. *)
Definition own_key (w : World) (ev : Event) : Prop :=
  match ev with
  | Fetch url init =>
      (exists msgs key,
         narrowed (env_get w "GROK_API_KEY") = Some key /\
         url = grok_url /\ init = grok_init msgs key) \/
      (exists msgs key,
         narrowed (env_get w "CAMPUS_ASSISTANT_API_KEY") = Some key /\
         url = campus_url /\ init = campus_init msgs key)
  | _ => True
  end.

(** What the handler makes of the end of its [try] block. *)
Definition settled (c : Completion Response Empty_set) : Tried Response :=
  match c with
  | Normal a => match a with end
  | Return r => Resolved r
  | Throw e => Resolved (json_response 500 [ ("error", Some (JStr (error_message e))) ])
  end.

Definition preflight_response : Response :=
  {| Http.status := 200; headers := corsHeaders; body := None |}.

Inductive Served (w : World) (req : Request)
  : Tried Response * list Event -> Prop :=
| preflight :
    method req = "OPTIONS" ->
    Served w req (Resolved preflight_response, [])
| not_configured :
    method req <> "OPTIONS" ->
    configured w = false ->
    Served w req
      (Resolved (json_response 500
         [ ("error", Some (JStr "AI service not configured. Please contact administrator.")) ]),
       [])
| no_bearer :
    method req <> "OPTIONS" ->
    configured w = true ->
    bearer_of req = None ->
    Served w req (Resolved (json_response 401 [ ("error", Some (JStr "Unauthorized")) ]), [])
| client_thrown (h : string) (e : JsError) :
    method req <> "OPTIONS" ->
    configured w = true ->
    bearer_of req = Some h ->
    created w (client_of w h) = Rejected e ->
    Served w req
      (Resolved (json_response 500 [ ("error", Some (JStr (error_message e))) ]),
       [])
| claims_thrown (h : string) (e : JsError) :
    method req <> "OPTIONS" ->
    configured w = true ->
    bearer_of req = Some h ->
    created w (client_of w h) = Resolved (client_of w h) ->
    getClaims w (client_of w h) (token_of h) = Rejected e ->
    Served w req
      (Resolved (json_response 500 [ ("error", Some (JStr (error_message e))) ]),
       [ GetClaims (client_of w h) (token_of h) ])
| not_verified (h : string) (r : ClaimsResult) :
    method req <> "OPTIONS" ->
    configured w = true ->
    bearer_of req = Some h ->
    identity w h = Resolved r ->
    verified r = false ->
    Served w req (Resolved (json_response 401 [ ("error", Some (JStr "Unauthorized")) ]), [ GetClaims (client_of w h) (token_of h) ])
| body_thrown (h : string) (e : JsError) :
    method req <> "OPTIONS" ->
    configured w = true ->
    authenticated w req h ->
    json_body req = Rejected e ->
    Served w req
      (Resolved (json_response 500 [ ("error", Some (JStr (error_message e))) ]),
       entry_log w h)
| body_null (h : string) :
    method req <> "OPTIONS" ->
    configured w = true ->
    authenticated w req h ->
    json_body req = Resolved JNull ->
    Served w req
      (Resolved (json_response 500
         [ ("error", Some (JStr "Cannot destructure 'message' of null")) ]),
       entry_log w h)
| bad_message (h : string) (parsed : json) :
    method req <> "OPTIONS" ->
    configured w = true ->
    authenticated w req h ->
    json_body req = Resolved parsed ->
    parsed <> JNull ->
    message_rejected (get parsed "message") = true ->
    Served w req
      (Resolved (json_response 400 [ ("error", Some (JStr "Message is required")) ]),
       entry_log w h)
| assembly_thrown (h : string) (parsed : json) (message : string) (e : JsError) :
    Passes w req h parsed message ->
    assembled parsed message = Rejected e ->
    Served w req
      (Resolved (json_response 500 [ ("error", Some (JStr (error_message e))) ]),
       entry_log w h)
| providers_asked (h : string) (parsed : json) (message : string)
    (msgs : list Message) (c : Completion Response Empty_set) (l : list Event) :
    Passes w req h parsed message ->
    assembled parsed message = Resolved msgs ->
    Attempted w msgs (c, l) ->
    Served w req (settled c, entry_log w h ++ l)%list.

End Paths.

(** ** Facts about the building blocks *)

Local Open Scope list_scope.

Section Building_blocks.

Lemma narrowed_truthy (key : option string) :
  truthy_string key = is_set (narrowed key).
Proof.
  destruct key as [k|]; simpl; [|reflexivity].
  destruct (k =? "")%string; reflexivity.
Qed.

Lemma narrowed_intro (k : string) :
  k <> "" -> narrowed (Some k) = Some k.
Proof.
  intros Hk. simpl.
  destruct (String.eqb_spec k ""); [contradiction | reflexivity].
Qed.

Lemma narrowed_elim (key : option string) (k : string) :
  narrowed key = Some k -> key = Some k /\ k <> "".
Proof.
  destruct key as [k'|]; simpl; [|discriminate].
  destruct (String.eqb_spec k' ""); [discriminate|].
  intros [= <-]. split; [reflexivity | assumption].
Qed.

Lemma includes_In (l : list Z) (n : Z) :
  includes l n = true <-> In n l.
Proof.
  unfold includes. rewrite existsb_exists. split.
  - intros [x [Hin Heq]]. apply Z.eqb_eq in Heq. subst. assumption.
  - intros Hin. exists n. split; [assumption | apply Z.eqb_refl].
Qed.

Lemma includes_not_In (l : list Z) (n : Z) :
  includes l n = false <-> ~ In n l.
Proof.
  rewrite <- includes_In. destruct (includes l n); split; congruence.
Qed.

(** The constructor builds the response exactly for the statuses that
    carry a body. *)
Lemma new_Response_carries (b : json) (st : Z) (hs : list (string * string)) :
  carries_body st = true ->
  new_Response (Some b) st hs
  = Resolved {| Http.status := st; headers := hs; body := Some b |}.
Proof.
  unfold carries_body, new_Response. intros H.
  apply andb_prop in H as [Hrange Hnull]. rewrite Hrange. cbn [negb].
  apply negb_true_iff in Hnull. rewrite Hnull. reflexivity.
Qed.

Lemma new_Response_refuses (b : json) (st : Z) (hs : list (string * string)) :
  carries_body st = false ->
  new_Response (Some b) st hs = Rejected (constructor_error st).
Proof.
  unfold carries_body, new_Response, constructor_error. intros H.
  destruct ((200 <=? st) && (st <=? 599)); cbn [negb andb] in *; [|reflexivity].
  apply negb_false_iff in H. rewrite H. reflexivity.
Qed.

Lemma return_response_carries {A : Type} (st : Z) (members : list (string * value)) :
  carries_body st = true ->
  @return_response A st members = return_ (json_response st members).
Proof.
  intros H. unfold return_response, return_new.
  rewrite (new_Response_carries _ _ _ H). reflexivity.
Qed.

Lemma return_response_refuses {A : Type} (st : Z) (members : list (string * value)) :
  carries_body st = false ->
  @return_response A st members = throw (constructor_error st).
Proof.
  intros H. unfold return_response, return_new.
  rewrite (new_Response_refuses _ _ _ H). reflexivity.
Qed.

Lemma calls_to_app (url : string) (l1 l2 : list Event) :
  calls_to url (l1 ++ l2) = (calls_to url l1 + calls_to url l2)%nat.
Proof.
  induction l1 as [|ev l1 IH]; simpl; [reflexivity|].
  destruct ev as [client token| |u init]; try assumption.
  destruct (u =? url)%string; simpl; congruence.
Qed.

(** A provider client sends exactly one request, whatever comes of it. *)
Lemma callGrok_log (w : World) (msgs : list Message) (key : string) :
  snd (call (callGrok w msgs key)) = [ Fetch grok_url (grok_init msgs key) ].
Proof.
  unfold callGrok.
  destruct (fetch w grok_url (grok_init msgs key)) as [up|e]; simpl; [|reflexivity].
  destruct (upstream_text up) as [t|e]; simpl; [|reflexivity].
  destruct (upstream_ok up); simpl; [|reflexivity].
  destruct (upstream_json up) as [data|e]; simpl; [|reflexivity].
  destruct (first_choice_content data); reflexivity.
Qed.

Lemma callCampusAssistantAI_log (w : World) (msgs : list Message) (key : string) :
  snd (call (callCampusAssistantAI w msgs key))
  = [ Fetch campus_url (campus_init msgs key) ].
Proof.
  unfold callCampusAssistantAI.
  destruct (fetch w campus_url (campus_init msgs key)) as [up|e]; simpl; [|reflexivity].
  destruct (upstream_text up) as [t|e]; simpl; [|reflexivity].
  destruct (upstream_ok up); simpl; [|reflexivity].
  destruct (upstream_json up) as [data|e]; simpl; [|reflexivity].
  destruct (first_choice_content data); reflexivity.
Qed.

(** A result with [ok: true] carries neither [status] nor [errorDetails]. *)
Lemma callGrok_ok_shape (w : World) (msgs : list Message) (key : string)
    (r : ProviderResult) :
  fst (call (callGrok w msgs key)) = Resolved r ->
  ok r = true ->
  status r = None /\ errorDetails r = None.
Proof.
  unfold callGrok.
  destruct (fetch w grok_url (grok_init msgs key)) as [up|e]; simpl; [|discriminate].
  destruct (upstream_text up) as [t|e]; simpl; [|discriminate].
  destruct (upstream_ok up); simpl.
  - destruct (upstream_json up) as [data|e]; simpl; [|discriminate].
    destruct (first_choice_content data); simpl; [|discriminate].
    intros [= <-] _. split; reflexivity.
  - intros [= <-]. discriminate.
Qed.

Lemma callCampusAssistantAI_ok_shape (w : World) (msgs : list Message) (key : string)
    (r : ProviderResult) :
  fst (call (callCampusAssistantAI w msgs key)) = Resolved r ->
  ok r = true ->
  status r = None /\ errorDetails r = None.
Proof.
  unfold callCampusAssistantAI.
  destruct (fetch w campus_url (campus_init msgs key)) as [up|e]; simpl; [|discriminate].
  destruct (upstream_text up) as [t|e]; simpl; [|discriminate].
  destruct (upstream_ok up); simpl.
  - destruct (upstream_json up) as [data|e]; simpl; [|discriminate].
    destruct (first_choice_content data); simpl; [|discriminate].
    intros [= <-] _. split; reflexivity.
  - intros [= <-]. discriminate.
Qed.

(** A result with [ok: false] repeats the upstream status and raw body. *)
Lemma callGrok_failed_shape (w : World) (msgs : list Message) (key : string)
    (r : ProviderResult) :
  fst (call (callGrok w msgs key)) = Resolved r ->
  ok r = false ->
  exists up raw,
    fetch w grok_url (grok_init msgs key) = Resolved up /\
    upstream_ok up = false /\
    upstream_text up = Resolved raw /\
    status r = Some (upstream_status up) /\
    errorDetails r = Some raw.
Proof.
  unfold callGrok.
  destruct (fetch w grok_url (grok_init msgs key)) as [up|e]; simpl; [|discriminate].
  destruct (upstream_text up) as [t|e] eqn:Ht; simpl; [|discriminate].
  destruct (upstream_ok up) eqn:Hok; simpl.
  - destruct (upstream_json up) as [data|e]; simpl; [|discriminate].
    destruct (first_choice_content data); simpl; [|discriminate].
    intros [= <-]. discriminate.
  - intros [= <-] _. exists up, t. repeat split; assumption.
Qed.

Lemma invoke_resolved {R R' : Type} (f : Eff R' Empty_set) (r : R') :
  fst (call f) = Resolved r ->
  @invoke R R' f = (Normal r, snd (call f)).
Proof.
  unfold invoke. destruct (call f) as [[x|e] l]; simpl; congruence.
Qed.

Lemma invoke_rejected {R R' : Type} (f : Eff R' Empty_set) (e : JsError) :
  fst (call f) = Rejected e ->
  @invoke R R' f = (Throw e, snd (call f)).
Proof.
  unfold invoke. destruct (call f) as [[x|e'] l]; simpl; congruence.
Qed.

End Building_blocks.

(** ** The three blocks, case by case *)

Section Blocks.

Variable w : World.
Variable msgs : list Message.

Ltac run_call Hcall :=
  first [ rewrite (invoke_resolved _ _ Hcall) | rewrite (invoke_rejected _ _ Hcall) ];
  first [ rewrite callGrok_log | rewrite callCampusAssistantAI_log ];
  cbn [bind ret return_ fst snd app].

Lemma try_grok_skipped (ai : value) (used : string) :
  narrowed (env_get w "GROK_API_KEY") = None ->
  try_grok w msgs ai used = (Normal (ai, used), []).
Proof.
  intros Hkey. unfold try_grok. rewrite Hkey. reflexivity.
Qed.

Lemma try_grok_succeeded (ai : value) (used key : string) (r : ProviderResult) :
  narrowed (env_get w "GROK_API_KEY") = Some key ->
  fst (call (callGrok w msgs key)) = Resolved r ->
  succeeded r = true ->
  try_grok w msgs ai used
  = (Normal (response r, "grok"), [ Fetch grok_url (grok_init msgs key) ]).
Proof.
  intros Hkey Hcall Hs. unfold try_grok. rewrite Hkey.
  run_call Hcall. unfold succeeded in Hs. rewrite Hs. reflexivity.
Qed.

Lemma try_grok_hard_failure (ai : value) (used key : string) (r : ProviderResult) :
  narrowed (env_get w "GROK_API_KEY") = Some key ->
  fst (call (callGrok w msgs key)) = Resolved r ->
  succeeded r = false ->
  includes fallback_statuses (nullish (status r) 0) = false ->
  carries_body (nullish (status r) 500) = true ->
  try_grok w msgs ai used
  = (Return (json_response (nullish (status r) 500)
       [ ("error", Some (JStr "AI provider error. Please check your Grok API key."));
         ("details", text (errorDetails r));
         ("status", number (status r)) ]),
     [ Fetch grok_url (grok_init msgs key) ]).
Proof.
  intros Hkey Hcall Hs Hinc Hcarries. unfold try_grok. rewrite Hkey.
  run_call Hcall. unfold succeeded in Hs. rewrite Hs, Hinc. cbn [negb].
  rewrite (return_response_carries _ _ Hcarries). reflexivity.
Qed.

(** A hard failure whose status no response with a body can carry: the
    constructor throws. *)
Lemma try_grok_hard_unanswerable (ai : value) (used key : string) (r : ProviderResult) :
  narrowed (env_get w "GROK_API_KEY") = Some key ->
  fst (call (callGrok w msgs key)) = Resolved r ->
  succeeded r = false ->
  includes fallback_statuses (nullish (status r) 0) = false ->
  carries_body (nullish (status r) 500) = false ->
  try_grok w msgs ai used
  = (Throw (constructor_error (nullish (status r) 500)),
     [ Fetch grok_url (grok_init msgs key) ]).
Proof.
  intros Hkey Hcall Hs Hinc Hcarries. unfold try_grok. rewrite Hkey.
  run_call Hcall. unfold succeeded in Hs. rewrite Hs, Hinc. cbn [negb].
  rewrite (return_response_refuses _ _ Hcarries). reflexivity.
Qed.

Lemma try_grok_retryable_failure (ai : value) (used key : string) (r : ProviderResult) :
  narrowed (env_get w "GROK_API_KEY") = Some key ->
  fst (call (callGrok w msgs key)) = Resolved r ->
  succeeded r = false ->
  includes fallback_statuses (nullish (status r) 0) = true ->
  try_grok w msgs ai used
  = (Normal (ai, used), [ Fetch grok_url (grok_init msgs key) ]).
Proof.
  intros Hkey Hcall Hs Hinc. unfold try_grok. rewrite Hkey.
  run_call Hcall. unfold succeeded in Hs. rewrite Hs, Hinc. reflexivity.
Qed.

Lemma try_grok_threw (ai : value) (used key : string) (e : JsError) :
  narrowed (env_get w "GROK_API_KEY") = Some key ->
  fst (call (callGrok w msgs key)) = Rejected e ->
  try_grok w msgs ai used = (Throw e, [ Fetch grok_url (grok_init msgs key) ]).
Proof.
  intros Hkey Hcall. unfold try_grok. rewrite Hkey.
  run_call Hcall. reflexivity.
Qed.

(** When the primary attempt falls through, the variables keep their initial
    values and at most the one primary request was sent. *)
Lemma try_grok_falls_through :
  primary_falls_through w msgs ->
  exists log,
    try_grok w msgs undefined "none" = (Normal (undefined, "none"), log) /\
    calls_to campus_url log = 0%nat /\
    (calls_to grok_url log <= 1)%nat.
Proof.
  intros [Hnone | (st & details & (key & r & Hkey & Hcall & Hok & Hst & _) & Hin)].
  - exists []. split; [apply try_grok_skipped; assumption | split; simpl; lia].
  - exists [ Fetch grok_url (grok_init msgs key) ]. split.
    + apply try_grok_retryable_failure with (r := r); try assumption.
      * unfold succeeded. rewrite Hok. reflexivity.
      * rewrite Hst. simpl nullish. apply includes_In. assumption.
    + split; simpl; lia.
Qed.

Lemma fallback_skipped_after_success (ai : value) (used : string) :
  truthy ai = true ->
  fallback_to_campus w msgs ai used = (Normal (ai, used), []).
Proof.
  intros Hai. unfold fallback_to_campus. rewrite Hai. reflexivity.
Qed.

Lemma fallback_skipped_without_key (ai : value) (used : string) :
  narrowed (env_get w "CAMPUS_ASSISTANT_API_KEY") = None ->
  fallback_to_campus w msgs ai used = (Normal (ai, used), []).
Proof.
  intros Hkey. unfold fallback_to_campus. rewrite Hkey.
  destruct (negb (truthy ai)); reflexivity.
Qed.

Lemma fallback_succeeded (ai : value) (used key : string) (r : ProviderResult) :
  truthy ai = false ->
  narrowed (env_get w "CAMPUS_ASSISTANT_API_KEY") = Some key ->
  fst (call (callCampusAssistantAI w msgs key)) = Resolved r ->
  succeeded r = true ->
  fallback_to_campus w msgs ai used
  = (Normal (response r, "campus-assistant-ai"),
     [ Fetch campus_url (campus_init msgs key) ]).
Proof.
  intros Hai Hkey Hcall Hs. unfold fallback_to_campus.
  rewrite Hai, Hkey. cbn [negb].
  run_call Hcall. unfold succeeded in Hs. rewrite Hs. reflexivity.
Qed.

Lemma fallback_failed (ai : value) (used key : string) (r : ProviderResult) :
  truthy ai = false ->
  narrowed (env_get w "CAMPUS_ASSISTANT_API_KEY") = Some key ->
  fst (call (callCampusAssistantAI w msgs key)) = Resolved r ->
  succeeded r = false ->
  fallback_to_campus w msgs ai used
  = (Return
       (if is_status (status r) 429 then
          json_response 429
            [ ("error", Some (JStr "Rate limit exceeded. Please try again in a moment.")) ]
        else if is_status (status r) 402 then
          json_response 402
            [ ("error", Some (JStr "AI credits exhausted. Please add credits to your workspace.")) ]
        else
          json_response 500
            [ ("error", Some (JStr "AI service error. Please try again."));
              ("details", text (errorDetails r));
              ("status", number (status r)) ]),
     [ Fetch campus_url (campus_init msgs key) ]).
Proof.
  intros Hai Hkey Hcall Hs. unfold fallback_to_campus.
  rewrite Hai, Hkey. cbn [negb].
  run_call Hcall. unfold succeeded in Hs. rewrite Hs.
  destruct (is_status (status r) 429); [reflexivity|].
  destruct (is_status (status r) 402); reflexivity.
Qed.

Lemma fallback_threw (ai : value) (used key : string) (e : JsError) :
  truthy ai = false ->
  narrowed (env_get w "CAMPUS_ASSISTANT_API_KEY") = Some key ->
  fst (call (callCampusAssistantAI w msgs key)) = Rejected e ->
  fallback_to_campus w msgs ai used
  = (Throw e, [ Fetch campus_url (campus_init msgs key) ]).
Proof.
  intros Hai Hkey Hcall. unfold fallback_to_campus.
  rewrite Hai, Hkey. cbn [negb].
  run_call Hcall. reflexivity.
Qed.

End Blocks.

(** ** The preconditions, one after the other *)

Lemma return_response_log {A : Type} (st : Z) (members : list (string * value)) :
  snd (return_response (A := A) st members) = [].
Proof.
  unfold return_response, return_new.
  destruct (new_Response _ _ _); reflexivity.
Qed.

Lemma handler_catch_returns (e : JsError) :
  handler_catch e
  = return_ (json_response 500 [ ("error", Some (JStr (error_message e))) ]).
Proof.
  reflexivity.
Qed.

Lemma created_same (w : World) (client client' : SupabaseClient) :
  created w client = Resolved client' -> client' = client.
Proof.
  unfold created. destruct (createClient_throws w client); [discriminate|].
  intros [= <-]. reflexivity.
Qed.

Lemma identity_resolved (w : World) (h : string) (r : ClaimsResult) :
  identity w h = Resolved r <->
  created w (client_of w h) = Resolved (client_of w h) /\
  getClaims w (client_of w h) (token_of h) = Resolved r.
Proof.
  unfold identity. split.
  - destruct (created w (client_of w h)) as [c|e] eqn:Hc; [|discriminate].
    apply created_same in Hc as Heq. subst c. auto.
  - intros [-> Hr]. exact Hr.
Qed.

Lemma accepted_elim (w : World) (h : string) :
  accepted w h = true ->
  exists r, identity w h = Resolved r /\ verified r = true.
Proof.
  unfold accepted. destruct (identity w h) as [r|e]; [|discriminate].
  intros Hv. exists r. auto.
Qed.

Section Preconditions.

Variable w : World.
Variable req : Request.
Hypothesis not_options : method req <> "OPTIONS".

Ltac enter :=
  unfold serve, handler;
  let Hopt := fresh "Hopt" in
  destruct (String.eqb_spec (method req) "OPTIONS") as [Hopt|_];
  [ contradiction | unfold handler_try; rewrite <- negb_orb ].

Lemma serve_not_configured :
  configured w = false ->
  serve w req
  = (Resolved (json_response 500
       [ ("error", Some (JStr "AI service not configured. Please contact administrator.")) ]),
     []).
Proof.
  intros Hc. enter. unfold configured in Hc. rewrite Hc. reflexivity.
Qed.

Lemma serve_no_header :
  configured w = true ->
  authorization req = None ->
  serve w req = (Resolved (json_response 401 [ ("error", Some (JStr "Unauthorized")) ]), []).
Proof.
  intros Hc Ha. enter. unfold configured in Hc. rewrite Hc, Ha. reflexivity.
Qed.

Lemma serve_not_bearer (h : string) :
  configured w = true ->
  authorization req = Some h ->
  String.prefix "Bearer " h = false ->
  serve w req = (Resolved (json_response 401 [ ("error", Some (JStr "Unauthorized")) ]), []).
Proof.
  intros Hc Ha Hp. enter. unfold configured in Hc. rewrite Hc, Ha, Hp. reflexivity.
Qed.

Lemma serve_client_threw (h : string) (e : JsError) :
  configured w = true ->
  authorization req = Some h ->
  String.prefix "Bearer " h = true ->
  created w (client_of w h) = Rejected e ->
  serve w req
  = (Resolved (json_response 500 [ ("error", Some (JStr (error_message e))) ]), []).
Proof.
  intros Hc Ha Hp Hcr. enter. unfold configured in Hc. rewrite Hc, Ha, Hp.
  unfold client_of in Hcr. cbn [negb bind ret]. rewrite Hcr. reflexivity.
Qed.

Lemma serve_claims_threw (h : string) (e : JsError) :
  configured w = true ->
  authorization req = Some h ->
  String.prefix "Bearer " h = true ->
  created w (client_of w h) = Resolved (client_of w h) ->
  getClaims w (client_of w h) (token_of h) = Rejected e ->
  serve w req
  = (Resolved (json_response 500 [ ("error", Some (JStr (error_message e))) ]),
     [ GetClaims (client_of w h) (token_of h) ]).
Proof.
  intros Hc Ha Hp Hcr Hcl. enter. unfold configured in Hc. rewrite Hc, Ha, Hp.
  unfold client_of, token_of in Hcr, Hcl. cbn [negb bind ret]. rewrite Hcr.
  cbn [eval bind ret]. rewrite Hcl. reflexivity.
Qed.

Lemma serve_not_verified (h : string) (r : ClaimsResult) :
  configured w = true ->
  authorization req = Some h ->
  String.prefix "Bearer " h = true ->
  identity w h = Resolved r ->
  verified r = false ->
  serve w req
  = (Resolved (json_response 401 [ ("error", Some (JStr "Unauthorized")) ]), [ GetClaims (client_of w h) (token_of h) ]).
Proof.
  intros Hc Ha Hp Hid Hv. enter. unfold configured in Hc. rewrite Hc, Ha, Hp.
  apply identity_resolved in Hid as [Hcr Hcl].
  unfold client_of, token_of in Hcr, Hcl. cbn [negb bind ret]. rewrite Hcr.
  cbn [eval bind ret]. rewrite Hcl. cbn [await bind].
  unfold verified in Hv. apply negb_false_iff in Hv. rewrite Hv. reflexivity.
Qed.

Section Authenticated.

Variable h : string.
Hypothesis is_configured : configured w = true.
Hypothesis is_authenticated : authenticated w req h.

Ltac pass_auth :=
  enter;
  destruct is_authenticated as (Ha & Hp & Hacc);
  destruct (accepted_elim w h Hacc) as (claimsResult & Hid & Hv);
  apply identity_resolved in Hid as [Hcr Hcl];
  unfold configured in is_configured; rewrite is_configured, Ha, Hp;
  unfold client_of, token_of in Hcr, Hcl;
  cbn [negb bind ret]; rewrite Hcr; cbn [eval bind ret]; rewrite Hcl;
  cbn [await bind];
  unfold verified in Hv; apply negb_true_iff in Hv; rewrite Hv;
  cbn [app];
  fold (token_of h); fold (client_of w h).

Lemma serve_body_unparsed (e : JsError) :
  json_body req = Rejected e ->
  serve w req
  = (Resolved (json_response 500 [ ("error", Some (JStr (error_message e))) ]),
     entry_log w h).
Proof.
  intros Hb. pass_auth. rewrite Hb. reflexivity.
Qed.

Lemma serve_body_null :
  json_body req = Resolved JNull ->
  serve w req
  = (Resolved (json_response 500
       [ ("error", Some (JStr "Cannot destructure 'message' of null")) ]),
     entry_log w h).
Proof.
  intros Hb. pass_auth. rewrite Hb. reflexivity.
Qed.

Lemma serve_message_invalid (parsed : json) :
  json_body req = Resolved parsed ->
  parsed <> JNull ->
  truthy (get parsed "message") && is_string (get parsed "message") = false ->
  serve w req
  = (Resolved (json_response 400 [ ("error", Some (JStr "Message is required")) ]),
     entry_log w h).
Proof.
  intros Hb Hn Hm. pass_auth. rewrite Hb.
  destruct parsed; try contradiction;
    cbn [await bind eval destructure ret app];
    rewrite <- negb_andb, Hm; reflexivity.
Qed.

(** A request that passes the four preconditions reaches the message
    assembly; when that succeeds the provider attempts decide the rest, and
    an exception they raise is answered by the [catch] block. *)
Lemma serve_reaches_providers (parsed : json) (message : string) (msgs : list Message) :
  json_body req = Resolved parsed ->
  get parsed "message" = Some (JStr message) ->
  message <> "" ->
  build_messages (Some (JStr message)) (history_of parsed) = Resolved msgs ->
  serve w req
  = (fst (call (try_catch (attempt_providers w msgs) handler_catch)),
     entry_log w h ++ snd (call (try_catch (attempt_providers w msgs) handler_catch))).
Proof.
  intros Hb Hm Hne Hbuild. pass_auth. rewrite Hb.
  assert (Ht : truthy (Some (JStr message)) = true).
  { simpl. destruct (String.eqb_spec message ""); [contradiction | reflexivity]. }
  unfold history_of in Hbuild.
  destruct parsed; try discriminate Hm.
  cbn [await bind eval destructure ret app].
  rewrite Hm, Ht. cbn [is_string negb orb].
  rewrite Hbuild. cbn [eval bind ret app].
  destruct (attempt_providers w msgs) as [[a|r|e] l]; [destruct a | reflexivity | reflexivity].
Qed.

Lemma serve_assembly_threw (parsed : json) (message : string) (e : JsError) :
  json_body req = Resolved parsed ->
  get parsed "message" = Some (JStr message) ->
  message <> "" ->
  build_messages (Some (JStr message)) (history_of parsed) = Rejected e ->
  serve w req
  = (Resolved (json_response 500 [ ("error", Some (JStr (error_message e))) ]),
     entry_log w h).
Proof.
  intros Hb Hm Hne Hbuild. pass_auth. rewrite Hb.
  assert (Ht : truthy (Some (JStr message)) = true).
  { simpl. destruct (String.eqb_spec message ""); [contradiction | reflexivity]. }
  unfold history_of in Hbuild.
  destruct parsed; try discriminate Hm.
  cbn [await bind eval destructure ret app].
  rewrite Hm, Ht. cbn [is_string negb orb].
  rewrite Hbuild. reflexivity.
Qed.

End Authenticated.

End Preconditions.

(** ** The handler's outcomes *)

Section Outcomes.

Variable w : World.
Variable req : Request.
Variable h : string.
Variable parsed : json.
Variable message : string.
Variable msgs : list Message.

Hypothesis passes : Passes w req h parsed message.
Hypothesis assembly : assembled parsed message = Resolved msgs.

(** The common first step of every outcome below. *)
Lemma passes_reaches_providers :
  serve w req
  = (fst (call (try_catch (attempt_providers w msgs) handler_catch)),
     entry_log w h ++ snd (call (try_catch (attempt_providers w msgs) handler_catch))).
Proof.
  destruct passes as [Hm Hc Hauth Hb [Hmsg Hne]].
  apply serve_reaches_providers with (parsed := parsed) (message := message);
    assumption.
Qed.

Lemma outcome_primary_success (key : string) (r : ProviderResult) :
  narrowed (env_get w "GROK_API_KEY") = Some key ->
  fst (call (callGrok w msgs key)) = Resolved r ->
  succeeded r = true ->
  serve w req
  = (Resolved (json_response 200
       [ ("response", response r); ("provider", Some (JStr "grok")) ]),
     entry_log w h ++ [ Fetch grok_url (grok_init msgs key) ]).
Proof.
  intros Hkey Hcall Hs. rewrite passes_reaches_providers.
  unfold attempt_providers.
  rewrite (try_grok_succeeded w msgs _ _ key r Hkey Hcall Hs).
  cbn [bind]. unfold succeeded in Hs. apply andb_prop in Hs as [_ Ht].
  rewrite (fallback_skipped_after_success w msgs _ _ Ht).
  cbn [bind]. unfold respond. rewrite Ht. reflexivity.
Qed.

Lemma outcome_primary_hard_failure (key : string) (r : ProviderResult) :
  narrowed (env_get w "GROK_API_KEY") = Some key ->
  fst (call (callGrok w msgs key)) = Resolved r ->
  succeeded r = false ->
  includes fallback_statuses (nullish (status r) 0) = false ->
  carries_body (nullish (status r) 500) = true ->
  serve w req
  = (Resolved (json_response (nullish (status r) 500)
       [ ("error", Some (JStr "AI provider error. Please check your Grok API key."));
         ("details", text (errorDetails r));
         ("status", number (status r)) ]),
     entry_log w h ++ [ Fetch grok_url (grok_init msgs key) ]).
Proof.
  intros Hkey Hcall Hs Hinc Hcarries. rewrite passes_reaches_providers.
  unfold attempt_providers.
  rewrite (try_grok_hard_failure w msgs _ _ key r Hkey Hcall Hs Hinc Hcarries).
  reflexivity.
Qed.


Lemma outcome_primary_threw (key : string) (e : JsError) :
  narrowed (env_get w "GROK_API_KEY") = Some key ->
  fst (call (callGrok w msgs key)) = Rejected e ->
  serve w req
  = (Resolved (json_response 500 [ ("error", Some (JStr (error_message e))) ]),
     entry_log w h ++ [ Fetch grok_url (grok_init msgs key) ]).
Proof.
  intros Hkey Hcall. rewrite passes_reaches_providers.
  unfold attempt_providers.
  rewrite (try_grok_threw w msgs _ _ key e Hkey Hcall).
  reflexivity.
Qed.

(** After a primary attempt that falls through, the fallback block and the
    final block decide the response. *)
Lemma outcome_after_fall_through :
  primary_falls_through w msgs ->
  exists log,
    calls_to campus_url log = 0%nat /\
    (calls_to grok_url log <= 1)%nat /\
    serve w req
    = (fst (call (try_catch
              ('(ai, used) <- fallback_to_campus w msgs undefined "none" ;;
               respond ai used)%eff handler_catch)),
       entry_log w h ++ log ++
       snd (call (try_catch
              ('(ai, used) <- fallback_to_campus w msgs undefined "none" ;;
               respond ai used)%eff handler_catch))).
Proof.
  intros Hft. destruct (try_grok_falls_through w msgs Hft) as (log & Htry & Hc & Hg).
  exists log. split; [assumption | split; [assumption|]].
  rewrite passes_reaches_providers. unfold attempt_providers. rewrite Htry.
  cbn [bind].
  destruct (bind (fallback_to_campus w msgs undefined "none") _) as [[a|r|e] l];
    [ destruct a
    | reflexivity
    | cbn [call try_catch fst snd]; rewrite handler_catch_returns;
      cbn [return_ call fst snd]; rewrite <- app_assoc; reflexivity ].
Qed.

End Outcomes.

(** A CORS preflight is answered before anything else. *)
Lemma serve_preflight (w : World) (req : Request) :
  method req = "OPTIONS" ->
  serve w req
  = (Resolved {| Http.status := 200; headers := corsHeaders; body := None |}, []).
Proof.
  intros Hm. unfold serve, handler. rewrite Hm. reflexivity.
Qed.

(** A provider is asked only for a request that passes the four
    preconditions and whose messages assemble: the hypotheses under which
    the outcomes below are stated are exactly those under which a provider
    call returns anything at all. *)
Lemma provider_call_needs_preconditions (w : World) (req : Request) :
  (0 < provider_calls (snd (serve w req)))%nat ->
  exists h parsed message msgs,
    Passes w req h parsed message /\
    assembled parsed message = Resolved msgs.
Proof.
  intros Hcalls.
  destruct (String.eqb_spec (method req) "OPTIONS") as [Hm|Hm].
  { rewrite (serve_preflight w req Hm) in Hcalls. cbn in Hcalls. lia. }
  destruct (configured w) eqn:Hc.
  2:{ rewrite (serve_not_configured w req Hm Hc) in Hcalls. cbn in Hcalls. lia. }
  destruct (authorization req) as [h|] eqn:Ha.
  2:{ rewrite (serve_no_header w req Hm Hc Ha) in Hcalls. cbn in Hcalls. lia. }
  destruct (String.prefix "Bearer " h) eqn:Hp.
  2:{ rewrite (serve_not_bearer w req Hm h Hc Ha Hp) in Hcalls. cbn in Hcalls. lia. }
  destruct (created w (client_of w h)) as [c|e] eqn:Hcr.
  2:{ rewrite (serve_client_threw w req Hm h e Hc Ha Hp Hcr) in Hcalls.
      cbn in Hcalls. lia. }
  apply created_same in Hcr as Heq. subst c.
  destruct (getClaims w (client_of w h) (token_of h)) as [r|e] eqn:Hcl.
  2:{ rewrite (serve_claims_threw w req Hm h e Hc Ha Hp Hcr Hcl) in Hcalls.
      cbn in Hcalls. lia. }
  assert (Hid : identity w h = Resolved r) by (apply identity_resolved; auto).
  destruct (verified r) eqn:Hv.
  2:{ rewrite (serve_not_verified w req Hm h r Hc Ha Hp Hid Hv) in Hcalls.
      cbn in Hcalls. lia. }
  assert (Hauth : authenticated w req h).
  { repeat split; try assumption. unfold accepted. rewrite Hid. exact Hv. }
  destruct (json_body req) as [parsed|e] eqn:Hj.
  2:{ rewrite (serve_body_unparsed w req Hm h Hc Hauth e Hj) in Hcalls.
      cbn in Hcalls. lia. }
  destruct (truthy (get parsed "message") && is_string (get parsed "message")) eqn:Hr.
  2:{ destruct parsed;
        try (rewrite (serve_message_invalid w req Hm h Hc Hauth _ Hj
                        ltac:(discriminate) Hr) in Hcalls;
             cbn in Hcalls; lia).
      rewrite (serve_body_null w req Hm h Hc Hauth Hj) in Hcalls.
      cbn in Hcalls. lia. }
  apply andb_prop in Hr as [Ht Hs].
  destruct (get parsed "message") as [[| | |message| |]|] eqn:Hmsg; try discriminate Hs.
  assert (Hne : message <> "").
  { intros ->. discriminate Ht. }
  destruct (assembled parsed message) as [msgs|e] eqn:Hasm.
  2:{ rewrite (serve_assembly_threw w req Hm h Hc Hauth parsed message e
                 Hj Hmsg Hne Hasm) in Hcalls.
      cbn in Hcalls. lia. }
  exists h, parsed, message, msgs. split; [|exact Hasm].
  constructor; try assumption. split; assumption.
Qed.

(** ** Properties of the relay *)

(** How the hypotheses are met on the sample worlds: by evaluation. *)
Ltac by_evaluation :=
  lazymatch goal with
  | |- Passes _ _ _ _ _ =>
      constructor;
      [ discriminate | reflexivity | repeat split; reflexivity | reflexivity
      | split; [ reflexivity | discriminate ] ]
  | |- primary_failed _ _ _ _ => eexists _, _; repeat split; reflexivity
  | |- secondary_failed _ _ _ _ => eexists _, _; repeat split; reflexivity
  | |- primary_answered _ _ _ => eexists _, _; repeat split; reflexivity
  | |- secondary_answered _ _ _ => eexists _, _; repeat split; reflexivity
  | |- primary_threw _ _ _ => eexists; split; reflexivity
  | |- secondary_threw _ _ _ => eexists; split; reflexivity
  | |- ~ In _ _ => simpl; intuition discriminate
  | |- In _ _ => simpl; tauto
  | |- _ <> _ => discriminate
  | |- _ = _ => reflexivity
  end.




(** C3, as the handler has it.  For a request that passes all
    preconditions, when a primary credential is configured and the primary
    call returns [ok: true] with the non-empty text [t], the handler answers
    200 with [t] and the provider label "grok", and no request is sent to
    the secondary provider. *)
Theorem primary_answer_is_relayed
    (w : World) (req : Request) (h : string) (parsed : json) (message : string)
    (msgs : list Message) (t : string) :
  Passes w req h parsed message ->
  assembled parsed message = Resolved msgs ->
  primary_answered w msgs (Some (JStr t)) ->
  t <> "" ->
  fst (serve w req)
  = Resolved (json_response 200
      [ ("response", Some (JStr t)); ("provider", Some (JStr "grok")) ]) /\
  status_of (serve w req) = Some 200 /\
  body_member (serve w req) "response" = Some (JStr t) /\
  body_member (serve w req) "provider" = Some (JStr "grok") /\
  calls_to campus_url (snd (serve w req)) = 0%nat /\
  calls_to grok_url (snd (serve w req)) = 1%nat.
Proof.
  intros HP Hasm (key & r & Hkey & Hcall & Hok & Hresp) Hne.
  assert (Hs : succeeded r = true).
  { unfold succeeded. rewrite Hok, Hresp. simpl.
    destruct (String.eqb_spec t ""); [contradiction | reflexivity]. }
  rewrite (outcome_primary_success w req h parsed message msgs HP Hasm key r Hkey Hcall Hs).
  rewrite Hresp. unfold status_of, body_member. cbn [fst snd].
  rewrite !calls_to_app.
  repeat (split; [reflexivity|]). reflexivity.
Qed.

Lemma primary_answer_witness :
  fst (serve Samples.primary_up_world Samples.hello)
  = Resolved (json_response 200
      [ ("response", Some (JStr "Hi there")); ("provider", Some (JStr "grok")) ]) /\
  calls_to campus_url (snd (serve Samples.primary_up_world Samples.hello)) = 0%nat.
Proof.
  destruct (primary_answer_is_relayed
              Samples.primary_up_world Samples.hello "Bearer token-1"
              Samples.hello_body "Hello" Samples.hello_messages "Hi there"
              ltac:(by_evaluation)
              ltac:(by_evaluation)
              ltac:(by_evaluation)
              ltac:(by_evaluation))
    as (Hresp & _ & _ & _ & Hcalls & _).
  split; [exact Hresp | exact Hcalls].
Defined.

(** C3, as written, fails: the label the handler puts in the [provider]
    field of a primary answer is "grok", not "primary". *)
Lemma primary_label_counterexample :
  body_member (serve Samples.primary_up_world Samples.hello) "provider"
  = Some (JStr "grok") /\
  ~ AsWritten.primary_answer_labelled_primary.
Proof.
  split; [reflexivity|].
  intros Hclaim.
  destruct (Hclaim Samples.primary_up_world Samples.hello "Bearer token-1"
              Samples.hello_body "Hello" Samples.hello_messages "Hi there"
              ltac:(by_evaluation)
              ltac:(by_evaluation)
              ltac:(by_evaluation)
              ltac:(by_evaluation))
    as (_ & _ & Hlabel & _).
  discriminate Hlabel.
Qed.

(** C10.  When the primary call returns [ok: true] with an empty or missing
    text, the handler does not fall back, whether or not a secondary
    credential is configured: the result carries no status, so the failure
    counts as hard and the answer is 500, with neither [details] nor
    [status] in its body. *)
Theorem empty_primary_answer_is_hard_failure
    (w : World) (req : Request) (h : string) (parsed : json) (message : string)
    (msgs : list Message) (v : value) :
  Passes w req h parsed message ->
  assembled parsed message = Resolved msgs ->
  primary_answered w msgs v ->
  truthy v = false ->
  fst (serve w req)
  = Resolved (json_response 500
      [ ("error", Some (JStr "AI provider error. Please check your Grok API key."));
        ("details", undefined);
        ("status", undefined) ]) /\
  status_of (serve w req) = Some 500 /\
  body_member (serve w req) "details" = undefined /\
  calls_to campus_url (snd (serve w req)) = 0%nat.
Proof.
  intros HP Hasm (key & r & Hkey & Hcall & Hok & Hresp) Hv.
  destruct (callGrok_ok_shape w msgs key r Hcall Hok) as [Hst Hd].
  assert (Hs : succeeded r = false).
  { unfold succeeded. rewrite Hresp, Hv. apply andb_false_r. }
  assert (Hinc : includes fallback_statuses (nullish (status r) 0) = false)
    by (rewrite Hst; reflexivity).
  assert (Hcarries : carries_body (nullish (status r) 500) = true)
    by (rewrite Hst; reflexivity).
  rewrite (outcome_primary_hard_failure w req h parsed message msgs HP Hasm
             key r Hkey Hcall Hs Hinc Hcarries).
  rewrite Hst, Hd. unfold status_of, body_member. cbn [fst snd].
  rewrite calls_to_app.
  repeat (split; [reflexivity|]). reflexivity.
Qed.

Lemma empty_primary_answer_witness :
  status_of (serve Samples.no_choices_world Samples.hello) = Some 500 /\
  calls_to campus_url (snd (serve Samples.no_choices_world Samples.hello)) = 0%nat /\
  narrowed (env_get Samples.no_choices_world "CAMPUS_ASSISTANT_API_KEY") = Some "k2".
Proof.
  destruct (empty_primary_answer_is_hard_failure
              Samples.no_choices_world Samples.hello "Bearer token-1"
              Samples.hello_body "Hello" Samples.hello_messages undefined
              ltac:(by_evaluation)
              ltac:(by_evaluation)
              ltac:(by_evaluation)
              ltac:(by_evaluation))
    as (_ & Hstatus & _ & Hcalls).
  split; [exact Hstatus | split; [exact Hcalls | reflexivity]].
Defined.

(** C2, as the handler has it.  For a request that passes all
    preconditions, when the primary call fails with a status among 403, 429,
    500, 502, 503, a secondary credential is configured and the secondary
    call returns the non-empty text [t], the handler answers 200 with [t]
    and the provider label "campus-assistant-ai". *)
Theorem retryable_failure_falls_back
    (w : World) (req : Request) (h : string) (parsed : json) (message : string)
    (msgs : list Message) (st : Z) (details : option string) (t : string) :
  Passes w req h parsed message ->
  assembled parsed message = Resolved msgs ->
  primary_failed w msgs st details ->
  In st fallback_statuses ->
  secondary_answered w msgs (Some (JStr t)) ->
  t <> "" ->
  fst (serve w req)
  = Resolved (json_response 200
      [ ("response", Some (JStr t));
        ("provider", Some (JStr "campus-assistant-ai")) ]) /\
  status_of (serve w req) = Some 200 /\
  body_member (serve w req) "response" = Some (JStr t) /\
  body_member (serve w req) "provider" = Some (JStr "campus-assistant-ai") /\
  calls_to campus_url (snd (serve w req)) = 1%nat.
Proof.
  intros HP Hasm Hfail Hin (key & r & Hkey & Hcall & Hok & Hresp) Hne.
  assert (Hs : succeeded r = true).
  { unfold succeeded. rewrite Hok, Hresp. simpl.
    destruct (String.eqb_spec t ""); [contradiction | reflexivity]. }
  assert (Hft : primary_falls_through w msgs)
    by (right; exists st, details; split; assumption).
  destruct (outcome_after_fall_through w req h parsed message msgs HP Hasm Hft)
    as (log & Hc & _ & Hserve).
  rewrite Hserve.
  rewrite (fallback_succeeded w msgs undefined "none" key r eq_refl Hkey Hcall Hs).
  cbn [bind]. unfold respond.
  unfold succeeded in Hs. apply andb_prop in Hs as [_ Ht]. rewrite Ht, Hresp.
  unfold status_of, body_member. cbn [fst snd negb call try_catch return_ app].
  rewrite !calls_to_app, Hc.
  repeat (split; [reflexivity|]). reflexivity.
Qed.

Lemma retryable_failure_witness :
  fst (serve Samples.rate_limited_world Samples.hello)
  = Resolved (json_response 200
      [ ("response", Some (JStr "Hello"));
        ("provider", Some (JStr "campus-assistant-ai")) ]).
Proof.
  destruct (retryable_failure_falls_back
              Samples.rate_limited_world Samples.hello "Bearer token-1"
              Samples.hello_body "Hello" Samples.hello_messages
              429 (Some "slow down") "Hello"
              ltac:(by_evaluation)
              ltac:(by_evaluation)
              ltac:(by_evaluation)
              ltac:(by_evaluation)
              ltac:(by_evaluation)
              ltac:(by_evaluation))
    as (Hresp & _).
  exact Hresp.
Defined.

(** C2, as written, fails: the label the handler puts in the [provider]
    field of a secondary answer is "campus-assistant-ai", not "secondary". *)
Lemma secondary_label_counterexample :
  body_member (serve Samples.rate_limited_world Samples.hello) "provider"
  = Some (JStr "campus-assistant-ai") /\
  ~ AsWritten.secondary_answer_labelled_secondary.
Proof.
  split; [reflexivity|].
  intros Hclaim.
  destruct (Hclaim Samples.rate_limited_world Samples.hello "Bearer token-1"
              Samples.hello_body "Hello" Samples.hello_messages
              429 (Some "slow down") "Hello"
              ltac:(by_evaluation)
              ltac:(by_evaluation)
              ltac:(by_evaluation)
              ltac:(by_evaluation)
              ltac:(by_evaluation)
              ltac:(by_evaluation))
    as (_ & _ & Hlabel).
  discriminate Hlabel.
Qed.

(** C4.  Whenever the fallback is attempted (no primary credential, or a
    primary failure with a status among 403, 429, 500, 502, 503) and the
    secondary call fails, the handler answers 429 with a rate-limit message
    when the secondary status is 429, 402 with a credits-exhausted message
    when it is 402, and otherwise 500 with the upstream status and raw
    body (a secondary answer without text is among the "otherwise": 500
    without status); in every case exactly one request was sent to the
    secondary provider. *)
Theorem secondary_failure_is_mapped
    (w : World) (req : Request) (h : string) (parsed : json) (message : string)
    (msgs : list Message) :
  Passes w req h parsed message ->
  assembled parsed message = Resolved msgs ->
  primary_falls_through w msgs ->
  (forall st details,
   secondary_failed w msgs st details ->
   (st = 429 ->
    status_of (serve w req) = Some 429 /\
    body_member (serve w req) "error"
    = Some (JStr "Rate limit exceeded. Please try again in a moment.") /\
    fst (serve w req)
    = Resolved (json_response 429
        [ ("error", Some (JStr "Rate limit exceeded. Please try again in a moment.")) ])) /\
   (st = 402 ->
    status_of (serve w req) = Some 402 /\
    body_member (serve w req) "error"
    = Some (JStr "AI credits exhausted. Please add credits to your workspace.") /\
    fst (serve w req)
    = Resolved (json_response 402
        [ ("error", Some (JStr "AI credits exhausted. Please add credits to your workspace.")) ])) /\
   (st <> 429 -> st <> 402 ->
    status_of (serve w req) = Some 500 /\
    body_member (serve w req) "error"
    = Some (JStr "AI service error. Please try again.") /\
    body_member (serve w req) "details" = text details /\
    body_member (serve w req) "status" = Some (JNum (inject_Z st)) /\
    fst (serve w req)
    = Resolved (json_response 500
        [ ("error", Some (JStr "AI service error. Please try again."));
          ("details", text details);
          ("status", Some (JNum (inject_Z st))) ])) /\
   calls_to campus_url (snd (serve w req)) = 1%nat) /\
  (forall v,
   secondary_answered w msgs v ->
   truthy v = false ->
   status_of (serve w req) = Some 500 /\
   body_member (serve w req) "error"
   = Some (JStr "AI service error. Please try again.") /\
   body_member (serve w req) "details" = undefined /\
   body_member (serve w req) "status" = undefined /\
   fst (serve w req)
   = Resolved (json_response 500
       [ ("error", Some (JStr "AI service error. Please try again."));
         ("details", undefined);
         ("status", undefined) ]) /\
   calls_to campus_url (snd (serve w req)) = 1%nat).
Proof.
  intros HP Hasm Hft.
  destruct (outcome_after_fall_through w req h parsed message msgs HP Hasm Hft)
    as (log & Hc & _ & Hserve).
  rewrite Hserve. unfold status_of, body_member. split.
  - intros st details (key & r & Hkey & Hcall & Hok & Hst & Hd).
    assert (Hs : succeeded r = false) by (unfold succeeded; rewrite Hok; reflexivity).
    rewrite (fallback_failed w msgs undefined "none" key r eq_refl Hkey Hcall Hs).
    rewrite Hst, Hd. cbn [bind is_status number call try_catch fst snd].
    split; [|split; [|split]].
    + intros ->. repeat split.
    + intros ->. repeat split.
    + intros H429 H402.
      destruct (Z.eqb_spec st 429); [contradiction|].
      destruct (Z.eqb_spec st 402); [contradiction|].
      destruct details; repeat split.
    + rewrite !calls_to_app, Hc. reflexivity.
  - intros v (key & r & Hkey & Hcall & Hok & Hresp) Hv.
    destruct (callCampusAssistantAI_ok_shape w msgs key r Hcall Hok) as [Hst Hd].
    assert (Hs : succeeded r = false).
    { unfold succeeded. rewrite Hresp, Hv. apply andb_false_r. }
    rewrite (fallback_failed w msgs undefined "none" key r eq_refl Hkey Hcall Hs).
    rewrite Hst, Hd. cbn [bind is_status number text call try_catch fst snd].
    rewrite !calls_to_app, Hc. repeat split.
Qed.

Lemma secondary_failure_witness :
  status_of (serve Samples.out_of_credits_world Samples.hello) = Some 402 /\
  body_member (serve Samples.out_of_credits_world Samples.hello) "error"
  = Some (JStr "AI credits exhausted. Please add credits to your workspace.") /\
  calls_to campus_url (snd (serve Samples.out_of_credits_world Samples.hello)) = 1%nat.
Proof.
  destruct (secondary_failure_is_mapped
              Samples.out_of_credits_world Samples.hello "Bearer token-1"
              Samples.hello_body "Hello" Samples.hello_messages
              ltac:(by_evaluation)
              ltac:(by_evaluation)
              ltac:(right; exists 503, (Some "unavailable"); split; by_evaluation))
    as (Hfailed & _).
  destruct (Hfailed 402 (Some "no credits") ltac:(by_evaluation))
    as (_ & H402 & _ & Hcalls).
  destruct (H402 eq_refl) as (Hstatus & Herror & _).
  split; [exact Hstatus | split; [exact Herror | exact Hcalls]].
Defined.

(** C9, as the handler has it.  For a request that passes all
    preconditions, when the primary call fails with a status among 403, 429,
    500, 502, 503 and no secondary credential is configured, the handler
    answers 503 with the message that no provider could fulfill the
    request. *)
Theorem exhausted_providers_is_503
    (w : World) (req : Request) (h : string) (parsed : json) (message : string)
    (msgs : list Message) (st : Z) (details : option string) :
  Passes w req h parsed message ->
  assembled parsed message = Resolved msgs ->
  primary_failed w msgs st details ->
  In st fallback_statuses ->
  narrowed (env_get w "CAMPUS_ASSISTANT_API_KEY") = None ->
  fst (serve w req)
  = Resolved (json_response 503
      [ ("error", Some (JStr "No AI provider could fulfill the request.")) ]) /\
  status_of (serve w req) = Some 503 /\
  calls_to campus_url (snd (serve w req)) = 0%nat.
Proof.
  intros HP Hasm Hfail Hin Hnone.
  assert (Hft : primary_falls_through w msgs)
    by (right; exists st, details; split; assumption).
  destruct (outcome_after_fall_through w req h parsed message msgs HP Hasm Hft)
    as (log & Hc & _ & Hserve).
  rewrite Hserve.
  rewrite (fallback_skipped_without_key w msgs undefined "none" Hnone).
  unfold status_of. cbn [bind respond truthy negb call try_catch return_ fst snd].
  rewrite !calls_to_app, Hc.
  repeat (split; [reflexivity|]). reflexivity.
Qed.

Lemma exhausted_providers_witness :
  status_of (serve Samples.primary_only_down_world Samples.hello) = Some 503.
Proof.
  destruct (exhausted_providers_is_503
              Samples.primary_only_down_world Samples.hello "Bearer token-1"
              Samples.hello_body "Hello" Samples.hello_messages
              503 (Some "unavailable")
              ltac:(by_evaluation)
              ltac:(by_evaluation)
              ltac:(by_evaluation)
              ltac:(by_evaluation)
              ltac:(by_evaluation))
    as (_ & Hstatus & _).
  exact Hstatus.
Defined.

(** C9, as written, fails on its own first example: with no primary
    credential and a secondary call that fails with 500, neither provider
    produced a success, and the answer is 500, not 503. *)
Lemma no_success_counterexample :
  narrowed (env_get Samples.secondary_only_down_world "GROK_API_KEY") = None /\
  secondary_failed Samples.secondary_only_down_world Samples.hello_messages
    500 (Some "upstream down") /\
  status_of (serve Samples.secondary_only_down_world Samples.hello) = Some 500 /\
  ~ AsWritten.no_success_is_503.
Proof.
  split; [reflexivity|]. split; [by_evaluation|]. split; [reflexivity|].
  intros Hclaim.
  assert (Hstatus :
    status_of (serve Samples.secondary_only_down_world Samples.hello) = Some 503).
  { apply (Hclaim Samples.secondary_only_down_world Samples.hello "Bearer token-1"
             Samples.hello_body "Hello" Samples.hello_messages);
      try by_evaluation.
    - left. reflexivity.
    - right. exists 500, (Some "upstream down"). by_evaluation. }
  discriminate Hstatus.
Qed.

(** C8, as the handler has it.  A provider call that throws is not treated
    as a retryable failure: the [catch] block answers 500 with the message
    of the exception.  When it is the primary call that throws, no request
    is sent to the secondary provider; when it is the secondary call, after
    a primary attempt that fell through, that one request was the last. *)
Theorem thrown_provider_call_is_500
    (w : World) (req : Request) (h : string) (parsed : json) (message : string)
    (msgs : list Message) (e : JsError) :
  Passes w req h parsed message ->
  assembled parsed message = Resolved msgs ->
  (primary_threw w msgs e ->
   status_of (serve w req) = Some 500 /\
   body_member (serve w req) "error" = Some (JStr (error_message e)) /\
   fst (serve w req)
   = Resolved (json_response 500 [ ("error", Some (JStr (error_message e))) ]) /\
   calls_to campus_url (snd (serve w req)) = 0%nat) /\
  (primary_falls_through w msgs ->
   secondary_threw w msgs e ->
   status_of (serve w req) = Some 500 /\
   body_member (serve w req) "error" = Some (JStr (error_message e)) /\
   fst (serve w req)
   = Resolved (json_response 500 [ ("error", Some (JStr (error_message e))) ]) /\
   calls_to campus_url (snd (serve w req)) = 1%nat).
Proof.
  intros HP Hasm. split.
  - intros (key & Hkey & Hcall).
    rewrite (outcome_primary_threw w req h parsed message msgs HP Hasm key e Hkey Hcall).
    unfold status_of, body_member. cbn [fst snd]. rewrite calls_to_app.
    repeat split.
  - intros Hft (key & Hkey & Hcall).
    destruct (outcome_after_fall_through w req h parsed message msgs HP Hasm Hft)
      as (log & Hc & _ & Hserve).
    rewrite Hserve.
    rewrite (fallback_threw w msgs undefined "none" key e eq_refl Hkey Hcall).
    unfold status_of, body_member.
    cbn [bind call try_catch fst snd]. rewrite handler_catch_returns.
    cbn [return_ call fst snd].
    rewrite !calls_to_app, Hc. repeat split.
Qed.

Lemma thrown_provider_call_witness :
  status_of (serve Samples.primary_unreachable_world Samples.hello) = Some 500 /\
  body_member (serve Samples.primary_unreachable_world Samples.hello) "error"
  = Some (JStr "error sending request") /\
  calls_to campus_url (snd (serve Samples.primary_unreachable_world Samples.hello)) = 0%nat.
Proof.
  destruct (thrown_provider_call_is_500
              Samples.primary_unreachable_world Samples.hello "Bearer token-1"
              Samples.hello_body "Hello" Samples.hello_messages
              (TypeError "error sending request")
              ltac:(by_evaluation)
              ltac:(by_evaluation))
    as (Hprimary & _).
  destruct (Hprimary ltac:(by_evaluation)) as (Hstatus & Herror & _ & Hcalls).
  split; [exact Hstatus | split; [exact Herror | exact Hcalls]].
Defined.

(** C8, as written, fails: the primary endpoint cannot be reached, a
    secondary credential is configured and its endpoint would answer, yet
    the answer is 500 and the secondary provider is never asked; in the
    same world with a primary that fails with 503 the secondary is asked
    and the answer is 200. *)
Lemma thrown_primary_counterexample :
  primary_threw Samples.primary_unreachable_world Samples.hello_messages
    (TypeError "error sending request") /\
  narrowed (env_get Samples.primary_unreachable_world "CAMPUS_ASSISTANT_API_KEY")
  = Some "k2" /\
  status_of (serve Samples.primary_unreachable_world Samples.hello) = Some 500 /\
  calls_to campus_url (snd (serve Samples.primary_unreachable_world Samples.hello)) = 0%nat /\
  status_of (serve Samples.primary_unavailable_world Samples.hello) = Some 200 /\
  calls_to campus_url (snd (serve Samples.primary_unavailable_world Samples.hello)) = 1%nat /\
  ~ AsWritten.thrown_primary_falls_back.
Proof.
  split; [by_evaluation|]. repeat (split; [reflexivity|]).
  intros Hclaim.
  assert (Hcalls :
    calls_to campus_url (snd (serve Samples.primary_unreachable_world Samples.hello))
    = 1%nat).
  { apply (Hclaim Samples.primary_unreachable_world Samples.hello "Bearer token-1"
             Samples.hello_body "Hello" Samples.hello_messages
             (TypeError "error sending request") "k2");
      by_evaluation. }
  discriminate Hcalls.
Qed.

Lemma bearer_of_some (req : Request) (h : string) :
  bearer_of req = Some h <->
  authorization req = Some h /\ String.prefix "Bearer " h = true.
Proof.
  unfold bearer_of. destruct (authorization req) as [h'|].
  - destruct (String.prefix "Bearer " h') eqn:Hp; split.
    + intros [= <-]. split; [reflexivity | assumption].
    + intros [[= <-] _]. reflexivity.
    + discriminate.
    + intros [[= <-] Hp']. congruence.
  - split; [discriminate | intros [H _]; discriminate H].
Qed.

Lemma bearer_of_none (req : Request) :
  bearer_of req = None ->
  authorization req = None \/
  exists h, authorization req = Some h /\ String.prefix "Bearer " h = false.
Proof.
  unfold bearer_of. destruct (authorization req) as [h|]; [|left; reflexivity].
  destruct (String.prefix "Bearer " h) eqn:Hp; [discriminate|].
  intros _. right. exists h. split; [reflexivity | assumption].
Qed.

Lemma message_rejected_spec (m : value) :
  message_rejected m = true <-> truthy m && is_string m = false.
Proof.
  unfold message_rejected. rewrite <- negb_andb. apply negb_true_iff.
Qed.

(** C5, as the handler has it.  The preconditions are evaluated in a fixed
    order and the first one that fails decides the answer: without any
    provider credential, 500 "not configured" before any authentication or
    body parsing; else without bearer header, 401; else when the verifier
    answers and does not accept the token, 401 before the body is read;
    else when the body has parsed to a value other than [null] whose
    [message] is rejected, 400.  An identity check that throws and a body
    that does not parse are answered 500 from the [catch] block.  Whenever
    the request does not pass the four preconditions, for these or any
    other reason, no request is sent to a provider. *)
Theorem preconditions_in_order (w : World) (req : Request) :
  method req <> "OPTIONS" ->
  (configured w = false ->
   status_of (serve w req) = Some 500 /\
   body_member (serve w req) "error"
   = Some (JStr "AI service not configured. Please contact administrator.") /\
   snd (serve w req) = []) /\
  (configured w = true ->
   bearer_of req = None ->
   status_of (serve w req) = Some 401 /\
   body_member (serve w req) "error" = Some (JStr "Unauthorized") /\
   snd (serve w req) = []) /\
  (forall h r,
   configured w = true ->
   bearer_of req = Some h ->
   identity w h = Resolved r ->
   verified r = false ->
   status_of (serve w req) = Some 401 /\
   body_member (serve w req) "error" = Some (JStr "Unauthorized") /\
   snd (serve w req) = [ GetClaims (client_of w h) (token_of h) ]) /\
  (forall h parsed,
   configured w = true ->
   authenticated w req h ->
   json_body req = Resolved parsed ->
   parsed <> JNull ->
   message_rejected (get parsed "message") = true ->
   status_of (serve w req) = Some 400 /\
   body_member (serve w req) "error" = Some (JStr "Message is required") /\
   snd (serve w req) = [ GetClaims (client_of w h) (token_of h); ReadJson ]) /\
  (forall h e,
   configured w = true ->
   bearer_of req = Some h ->
   identity w h = Rejected e ->
   status_of (serve w req) = Some 500 /\
   body_member (serve w req) "error" = Some (JStr (error_message e))) /\
  (forall h e,
   configured w = true ->
   authenticated w req h ->
   json_body req = Rejected e ->
   status_of (serve w req) = Some 500 /\
   body_member (serve w req) "error" = Some (JStr (error_message e))) /\
  (precondition_fails w req -> provider_calls (snd (serve w req)) = 0%nat).
Proof.
  intros Hm. unfold status_of, body_member.
  split; [|split; [|split; [|split; [|split; [|split]]]]].
  - intros Hc. rewrite (serve_not_configured w req Hm Hc). repeat split.
  - intros Hc Hb. destruct (bearer_of_none req Hb) as [Hn | (h & Ha & Hp)].
    + rewrite (serve_no_header w req Hm Hc Hn). repeat split.
    + rewrite (serve_not_bearer w req Hm h Hc Ha Hp). repeat split.
  - intros h r Hc Hb Hid Hv. apply bearer_of_some in Hb as [Ha Hp].
    rewrite (serve_not_verified w req Hm h r Hc Ha Hp Hid Hv). repeat split.
  - intros h parsed Hc Hauth Hj Hn Hr. apply message_rejected_spec in Hr.
    rewrite (serve_message_invalid w req Hm h Hc Hauth parsed Hj Hn Hr).
    repeat split.
  - intros h e Hc Hb Hid. apply bearer_of_some in Hb as [Ha Hp].
    unfold identity in Hid.
    destruct (created w (client_of w h)) as [client|e'] eqn:Hcr.
    + pose proof (created_same w _ _ Hcr) as ->.
      rewrite (serve_claims_threw w req Hm h e Hc Ha Hp Hcr Hid). split; reflexivity.
    + injection Hid as ->.
      rewrite (serve_client_threw w req Hm h e Hc Ha Hp Hcr). split; reflexivity.
  - intros h e Hc Hauth Hj.
    rewrite (serve_body_unparsed w req Hm h Hc Hauth e Hj). split; reflexivity.
  - intros Hfail.
    destruct (provider_calls (snd (serve w req))) as [|n] eqn:Hcalls; [reflexivity|].
    exfalso.
    destruct (provider_call_needs_preconditions w req)
      as (h & parsed & message & msgs & HP & _).
    + rewrite Hcalls. lia.
    + exact (Hfail h parsed message HP).
Qed.

Lemma preconditions_witness :
  status_of (serve Samples.unconfigured_world Samples.anonymous) = Some 500 /\
  snd (serve Samples.unconfigured_world Samples.anonymous) = [] /\
  status_of (serve Samples.primary_up_world Samples.anonymous) = Some 401 /\
  status_of (serve Samples.primary_up_world Samples.wordless) = Some 400 /\
  provider_calls (snd (serve Samples.primary_up_world Samples.wordless)) = 0%nat.
Proof.
  destruct (preconditions_in_order Samples.unconfigured_world Samples.anonymous
              ltac:(discriminate))
    as (Hnone & _).
  destruct (preconditions_in_order Samples.primary_up_world Samples.anonymous
              ltac:(discriminate))
    as (_ & Hanon & _).
  destruct (preconditions_in_order Samples.primary_up_world Samples.wordless
              ltac:(discriminate))
    as (_ & _ & _ & Hbad & _ & _ & Hnever).
  destruct (Hnone eq_refl) as (H500 & _ & Hlog).
  destruct (Hanon eq_refl eq_refl) as (H401 & _).
  destruct (Hbad "Bearer token-1" (JObj [ ("conversationHistory", JArr []) ])
              eq_refl ltac:(repeat split; reflexivity) eq_refl
              ltac:(discriminate) eq_refl)
    as (H400 & _).
  split; [exact H500|]. split; [exact Hlog|]. split; [exact H401|].
  split; [exact H400|].
  apply Hnever. intros h parsed message [_ _ _ Hbody [Hmsg _]].
  injection Hbody as <-. discriminate Hmsg.
Defined.

(** C5, as written, fails in its fourth clause: an authenticated request
    whose body is not JSON has no valid message, and is answered 500, not
    400.  It fails in its third clause too: without [SUPABASE_URL] the
    identity verification does not succeed, [createClient] throwing, and the
    answer is 500, not 401. *)
Lemma invalid_message_counterexample :
  (authenticated Samples.primary_up_world Samples.garbled "Bearer token-1" /\
   AsWritten.message_not_valid Samples.garbled /\
   status_of (serve Samples.primary_up_world Samples.garbled) = Some 500 /\
   ~ AsWritten.invalid_message_is_400) /\
  (accepted Samples.no_supabase_world "Bearer token-1" = false /\
   status_of (serve Samples.no_supabase_world Samples.hello) = Some 500 /\
   ~ AsWritten.unverified_is_401).
Proof.
  assert (Hauth : authenticated Samples.primary_up_world Samples.garbled "Bearer token-1")
    by (repeat split; reflexivity).
  assert (Hbad : AsWritten.message_not_valid Samples.garbled)
    by (left; eexists; reflexivity).
  split.
  - split; [exact Hauth|]. split; [exact Hbad|]. split; [reflexivity|].
    intros Hclaim.
    pose proof (Hclaim Samples.primary_up_world Samples.garbled "Bearer token-1"
                  ltac:(discriminate) eq_refl Hauth Hbad) as Hstatus.
    discriminate Hstatus.
  - split; [reflexivity|]. split; [reflexivity|].
    intros Hclaim.
    pose proof (Hclaim Samples.no_supabase_world Samples.hello "Bearer token-1"
                  ltac:(discriminate) eq_refl eq_refl eq_refl) as Hstatus.
    discriminate Hstatus.
Qed.

(** C6, as the handler has it.  For an authenticated request, with a
    provider credential configured: when the body parses to a value other
    than [null] whose [message] is absent, [null], the empty string or not a
    string, the answer is 400; when the body does not parse as JSON, the
    [catch] block answers 500 with the parser's message.  In both cases no
    request is sent to a provider. *)
Theorem bad_body_is_rejected (w : World) (req : Request) (h : string) :
  method req <> "OPTIONS" ->
  configured w = true ->
  authenticated w req h ->
  (forall parsed,
   json_body req = Resolved parsed ->
   parsed <> JNull ->
   (get parsed "message" = undefined \/
    get parsed "message" = Some JNull \/
    get parsed "message" = Some (JStr "") \/
    is_string (get parsed "message") = false) ->
   status_of (serve w req) = Some 400 /\
   body_member (serve w req) "error" = Some (JStr "Message is required") /\
   fst (serve w req)
   = Resolved (json_response 400 [ ("error", Some (JStr "Message is required")) ]) /\
   provider_calls (snd (serve w req)) = 0%nat) /\
  (forall e,
   json_body req = Rejected e ->
   status_of (serve w req) = Some 500 /\
   body_member (serve w req) "error" = Some (JStr (error_message e)) /\
   fst (serve w req)
   = Resolved (json_response 500 [ ("error", Some (JStr (error_message e))) ]) /\
   provider_calls (snd (serve w req)) = 0%nat).
Proof.
  intros Hm Hc Hauth. unfold status_of, body_member. split.
  - intros parsed Hj Hn Hbad.
    assert (Hr : truthy (get parsed "message") && is_string (get parsed "message") = false).
    { destruct Hbad as [-> | [-> | [-> | ->]]];
        [reflexivity | reflexivity | reflexivity | apply andb_false_r]. }
    rewrite (serve_message_invalid w req Hm h Hc Hauth parsed Hj Hn Hr).
    repeat split.
  - intros e Hj.
    rewrite (serve_body_unparsed w req Hm h Hc Hauth e Hj).
    repeat split.
Qed.

Lemma bad_body_witness :
  status_of (serve Samples.primary_up_world Samples.wordless) = Some 400 /\
  body_member (serve Samples.primary_up_world Samples.wordless) "error"
  = Some (JStr "Message is required") /\
  provider_calls (snd (serve Samples.primary_up_world Samples.wordless)) = 0%nat.
Proof.
  destruct (bad_body_is_rejected Samples.primary_up_world Samples.wordless
              "Bearer token-1"
              ltac:(discriminate)
              ltac:(reflexivity)
              ltac:(repeat split; reflexivity))
    as (Hbad & _).
  destruct (Hbad (JObj [ ("conversationHistory", JArr []) ])
              eq_refl ltac:(discriminate) (or_introl eq_refl))
    as (Hstatus & Herror & _ & Hcalls).
  split; [exact Hstatus | split; [exact Herror | exact Hcalls]].
Defined.

(** C6, as written, fails: an authenticated request whose body is not JSON
    is answered 500, not 400. *)
Lemma unparsed_body_counterexample :
  authenticated Samples.primary_up_world Samples.garbled "Bearer token-1" /\
  AsWritten.bad_body Samples.garbled /\
  status_of (serve Samples.primary_up_world Samples.garbled) = Some 500 /\
  ~ AsWritten.bad_body_is_400.
Proof.
  assert (Hauth : authenticated Samples.primary_up_world Samples.garbled "Bearer token-1")
    by (repeat split; reflexivity).
  assert (Hbad : AsWritten.bad_body Samples.garbled)
    by (left; eexists; reflexivity).
  split; [exact Hauth|]. split; [exact Hbad|]. split; [reflexivity|].
  intros Hclaim.
  destruct (Hclaim Samples.primary_up_world Samples.garbled "Bearer token-1"
              ltac:(discriminate) eq_refl Hauth Hbad) as [Hstatus _].
  discriminate Hstatus.
Qed.

(** [map] over entries none of which is [null] copies [role] and [content]
    of each, in order. *)
Lemma map_history_entries (items : list json) :
  Forall (fun msg => msg <> JNull) items ->
  map_history items = Resolved (map entry_message items).
Proof.
  induction 1 as [|msg items Hmsg _ IH]; [reflexivity|].
  cbn [map_history map]. rewrite IH.
  unfold member, entry_message. destruct msg; try reflexivity. contradiction.
Qed.

Lemma valid_entry_not_null (msg : json) :
  valid_entry msg -> msg <> JNull.
Proof.
  intros (r & c & Hr & _) ->. discriminate Hr.
Qed.

(** The log of a completed [try] block is that of its statements. *)
Lemma caught_log (m : Eff Response Empty_set) :
  snd (call (try_catch m handler_catch)) = snd m.
Proof.
  destruct m as [[a|r|e] l]; [destruct a | reflexivity |].
  cbn. apply app_nil_r.
Qed.

Lemma try_grok_sends (w : World) (msgs : list Message) (ai : value) (used : string) :
  Forall (sends msgs) (snd (try_grok w msgs ai used)).
Proof.
  unfold try_grok. cbv zeta.
  destruct (narrowed (env_get w "GROK_API_KEY")) as [key|]; [|constructor].
  unfold invoke. pose proof (callGrok_log w msgs key) as Hlog.
  destruct (call (callGrok w msgs key)) as [[r|e] l]; cbn [snd] in Hlog; subst l.
  - cbn [bind].
    destruct (ok r && truthy (response r));
      [|destruct (negb _)]; try (repeat constructor; fail).
    match goal with
    | |- context [ @return_response ?A ?st ?ms ] =>
        pose proof (@return_response_log A st ms) as Hnone;
        destruct (@return_response A st ms) as [c l']
    end.
    cbn [snd] in *. subst l'. repeat constructor.
  - repeat constructor.
Qed.

Lemma fallback_sends (w : World) (msgs : list Message) (ai : value) (used : string) :
  Forall (sends msgs) (snd (fallback_to_campus w msgs ai used)).
Proof.
  unfold fallback_to_campus. cbv zeta.
  destruct (negb (truthy ai));
    [|destruct (narrowed (env_get w "CAMPUS_ASSISTANT_API_KEY")); constructor].
  destruct (narrowed (env_get w "CAMPUS_ASSISTANT_API_KEY")) as [key|]; [|constructor].
  unfold invoke. pose proof (callCampusAssistantAI_log w msgs key) as Hlog.
  destruct (call (callCampusAssistantAI w msgs key)) as [[r|e] l];
    cbn [snd] in Hlog; subst l.
  - cbn [bind].
    destruct (ok r && truthy (response r));
      [|destruct (is_status _ 429); [|destruct (is_status _ 402)]];
      repeat constructor.
  - repeat constructor.
Qed.

Lemma attempt_providers_sends (w : World) (msgs : list Message) :
  Forall (sends msgs) (snd (attempt_providers w msgs)).
Proof.
  unfold attempt_providers.
  pose proof (try_grok_sends w msgs undefined "none") as H1.
  destruct (try_grok w msgs undefined "none") as [[[ai used]|r|e] l1];
    cbn [snd bind] in *; try assumption.
  pose proof (fallback_sends w msgs ai used) as H2.
  destruct (fallback_to_campus w msgs ai used) as [[[ai' used']|r|e] l2];
    cbn [snd bind] in *.
  - unfold respond. destruct (negb (truthy ai')); cbn;
      rewrite ?app_nil_r; apply Forall_app; split; assumption.
  - apply Forall_app; split; assumption.
  - apply Forall_app; split; assumption.
Qed.

(** C7.  For every valid [conversationHistory] of length N (an absent one
    counts as empty), the assembled sequence has length N + 2: the fixed
    system message first, then the N entries in their order with [role] and
    [content] as given, then the new user message last.  This sequence is
    the one every provider request of the handler carries. *)
Theorem assembly_is_order_preserving
    (parsed : json) (message : string) (items : list json) :
  history_of parsed = JArr items ->
  Forall valid_entry items ->
  exists msgs,
    assembled parsed message = Resolved msgs /\
    msgs = system_message :: map entry_message items ++ [ user_message message ] /\
    length msgs = (length items + 2)%nat /\
    nth_error msgs 0 = Some system_message /\
    nth_error msgs (length items + 1) = Some (user_message message) /\
    (forall i item r c,
       nth_error items i = Some item ->
       get item "role" = Some (JStr r) ->
       get item "content" = Some (JStr c) ->
       nth_error msgs (S i)
       = Some {| role := Some (JStr r); content := Some (JStr c) |}) /\
    (forall w req h,
       Passes w req h parsed message ->
       Forall (sends msgs) (snd (serve w req))).
Proof.
  intros Hhist Hvalid.
  assert (Hmap : map_history items = Resolved (map entry_message items)).
  { apply map_history_entries.
    eapply Forall_impl; [|exact Hvalid]. apply valid_entry_not_null. }
  assert (Hasm : assembled parsed message
                 = Resolved (system_message :: map entry_message items
                             ++ [ user_message message ])).
  { unfold assembled, build_messages. rewrite Hhist.
    cbn [history_messages]. rewrite Hmap. reflexivity. }
  eexists. split; [exact Hasm|]. split; [reflexivity|].
  split; [|split; [reflexivity|split; [|split]]].
  - cbn [length]. rewrite length_app, length_map. cbn [length]. lia.
  - cbn [nth_error]. rewrite Nat.add_1_r. cbn [nth_error].
    rewrite nth_error_app2; rewrite length_map; [|lia].
    rewrite Nat.sub_diag. reflexivity.
  - intros i item r c Hi Hr Hc. cbn [nth_error].
    rewrite nth_error_app1.
    + rewrite nth_error_map, Hi. unfold entry_message. cbn. rewrite Hr, Hc. reflexivity.
    + rewrite length_map. apply nth_error_Some. congruence.
  - intros w req h HP.
    rewrite (passes_reaches_providers w req h parsed message _ HP Hasm).
    cbn [snd]. apply Forall_app. split.
    + repeat constructor.
    + rewrite caught_log. apply attempt_providers_sends.
Qed.

Lemma assembly_witness :
  exists msgs,
    assembled
      (JObj
        [ ("message", JStr "And the fees?");
          ("conversationHistory",
           JArr [ JObj [ ("role", JStr "user"); ("content", JStr "Hi") ];
                  JObj [ ("role", JStr "assistant"); ("content", JStr "Hello!") ] ]) ])
      "And the fees?" = Resolved msgs /\
    msgs = [ system_message;
             {| role := Some (JStr "user"); content := Some (JStr "Hi") |};
             {| role := Some (JStr "assistant"); content := Some (JStr "Hello!") |};
             user_message "And the fees?" ] /\
    length msgs = 4%nat.
Proof.
  destruct (assembly_is_order_preserving
              (JObj
                [ ("message", JStr "And the fees?");
                  ("conversationHistory",
                   JArr [ JObj [ ("role", JStr "user"); ("content", JStr "Hi") ];
                          JObj [ ("role", JStr "assistant"); ("content", JStr "Hello!") ] ]) ])
              "And the fees?"
              [ JObj [ ("role", JStr "user"); ("content", JStr "Hi") ];
                JObj [ ("role", JStr "assistant"); ("content", JStr "Hello!") ] ]
              eq_refl
              ltac:(repeat constructor; eexists _, _; split; reflexivity))
    as (msgs & Hasm & Heq & Hlen & _).
  exists msgs. split; [exact Hasm | split; [exact Heq | exact Hlen]].
Defined.

(** ** Every request takes one of the listed paths *)

Lemma try_grok_cases (w : World) (msgs : list Message) :
  (exists before,
     Paths.FellThrough w msgs before /\
     try_grok w msgs undefined "none" = (Normal (undefined, "none"), before)) \/
  (exists key r,
     narrowed (env_get w "GROK_API_KEY") = Some key /\
     fst (call (callGrok w msgs key)) = Resolved r /\
     (succeeded r = true \/
      (succeeded r = false /\
       includes fallback_statuses (nullish (status r) 0) = false))) \/
  (exists key e,
     narrowed (env_get w "GROK_API_KEY") = Some key /\
     fst (call (callGrok w msgs key)) = Rejected e).
Proof.
  destruct (narrowed (env_get w "GROK_API_KEY")) as [key|] eqn:Hkey.
  - destruct (fst (call (callGrok w msgs key))) as [r|e] eqn:Hcall.
    + destruct (succeeded r) eqn:Hs.
      * right. left. exists key, r. auto.
      * destruct (includes fallback_statuses (nullish (status r) 0)) eqn:Hinc.
        -- left. exists [ Fetch grok_url (grok_init msgs key) ]. split.
           ++ apply Paths.primary_retryable with (r := r); assumption.
           ++ apply try_grok_retryable_failure with (r := r); assumption.
        -- right. left. exists key, r. auto.
    + right. right. exists key, e. auto.
  - left. exists []. split.
    + apply Paths.no_primary_key. assumption.
    + apply try_grok_skipped. assumption.
Qed.

Lemma attempt_providers_attempted (w : World) (msgs : list Message) :
  Paths.Attempted w msgs (attempt_providers w msgs).
Proof.
  unfold attempt_providers.
  destruct (try_grok_cases w msgs)
    as [(before & Hft & Htry)
       | [(key & r & Hkey & Hcall & [Hs | [Hs Hinc]]) | (key & e & Hkey & Hcall)]].
  - rewrite Htry. cbn [bind].
    destruct (narrowed (env_get w "CAMPUS_ASSISTANT_API_KEY")) as [key|] eqn:Hkey.
    + destruct (fst (call (callCampusAssistantAI w msgs key))) as [r|e] eqn:Hcall.
      * destruct (succeeded r) eqn:Hs.
        -- rewrite (fallback_succeeded w msgs undefined "none" key r eq_refl Hkey Hcall Hs).
           cbn [bind]. unfold respond.
           pose proof Hs as Hs'. unfold succeeded in Hs'.
           apply andb_prop in Hs' as [_ Ht]. rewrite Ht. cbn.
           rewrite ?app_nil_r.
           apply Paths.by_secondary; assumption.
        -- rewrite (fallback_failed w msgs undefined "none" key r eq_refl Hkey Hcall Hs).
           cbn [bind].
           apply (Paths.secondary_down w msgs before key r); assumption.
      * rewrite (fallback_threw w msgs undefined "none" key e eq_refl Hkey Hcall).
        cbn [bind].
        apply Paths.secondary_thrown; assumption.
    + rewrite (fallback_skipped_without_key w msgs undefined "none" Hkey).
      cbn. rewrite ?app_nil_r.
      apply Paths.nobody_left; assumption.
  - rewrite (try_grok_succeeded w msgs undefined "none" key r Hkey Hcall Hs).
    cbn [bind].
    pose proof Hs as Hs'. unfold succeeded in Hs'. apply andb_prop in Hs' as [_ Ht].
    rewrite (fallback_skipped_after_success w msgs _ _ Ht).
    cbn [bind]. unfold respond. rewrite Ht. cbn.
    apply Paths.by_primary; assumption.
  - destruct (carries_body (nullish (status r) 500)) eqn:Hcarries.
    + rewrite (try_grok_hard_failure w msgs undefined "none" key r
                 Hkey Hcall Hs Hinc Hcarries).
      cbn [bind].
      apply Paths.primary_hard; assumption.
    + rewrite (try_grok_hard_unanswerable w msgs undefined "none" key r
                 Hkey Hcall Hs Hinc Hcarries).
      cbn [bind].
      apply Paths.primary_hard_unanswerable; assumption.
  - rewrite (try_grok_threw w msgs undefined "none" key e Hkey Hcall).
    cbn [bind].
    apply Paths.primary_thrown; assumption.
Qed.

Lemma settled_spec (m : Eff Response Empty_set) :
  fst (call (try_catch m handler_catch)) = Paths.settled (fst m).
Proof.
  destruct m as [[a|r|e] l]; [destruct a | reflexivity | reflexivity].
Qed.

Lemma serve_served (w : World) (req : Request) :
  Paths.Served w req (serve w req).
Proof.
  destruct (String.eqb_spec (method req) "OPTIONS") as [Hm|Hm].
  { rewrite (serve_preflight w req Hm). apply Paths.preflight. assumption. }
  destruct (configured w) eqn:Hc.
  2:{ rewrite (serve_not_configured w req Hm Hc). apply Paths.not_configured; assumption. }
  destruct (bearer_of req) as [h|] eqn:Hb.
  2:{ destruct (bearer_of_none req Hb) as [Hn | (h & Ha & Hp)].
      - rewrite (serve_no_header w req Hm Hc Hn). apply Paths.no_bearer; assumption.
      - rewrite (serve_not_bearer w req Hm h Hc Ha Hp). apply Paths.no_bearer; assumption. }
  pose proof Hb as Hb'. apply bearer_of_some in Hb' as [Ha Hp].
  destruct (created w (client_of w h)) as [client|e] eqn:Hcr.
  2:{ rewrite (serve_client_threw w req Hm h e Hc Ha Hp Hcr).
      apply Paths.client_thrown with (h := h); assumption. }
  pose proof (created_same w _ _ Hcr) as ->.
  destruct (getClaims w (client_of w h) (token_of h)) as [r|e] eqn:Hcl.
  2:{ rewrite (serve_claims_threw w req Hm h e Hc Ha Hp Hcr Hcl).
      apply Paths.claims_thrown with (h := h); assumption. }
  assert (Hid : identity w h = Resolved r)
    by (unfold identity; rewrite Hcr; exact Hcl).
  destruct (verified r) eqn:Hv.
  2:{ rewrite (serve_not_verified w req Hm h r Hc Ha Hp Hid Hv).
      apply Paths.not_verified with (r := r); assumption. }
  assert (Hauth : authenticated w req h).
  { split; [exact Ha|]. split; [exact Hp|]. unfold accepted. rewrite Hid. exact Hv. }
  destruct (json_body req) as [parsed|e] eqn:Hj.
  2:{ rewrite (serve_body_unparsed w req Hm h Hc Hauth e Hj).
      apply Paths.body_thrown; assumption. }
  destruct (message_rejected (get parsed "message")) eqn:Hr.
  { assert (Hnull : parsed = JNull \/ parsed <> JNull)
      by (destruct parsed; (left; reflexivity) || (right; discriminate)).
    destruct Hnull as [-> | Hn].
    - rewrite (serve_body_null w req Hm h Hc Hauth Hj).
      apply Paths.body_null; assumption.
    - rewrite (serve_message_invalid w req Hm h Hc Hauth parsed Hj Hn
                 (proj1 (message_rejected_spec _) Hr)).
      apply Paths.bad_message with (parsed := parsed); assumption. }
  unfold message_rejected in Hr. apply orb_false_elim in Hr as [Ht Hs].
  apply negb_false_iff in Ht, Hs.
  destruct (get parsed "message") as [[| | |message| |]|] eqn:Hmsg; try discriminate Hs.
  assert (Hne : message <> "") by (intros ->; discriminate Ht).
  assert (HP : Passes w req h parsed message)
    by (constructor; try assumption; split; assumption).
  destruct (assembled parsed message) as [msgs|e] eqn:Hasm.
  2:{ rewrite (serve_assembly_threw w req Hm h Hc Hauth parsed message e
                 Hj Hmsg Hne Hasm).
      apply Paths.assembly_thrown with (parsed := parsed) (message := message);
        assumption. }
  rewrite (passes_reaches_providers w req h parsed message msgs HP Hasm).
  rewrite settled_spec, caught_log.
  apply Paths.providers_asked with (parsed := parsed) (message := message) (msgs := msgs);
    try assumption.
  rewrite <- surjective_pairing. apply attempt_providers_attempted.
Qed.

(** ** What holds on every path *)

(** On a path through the providers, every response is built by
    [json_response]. *)
Lemma attempted_json (w : World) (msgs : list Message)
    (c : Completion Response Empty_set) (l : list Event) :
  Paths.Attempted w msgs (c, l) ->
  exists st members, Paths.settled c = Resolved (json_response st members).
Proof.
  intros H. inversion H; subst; cbn [Paths.settled]; try (eexists _, _; reflexivity).
  unfold Paths.campus_failure_response.
  destruct (is_status (status r) 429); [eexists _, _; reflexivity|].
  destruct (is_status (status r) 402); eexists _, _; reflexivity.
Qed.

Lemma served_json (w : World) (req : Request) (t : Tried Response) (l : list Event) :
  Paths.Served w req (t, l) ->
  method req <> "OPTIONS" ->
  exists st members, t = Resolved (json_response st members).
Proof.
  intros H Hm. inversion H; subst; try contradiction;
    try (eexists _, _; reflexivity).
  eapply attempted_json; eassumption.
Qed.

(** X1.  No exception escapes the handler: whatever the request and
    whatever the verifier and the providers do, a response is served. *)
Theorem handler_always_responds (w : World) (req : Request) :
  exists r, fst (serve w req) = Resolved r.
Proof.
  destruct (String.eqb_spec (method req) "OPTIONS") as [Hm|Hm].
  - rewrite (serve_preflight w req Hm). eexists. reflexivity.
  - pose proof (serve_served w req) as H.
    rewrite (surjective_pairing (serve w req)) in H.
    destruct (served_json w req _ _ H Hm) as (st & members & Heq).
    rewrite Heq. eexists. reflexivity.
Qed.

(** X2.  Every response carries the two CORS headers,
    [Access-Control-Allow-Origin: *] and [Access-Control-Allow-Headers:
    authorization, x-client-info, apikey, content-type].  The answer to a
    preflight has status 200, these two headers and no body; every other
    answer has [Content-Type: application/json] as third header and a JSON
    object as body. *)
Theorem every_response_has_cors (w : World) (req : Request) (r : Response) :
  fst (serve w req) = Resolved r ->
  In ("Access-Control-Allow-Origin", "*") (headers r) /\
  In ("Access-Control-Allow-Headers",
      "authorization, x-client-info, apikey, content-type") (headers r) /\
  (method req = "OPTIONS" ->
   Http.status r = 200 /\
   headers r
   = [ ("Access-Control-Allow-Origin", "*");
       ("Access-Control-Allow-Headers",
        "authorization, x-client-info, apikey, content-type") ] /\
   body r = None) /\
  (method req <> "OPTIONS" ->
   headers r
   = [ ("Access-Control-Allow-Origin", "*");
       ("Access-Control-Allow-Headers",
        "authorization, x-client-info, apikey, content-type");
       ("Content-Type", "application/json") ] /\
   exists members, body r = Some (JObj members)).
Proof.
  intros Hr.
  destruct (String.eqb_spec (method req) "OPTIONS") as [Hm|Hm].
  - rewrite (serve_preflight w req Hm) in Hr. injection Hr as <-.
    split; [left; reflexivity|]. split; [right; left; reflexivity|].
    split; [intros _; repeat split | intros Hn; contradiction].
  - pose proof (serve_served w req) as H.
    rewrite (surjective_pairing (serve w req)) in H.
    destruct (served_json w req _ _ H Hm) as (st & members & Heq).
    rewrite Heq in Hr. injection Hr as <-.
    split; [left; reflexivity|]. split; [right; left; reflexivity|].
    split.
    + intros Ho. contradiction.
    + intros _. split; [reflexivity|]. eexists. reflexivity.
Qed.

Lemma every_response_witness :
  exists r,
    fst (serve Samples.primary_up_world Samples.hello) = Resolved r /\
    In ("Access-Control-Allow-Origin", "*") (headers r) /\
    In ("Content-Type", "application/json") (headers r) /\
    exists members, body r = Some (JObj members).
Proof.
  exists (json_response 200
            [ ("response", Some (JStr "Hi there")); ("provider", Some (JStr "grok")) ]).
  destruct (every_response_has_cors Samples.primary_up_world Samples.hello
              (json_response 200
                 [ ("response", Some (JStr "Hi there"));
                   ("provider", Some (JStr "grok")) ])
              eq_refl)
    as (Horigin & _ & _ & Hjson).
  destruct (Hjson ltac:(discriminate)) as [Hheaders Hbody].
  split; [reflexivity|]. split; [exact Horigin|].
  split; [rewrite Hheaders; right; right; left; reflexivity | exact Hbody].
Defined.

(** Case analysis on the path through the providers. *)
Ltac invert_attempt :=
  match goal with
  | Ha : Paths.Attempted _ _ _ |- _ => inversion Ha; subst; clear Ha
  end;
  match goal with
  | Hc : Paths.settled _ = Resolved _ |- _ =>
      cbn [Paths.settled] in Hc; injection Hc as <-
  | Hc : Resolved _ = Paths.settled _ |- _ =>
      cbn [Paths.settled] in Hc; injection Hc as ->
  end.

Lemma served_of (w : World) (req : Request) (r : Response) :
  fst (serve w req) = Resolved r ->
  Paths.Served w req (Resolved r, snd (serve w req)).
Proof.
  intros H. rewrite <- H, <- surjective_pairing. apply serve_served.
Qed.

(** A primary result that is neither a success nor retryable: either an
    answer without text, or an upstream failure outside the fallback
    statuses. *)
Lemma hard_failure_cases (w : World) (msgs : list Message) (key : string)
    (r : ProviderResult) :
  fst (call (callGrok w msgs key)) = Resolved r ->
  succeeded r = false ->
  includes fallback_statuses (nullish (status r) 0) = false ->
  (status r = None /\ errorDetails r = None) \/
  (exists up raw,
     fetch w grok_url (grok_init msgs key) = Resolved up /\
     upstream_ok up = false /\
     ~ In (upstream_status up) fallback_statuses /\
     status r = Some (upstream_status up) /\
     errorDetails r = Some raw).
Proof.
  intros Hcall Hs Hinc. destruct (ok r) eqn:Hok.
  - left. apply (callGrok_ok_shape w msgs key r Hcall Hok).
  - right. destruct (callGrok_failed_shape w msgs key r Hcall Hok)
      as (up & raw & Hf & Hnok & Ht & Hst & Hd).
    exists up, raw. rewrite Hst in Hinc. cbn [nullish] in Hinc.
    apply includes_not_In in Hinc. auto.
Qed.

(** A primary failure that falls through is an upstream failure with one of
    the fallback statuses. *)
Lemma retryable_is_failure (w : World) (msgs : list Message) (key : string)
    (r : ProviderResult) :
  narrowed (env_get w "GROK_API_KEY") = Some key ->
  fst (call (callGrok w msgs key)) = Resolved r ->
  succeeded r = false ->
  includes fallback_statuses (nullish (status r) 0) = true ->
  exists st, primary_failed w msgs st (errorDetails r) /\ In st fallback_statuses.
Proof.
  intros Hkey Hcall Hs Hinc. destruct (ok r) eqn:Hok.
  - destruct (callGrok_ok_shape w msgs key r Hcall Hok) as [Hst _].
    rewrite Hst in Hinc. discriminate Hinc.
  - destruct (callGrok_failed_shape w msgs key r Hcall Hok)
      as (up & raw & _ & _ & _ & Hst & _).
    exists (upstream_status up). rewrite Hst in Hinc. cbn [nullish] in Hinc.
    split; [|apply includes_In; assumption].
    exists key, r. auto.
Qed.

Lemma upstream_not_ok_not_200 (up : Upstream) :
  upstream_ok up = false -> upstream_status up <> 200.
Proof.
  unfold upstream_ok. intros H Heq. rewrite Heq in H. discriminate H.
Qed.



(** X4.  An answer to a chat request either has status 200 and a body
    [{ response, provider }] whose [response] is truthy and whose [provider]
    is "grok" or "campus-assistant-ai" (never the initial "none"), so that,
    when [response] is a string, the page's [data.response || ...] shows
    that very string; or it has another status and a body with a string
    [error] and no [response]. *)
Theorem answer_shape (w : World) (req : Request) (r : Response) :
  method req <> "OPTIONS" ->
  fst (serve w req) = Resolved r ->
  (Http.status r = 200 /\
   exists v label,
     body r = Some (JObj [ ("response", v); ("provider", JStr label) ]) /\
     truthy (Some v) = true /\
     (label = "grok" \/ label = "campus-assistant-ai") /\
     (forall t,
        v = JStr t ->
        Client.reply (JObj [ ("response", v); ("provider", JStr label) ])
        = Some (JStr t))) \/
  (Http.status r <> 200 /\
   exists msg,
     body_member (serve w req) "error" = Some (JStr msg) /\
     body_member (serve w req) "response" = undefined).
Proof.
  intros Hm Hr. unfold body_member. rewrite Hr. apply served_of in Hr.
  inversion Hr; subst; try contradiction;
    try (right; split; [discriminate | eexists; split; reflexivity]).
  invert_attempt.
  - left. split; [reflexivity|].
    match goal with Hs : succeeded ?r' = true |- _ =>
      unfold succeeded in Hs; apply andb_prop in Hs as [_ Ht];
      destruct (response r') as [v|] eqn:Hv; [|discriminate Ht];
      exists v, "grok"; split; [reflexivity|];
      split; [exact Ht|]; split; [left; reflexivity|];
      intros t ->; unfold Client.reply;
      cbn [get lookup String.eqb Ascii.eqb Bool.eqb];
      rewrite Ht; reflexivity
    end.
  - right.
    match goal with
    | Hcall : fst (call (callGrok _ _ ?key)) = Resolved ?r',
      Hs : succeeded ?r' = false, Hinc : includes _ _ = false |- _ =>
        destruct (hard_failure_cases w msgs key r' Hcall Hs Hinc)
          as [[Hst Hd] | (up & raw & Hf & Hnok & Hnin & Hst & Hd)];
        rewrite Hst, Hd; cbn [nullish json_response Http.status body];
        (split;
         [ first [ discriminate | apply upstream_not_ok_not_200; assumption ]
         | eexists; split; reflexivity ])
    end.
  - right. split; [discriminate | eexists; split; reflexivity].
  - right. split; [discriminate | eexists; split; reflexivity].
  - right. split; [discriminate | eexists; split; reflexivity].
  - left. split; [reflexivity|].
    match goal with Hs : succeeded ?r' = true |- _ =>
      unfold succeeded in Hs; apply andb_prop in Hs as [_ Ht];
      destruct (response r') as [v|] eqn:Hv; [|discriminate Ht];
      exists v, "campus-assistant-ai"; split; [reflexivity|];
      split; [exact Ht|]; split; [right; reflexivity|];
      intros t ->; unfold Client.reply;
      cbn [get lookup String.eqb Ascii.eqb Bool.eqb];
      rewrite Ht; reflexivity
    end.
  - right. unfold Paths.campus_failure_response.
    repeat match goal with
           | |- context [if is_status ?s ?n then _ else _] => destruct (is_status s n)
           end;
      (split; [discriminate|]);
      try (eexists; split; reflexivity).
    match goal with
    | |- context [ChatGrok.text ?d] => destruct d
    end;
    match goal with
    | |- context [number ?s] => destruct s
    end; eexists; split; reflexivity.
  - right. split; [discriminate | eexists; split; reflexivity].
Qed.

Lemma answer_shape_witness :
  exists r,
    fst (serve Samples.primary_up_world Samples.hello) = Resolved r /\
    Http.status r = 200 /\
    body r = Some (JObj [ ("response", JStr "Hi there"); ("provider", JStr "grok") ]) /\
    Client.reply (JObj [ ("response", JStr "Hi there"); ("provider", JStr "grok") ])
    = Some (JStr "Hi there").
Proof.
  exists (json_response 200
            [ ("response", Some (JStr "Hi there")); ("provider", Some (JStr "grok")) ]).
  destruct (answer_shape Samples.primary_up_world Samples.hello
              (json_response 200
                 [ ("response", Some (JStr "Hi there"));
                   ("provider", Some (JStr "grok")) ])
              ltac:(discriminate) eq_refl)
    as [(Hst & v & label & Hbody & _ & _ & Hreply) | [Hst _]].
  - injection Hbody as <- <-.
    split; [reflexivity|]. split; [exact Hst|]. split; [reflexivity|].
    exact (Hreply "Hi there" eq_refl).
  - exfalso. apply Hst. reflexivity.
Defined.

Lemma fell_through_calls (w : World) (msgs : list Message) (before : list Event) :
  Paths.FellThrough w msgs before ->
  calls_to campus_url before = 0%nat /\
  (calls_to grok_url before <= 1)%nat /\
  (narrowed (env_get w "GROK_API_KEY") = None -> before = []) /\
  (forall key, narrowed (env_get w "GROK_API_KEY") = Some key ->
               before = [ Fetch grok_url (grok_init msgs key) ]).
Proof.
  intros H. inversion H as [Hnone | key r Hkey Hcall Hs Hinc]; subst.
  - repeat split; try (cbn; lia). intros key Hkey. congruence.
  - repeat split; try (cbn; lia).
    + intros Hnone. congruence.
    + intros key' Hkey'. congruence.
Qed.

(** X5.  The interactions of a request happen in a fixed order and each at
    most once: the identity check, the reading of the body, one request to
    the primary endpoint, one request to the secondary endpoint, both with
    the same messages.  A provider is asked only after the first two. *)
Theorem interactions_in_order (w : World) (req : Request) :
  exists h msgs key key' checks primary secondary,
    snd (serve w req) = checks ++ primary ++ secondary /\
    (checks = [] \/
     checks = [ GetClaims (client_of w h) (token_of h) ] \/
     checks = [ GetClaims (client_of w h) (token_of h); ReadJson ]) /\
    (primary = [] \/ primary = [ Fetch grok_url (grok_init msgs key) ]) /\
    (secondary = [] \/ secondary = [ Fetch campus_url (campus_init msgs key') ]) /\
    (primary ++ secondary <> [] ->
     checks = [ GetClaims (client_of w h) (token_of h); ReadJson ]).
Proof.
  pose proof (serve_served w req) as H.
  rewrite (surjective_pairing (serve w req)) in H.
  inversion H as [ | | | h e | h e | h r | h e | h | h parsed
                 | h parsed message e
                 | h parsed message msgs c l HP Hasm Hatt]; subst.
  1-4: exists "", [], "", "", [], [], []; cbn [app]; intuition congruence.
  1-2: exists h, [], "", "", [ GetClaims (client_of w h) (token_of h) ], [], [];
       cbn [app]; intuition congruence.
  1-4: exists h, [], "", "", (entry_log w h), [], [];
       rewrite app_nil_r; unfold entry_log; intuition congruence.
  inversion Hatt as [key r Hkey Hcall Hs
                    |key r Hkey Hcall Hs Hinc Hcarries
                    |key r Hkey Hcall Hs Hinc Hcarries
                    |key e Hkey Hcall
                    |before Hft Hkey
                    |before key r Hft Hkey Hcall Hs
                    |before key r Hft Hkey Hcall Hs
                    |before key e Hft Hkey Hcall]; subst.
  1-4: exists h, msgs, key, "", (entry_log w h),
         [ Fetch grok_url (grok_init msgs key) ], [];
       unfold entry_log; intuition congruence.
  - inversion Hft as [Hnone | key r Hk Hcall Hs Hinc]; subst.
    + exists h, msgs, "", "", (entry_log w h), [], [].
      unfold entry_log; intuition congruence.
    + exists h, msgs, key, "", (entry_log w h),
        [ Fetch grok_url (grok_init msgs key) ], [].
      unfold entry_log; intuition congruence.
  - inversion Hft as [Hnone | key0 r0 Hk Hcall0 Hs0 Hinc]; subst;
      [ exists h, msgs, "", key, (entry_log w h), [],
          [ Fetch campus_url (campus_init msgs key) ]
      | exists h, msgs, key0, key, (entry_log w h),
          [ Fetch grok_url (grok_init msgs key0) ],
          [ Fetch campus_url (campus_init msgs key) ] ];
      unfold entry_log; intuition congruence.
  - inversion Hft as [Hnone | key0 r0 Hk Hcall0 Hs0 Hinc]; subst;
      [ exists h, msgs, "", key, (entry_log w h), [],
          [ Fetch campus_url (campus_init msgs key) ]
      | exists h, msgs, key0, key, (entry_log w h),
          [ Fetch grok_url (grok_init msgs key0) ],
          [ Fetch campus_url (campus_init msgs key) ] ];
      unfold entry_log; intuition congruence.
  - inversion Hft as [Hnone | key0 r0 Hk Hcall0 Hs0 Hinc]; subst;
      [ exists h, msgs, "", key, (entry_log w h), [],
          [ Fetch campus_url (campus_init msgs key) ]
      | exists h, msgs, key0, key, (entry_log w h),
          [ Fetch grok_url (grok_init msgs key0) ],
          [ Fetch campus_url (campus_init msgs key) ] ];
      unfold entry_log; intuition congruence.
Qed.

Lemma own_key_grok (w : World) (msgs : list Message) (key : string) :
  narrowed (env_get w "GROK_API_KEY") = Some key ->
  Paths.own_key w (Fetch grok_url (grok_init msgs key)).
Proof.
  intros Hkey. left. exists msgs, key. auto.
Qed.

Lemma own_key_campus (w : World) (msgs : list Message) (key : string) :
  narrowed (env_get w "CAMPUS_ASSISTANT_API_KEY") = Some key ->
  Paths.own_key w (Fetch campus_url (campus_init msgs key)).
Proof.
  intros Hkey. right. exists msgs, key. auto.
Qed.

Lemma fell_through_own_key (w : World) (msgs : list Message) (before : list Event) :
  Paths.FellThrough w msgs before -> Forall (Paths.own_key w) before.
Proof.
  intros H. inversion H; subst.
  - apply Forall_nil.
  - apply Forall_cons; [apply own_key_grok; assumption | apply Forall_nil].
Qed.

Lemma attempted_own_key (w : World) (msgs : list Message)
    (c : Completion Response Empty_set) (l : list Event) :
  Paths.Attempted w msgs (c, l) -> Forall (Paths.own_key w) l.
Proof.
  intros H. inversion H; subst;
    try (apply Forall_app; split);
    try (eapply fell_through_own_key; eassumption);
    (apply Forall_cons;
     [ first [ apply own_key_grok; assumption | apply own_key_campus; assumption ]
     | apply Forall_nil ]).
Qed.

Lemma served_own_key (w : World) (req : Request) :
  Forall (Paths.own_key w) (snd (serve w req)).
Proof.
  pose proof (serve_served w req) as H.
  rewrite (surjective_pairing (serve w req)) in H.
  inversion H; subst; unfold entry_log;
    try apply Forall_app; try split;
    repeat (apply Forall_cons; [exact I|]);
    try apply Forall_nil.
  eapply attempted_own_key; eassumption.
Qed.

Lemma no_calls_without_fetch (url : string) (l : list Event) :
  (forall init, ~ In (Fetch url init) l) -> calls_to url l = 0%nat.
Proof.
  induction l as [|ev l IH]; intros Hno; [reflexivity|].
  cbn [calls_to]. destruct ev as [client token| |u init].
  - apply IH. intros init Hin. apply (Hno init). right. exact Hin.
  - apply IH. intros init Hin. apply (Hno init). right. exact Hin.
  - destruct (String.eqb_spec u url) as [->|Hne].
    + exfalso. apply (Hno init). left. reflexivity.
    + apply IH. intros init' Hin. apply (Hno init'). right. exact Hin.
Qed.

(** X6.  Every outbound request is a POST to one of the two fixed
    endpoints, [https://api.x.ai/v1/chat/completions] with model
    [grok-2-latest], [max_tokens] 1024 and [temperature] 0.7, or
    [https://ai.gateway.lovable.dev/v1/chat/completions] with model
    [google/gemini-3-flash-preview]; its headers are [Authorization: Bearer]
    followed by the credential configured for that endpoint, and
    [Content-Type: application/json].  A provider whose credential is absent
    or empty is never contacted. *)
Theorem each_provider_gets_its_own_key (w : World) (req : Request) :
  (forall url init,
     In (Fetch url init) (snd (serve w req)) ->
     fetch_method init = "POST" /\
     ((exists key,
         env_get w "GROK_API_KEY" = Some key /\ key <> "" /\
         url = "https://api.x.ai/v1/chat/completions" /\
         fetch_headers init
         = [ ("Authorization", ("Bearer " ++ key)%string);
             ("Content-Type", "application/json") ] /\
         model (fetch_body init) = "grok-2-latest" /\
         max_tokens (fetch_body init) = Some 1024 /\
         temperature (fetch_body init) = Some (7 # 10)%Q) \/
      (exists key,
         env_get w "CAMPUS_ASSISTANT_API_KEY" = Some key /\ key <> "" /\
         url = "https://ai.gateway.lovable.dev/v1/chat/completions" /\
         fetch_headers init
         = [ ("Authorization", ("Bearer " ++ key)%string);
             ("Content-Type", "application/json") ] /\
         model (fetch_body init) = "google/gemini-3-flash-preview" /\
         max_tokens (fetch_body init) = None /\
         temperature (fetch_body init) = None))) /\
  (narrowed (env_get w "GROK_API_KEY") = None ->
   calls_to "https://api.x.ai/v1/chat/completions" (snd (serve w req)) = 0%nat) /\
  (narrowed (env_get w "CAMPUS_ASSISTANT_API_KEY") = None ->
   calls_to "https://ai.gateway.lovable.dev/v1/chat/completions" (snd (serve w req))
   = 0%nat).
Proof.
  pose proof (served_own_key w req) as Hall.
  rewrite Forall_forall in Hall.
  assert (Hfetch : forall url init,
     In (Fetch url init) (snd (serve w req)) ->
     (exists msgs key,
        narrowed (env_get w "GROK_API_KEY") = Some key /\
        url = grok_url /\ init = grok_init msgs key) \/
     (exists msgs key,
        narrowed (env_get w "CAMPUS_ASSISTANT_API_KEY") = Some key /\
        url = campus_url /\ init = campus_init msgs key)).
  { intros url init Hin. exact (Hall _ Hin). }
  split; [|split].
  - intros url init Hin.
    destruct (Hfetch _ _ Hin)
      as [(msgs & key & Hkey & -> & ->) | (msgs & key & Hkey & -> & ->)];
      (split; [reflexivity|]);
      apply narrowed_elim in Hkey as [Hget Hne];
      [left | right]; exists key; repeat split; assumption.
  - intros Hnone. apply no_calls_without_fetch. intros init Hin.
    destruct (Hfetch _ _ Hin) as [(msgs & key & Hkey & _) | (msgs & key & _ & Hurl & _)].
    + congruence.
    + discriminate Hurl.
  - intros Hnone. apply no_calls_without_fetch. intros init Hin.
    destruct (Hfetch _ _ Hin) as [(msgs & key & _ & Hurl & _) | (msgs & key & Hkey & _)].
    + discriminate Hurl.
    + congruence.
Qed.

Lemma own_key_witness :
  In (Fetch grok_url (grok_init Samples.hello_messages "k1"))
     (snd (serve Samples.primary_up_world Samples.hello)) /\
  fetch_headers (grok_init Samples.hello_messages "k1")
  = [ ("Authorization", "Bearer k1"); ("Content-Type", "application/json") ] /\
  calls_to "https://api.x.ai/v1/chat/completions"
    (snd (serve Samples.secondary_only_down_world Samples.hello)) = 0%nat /\
  calls_to "https://ai.gateway.lovable.dev/v1/chat/completions"
    (snd (serve Samples.primary_only_down_world Samples.hello)) = 0%nat.
Proof.
  assert (Hin : In (Fetch grok_url (grok_init Samples.hello_messages "k1"))
                   (snd (serve Samples.primary_up_world Samples.hello)))
    by (right; right; left; reflexivity).
  split; [exact Hin|]. split; [|split].
  - destruct (proj1 (each_provider_gets_its_own_key
                       Samples.primary_up_world Samples.hello) _ _ Hin)
      as [_ [(key & Hkey & _ & _ & Hheaders & _) | (key & _ & _ & Hurl & _)]].
    + injection Hkey as <-. exact Hheaders.
    + discriminate Hurl.
  - exact (proj1 (proj2 (each_provider_gets_its_own_key
                           Samples.secondary_only_down_world Samples.hello)) eq_refl).
  - exact (proj2 (proj2 (each_provider_gets_its_own_key
                           Samples.primary_only_down_world Samples.hello)) eq_refl).
Defined.

(** Case analysis on the path of a request, the served pair named. *)
Ltac on_served w req :=
  let Hserved := fresh "Hserved" in
  pose proof (serve_served w req) as Hserved;
  unfold body_member, status_of in *;
  destruct (serve w req) as [served_response served_log];
  cbn [fst snd] in *;
  inversion Hserved; subst; clear Hserved.

Lemma succeeded_answered (r : ProviderResult) :
  succeeded r = true ->
  ok r = true /\ exists v, response r = Some v /\ truthy (Some v) = true.
Proof.
  unfold succeeded. intros H. apply andb_prop in H as [Hok Ht].
  split; [exact Hok|].
  destruct (response r) as [v|]; [|discriminate Ht].
  exists v. split; [reflexivity | exact Ht].
Qed.

(** X7.  The [provider] label of an answer tells which provider was asked
    to good effect: with "grok" exactly one request went to the primary
    endpoint and none to the secondary, and [response] is the text of the
    primary result; with "campus-assistant-ai" exactly one request went to
    the secondary endpoint and [response] is the text of its result. *)
Theorem provider_label_is_truthful (w : World) (req : Request) :
  (body_member (serve w req) "provider" = Some (JStr "grok") ->
   calls_to grok_url (snd (serve w req)) = 1%nat /\
   calls_to campus_url (snd (serve w req)) = 0%nat /\
   exists msgs v,
     primary_answered w msgs v /\
     body_member (serve w req) "response" = v) /\
  (body_member (serve w req) "provider" = Some (JStr "campus-assistant-ai") ->
   calls_to campus_url (snd (serve w req)) = 1%nat /\
   exists msgs v,
     secondary_answered w msgs v /\
     body_member (serve w req) "response" = v).
Proof.
  split; intros Hlabel.
  - on_served w req; try discriminate Hlabel.
    match goal with
    | Ha : Paths.Attempted _ _ _ |- _ => inversion Ha; subst; clear Ha
    end; cbn [Paths.settled] in *.
    + match goal with Hs : succeeded ?r = true |- _ =>
        destruct (succeeded_answered r Hs) as (Hok & v & Hv & Ht)
      end.
      repeat split; try reflexivity.
      exists msgs, (Some v). split.
      * eexists _, _. repeat split; eassumption.
      * rewrite Hv. reflexivity.
    + exfalso. revert Hlabel.
      match goal with |- context [ChatGrok.text ?d] => destruct d end;
      match goal with |- context [number ?s] => destruct s end;
      discriminate.
    + discriminate Hlabel.
    + discriminate Hlabel.
    + discriminate Hlabel.
    + exfalso. revert Hlabel.
      match goal with Hs : succeeded ?r = true |- _ =>
        destruct (succeeded_answered r Hs) as (_ & v & -> & _)
      end. discriminate.
    + exfalso. revert Hlabel. unfold Paths.campus_failure_response.
      repeat match goal with
             | |- context [if is_status ?s ?n then _ else _] => destruct (is_status s n)
             end; try discriminate.
      match goal with |- context [ChatGrok.text ?d] => destruct d end;
      match goal with |- context [number ?s] => destruct s end;
      discriminate.
    + discriminate Hlabel.
  - on_served w req; try discriminate Hlabel.
    match goal with
    | Ha : Paths.Attempted _ _ _ |- _ => inversion Ha; subst; clear Ha
    end; cbn [Paths.settled] in *.
    + exfalso. revert Hlabel.
      match goal with Hs : succeeded ?r = true |- _ =>
        destruct (succeeded_answered r Hs) as (_ & v & -> & _)
      end. discriminate.
    + exfalso. revert Hlabel.
      match goal with |- context [ChatGrok.text ?d] => destruct d end;
      match goal with |- context [number ?s] => destruct s end;
      discriminate.
    + discriminate Hlabel.
    + discriminate Hlabel.
    + discriminate Hlabel.
    + match goal with Hs : succeeded ?r = true |- _ =>
        destruct (succeeded_answered r Hs) as (Hok & v & Hv & Ht)
      end.
      match goal with Hft : Paths.FellThrough _ _ _ |- _ =>
        destruct (fell_through_calls _ _ _ Hft) as (Hc & _)
      end.
      cbn [calls_to app]. rewrite ?calls_to_app, Hc. split; [reflexivity|].
      exists msgs, (Some v). split.
      * eexists _, _. repeat split; eassumption.
      * rewrite Hv. reflexivity.
    + exfalso. revert Hlabel. unfold Paths.campus_failure_response.
      repeat match goal with
             | |- context [if is_status ?s ?n then _ else _] => destruct (is_status s n)
             end; try discriminate.
      match goal with |- context [ChatGrok.text ?d] => destruct d end;
      match goal with |- context [number ?s] => destruct s end;
      discriminate.
    + discriminate Hlabel.
Qed.

Lemma provider_label_witness :
  calls_to campus_url (snd (serve Samples.rate_limited_world Samples.hello)) = 1%nat /\
  calls_to campus_url (snd (serve Samples.primary_up_world Samples.hello)) = 0%nat.
Proof.
  split.
  - exact (proj1 (proj2 (provider_label_is_truthful
                           Samples.rate_limited_world Samples.hello) eq_refl)).
  - exact (proj1 (proj2 (proj1 (provider_label_is_truthful
                                  Samples.primary_up_world Samples.hello) eq_refl))).
Defined.

(** X8.  With the secondary credential alone configured, the secondary
    provider is asked directly: its non-empty text is answered with status
    200, that text as [response] and "campus-assistant-ai" as [provider];
    the one request goes to the secondary endpoint, after the identity check
    and the reading of the body, and nothing is sent to the primary
    endpoint. *)
Theorem secondary_alone_answers
    (w : World) (req : Request) (h : string) (parsed : json) (message : string)
    (msgs : list Message) (t : string) :
  Passes w req h parsed message ->
  assembled parsed message = Resolved msgs ->
  narrowed (env_get w "GROK_API_KEY") = None ->
  secondary_answered w msgs (Some (JStr t)) ->
  t <> "" ->
  status_of (serve w req) = Some 200 /\
  body_member (serve w req) "response" = Some (JStr t) /\
  body_member (serve w req) "provider" = Some (JStr "campus-assistant-ai") /\
  snd (serve w req)
  = entry_log w h ++ [ Fetch campus_url
                         (campus_init msgs
                            (nullish (env_get w "CAMPUS_ASSISTANT_API_KEY") "")) ] /\
  calls_to campus_url (snd (serve w req)) = 1%nat /\
  calls_to grok_url (snd (serve w req)) = 0%nat.
Proof.
  intros HP Hasm Hnone (key & r & Hkey & Hcall & Hok & Hresp) Hne.
  assert (Hs : succeeded r = true).
  { unfold succeeded. rewrite Hok, Hresp. simpl.
    destruct (String.eqb_spec t ""); [contradiction | reflexivity]. }
  unfold status_of, body_member.
  rewrite (passes_reaches_providers w req h parsed message msgs HP Hasm).
  unfold attempt_providers.
  rewrite (try_grok_skipped w msgs undefined "none" Hnone). cbn [bind].
  rewrite (fallback_succeeded w msgs undefined "none" key r eq_refl Hkey Hcall Hs).
  cbn [bind]. unfold respond.
  unfold succeeded in Hs. apply andb_prop in Hs as [_ Ht]. rewrite Ht, Hresp.
  apply narrowed_elim in Hkey as [-> _].
  repeat split.
Qed.

Lemma secondary_alone_witness :
  status_of (serve (Samples.sample_world None (Some "k2") Samples.never_called
                      (Samples.answers "Hello")) Samples.hello) = Some 200 /\
  body_member (serve (Samples.sample_world None (Some "k2") Samples.never_called
                        (Samples.answers "Hello")) Samples.hello) "provider"
  = Some (JStr "campus-assistant-ai").
Proof.
  destruct (secondary_alone_answers
              (Samples.sample_world None (Some "k2") Samples.never_called
                 (Samples.answers "Hello"))
              Samples.hello "Bearer token-1"
              Samples.hello_body "Hello" Samples.hello_messages "Hello"
              ltac:(by_evaluation)
              ltac:(by_evaluation)
              ltac:(by_evaluation)
              ltac:(by_evaluation)
              ltac:(by_evaluation))
    as (Hstatus & _ & Hlabel & _).
  split; [exact Hstatus | exact Hlabel].
Defined.

Lemma map_history_null (items : list json) :
  In JNull items -> exists e, map_history items = Rejected e.
Proof.
  induction items as [|msg items IH]; intros Hin; [contradiction|].
  cbn [map_history]. destruct Hin as [-> | Hin].
  - eexists. reflexivity.
  - destruct (IH Hin) as (e & He). rewrite He.
    destruct msg; cbn [member]; eexists; reflexivity.
Qed.

(** X9.  A [conversationHistory] that is not an array, or an array with a
    [null] entry, makes the message assembly throw: the handler answers
    status 500 from its [catch] block, with the message of the error thrown
    as [error], after the identity check and the reading of the body, and
    no provider is contacted. *)
Theorem malformed_history_is_500
    (w : World) (req : Request) (h : string) (parsed : json) (message : string) :
  Passes w req h parsed message ->
  (forall items, history_of parsed <> JArr items) \/
  (exists items, history_of parsed = JArr items /\ In JNull items) ->
  exists e,
    assembled parsed message = Rejected e /\
    status_of (serve w req) = Some 500 /\
    body_member (serve w req) "error" = Some (JStr (error_message e)) /\
    snd (serve w req) = [ GetClaims (client_of w h) (token_of h); ReadJson ] /\
    provider_calls (snd (serve w req)) = 0%nat.
Proof.
  intros HP Hbad.
  assert (Hthrow : exists e, assembled parsed message = Rejected e).
  { unfold assembled, build_messages.
    destruct Hbad as [Hnot | (items & Hhist & Hin)].
    - destruct (history_of parsed) as [| | | |items|]; cbn [history_messages];
        try (eexists; reflexivity).
      exfalso. apply (Hnot items). reflexivity.
    - rewrite Hhist. cbn [history_messages].
      destruct (map_history_null items Hin) as (e & ->). eexists. reflexivity. }
  destruct Hthrow as (e & He). exists e. split; [exact He|].
  destruct HP as [Hm Hc Hauth Hb [Hmsg Hne]].
  unfold status_of, body_member.
  rewrite (serve_assembly_threw w req Hm h Hc Hauth parsed message e Hb Hmsg Hne He).
  repeat split.
Qed.

Lemma malformed_history_witness :
  status_of
    (serve Samples.primary_up_world
       (Samples.post (Some "Bearer token-1")
          (Resolved (JObj [ ("message", JStr "Hello");
                            ("conversationHistory", JStr "earlier talk") ]))))
  = Some 500 /\
  provider_calls
    (snd (serve Samples.primary_up_world
            (Samples.post (Some "Bearer token-1")
               (Resolved (JObj [ ("message", JStr "Hello");
                                 ("conversationHistory", JStr "earlier talk") ])))))
  = 0%nat.
Proof.
  destruct (malformed_history_is_500 Samples.primary_up_world
              (Samples.post (Some "Bearer token-1")
                 (Resolved (JObj [ ("message", JStr "Hello");
                                   ("conversationHistory", JStr "earlier talk") ])))
              "Bearer token-1"
              (JObj [ ("message", JStr "Hello");
                      ("conversationHistory", JStr "earlier talk") ])
              "Hello"
              ltac:(by_evaluation)
              ltac:(left; intros items; discriminate))
    as (e & _ & Hstatus & _ & _ & Hcalls).
  split; [exact Hstatus | exact Hcalls].
Defined.

Lemma bearer_prefix (t : string) :
  String.prefix "Bearer " ("Bearer " ++ t)%string = true.
Proof.
  destruct t; reflexivity.
Qed.

Lemma bearer_token (t : string) :
  token_of ("Bearer " ++ t)%string = t.
Proof.
  destruct t; reflexivity.
Qed.

(** X10.  For a header "Bearer " followed by a non-empty [t], and a
    [createClient] that does not throw, the token given to the identity
    verifier is exactly [t], and the whole header is what the verifier's
    client sends as [Authorization]; the check is the first interaction of
    the request. *)
Theorem bearer_token_is_the_rest (w : World) (req : Request) (t : string) :
  method req <> "OPTIONS" ->
  configured w = true ->
  authorization req = Some ("Bearer " ++ t)%string ->
  t <> "" ->
  createClient_throws w
    (createClient (env_get w "SUPABASE_URL") (env_get w "SUPABASE_ANON_KEY")
       ("Bearer " ++ t)%string) = None ->
  exists rest,
    snd (serve w req)
    = GetClaims (createClient (env_get w "SUPABASE_URL")
                   (env_get w "SUPABASE_ANON_KEY") ("Bearer " ++ t)%string) t
      :: rest.
Proof.
  intros Hm Hc Ha _ Hmade.
  assert (Hb : bearer_of req = Some ("Bearer " ++ t)%string).
  { apply bearer_of_some. split; [exact Ha | apply bearer_prefix]. }
  pose proof (bearer_token t) as Htok.
  on_served w req; try contradiction; try congruence;
    try match goal with
        | Hb' : bearer_of req = Some ?h' |- _ =>
            assert (h' = ("Bearer " ++ t)%string) as -> by congruence
        | Hauth : authenticated _ _ ?h' |- _ =>
            destruct Hauth as (Ha' & _);
            assert (h' = ("Bearer " ++ t)%string) as -> by congruence
        | HP : Passes _ _ ?h' _ _ |- _ =>
            destruct HP as [_ _ (Ha' & _) _ _];
            assert (h' = ("Bearer " ++ t)%string) as -> by congruence
        end;
    try (unfold entry_log; rewrite Htok; eexists; reflexivity).
  exfalso.
  match goal with
  | Hcr : created _ _ = Rejected _ |- _ =>
      unfold created, client_of in Hcr; rewrite Hmade in Hcr; discriminate Hcr
  end.
Qed.

Lemma bearer_token_witness :
  exists rest,
    snd (serve Samples.primary_up_world Samples.hello)
    = GetClaims (createClient (Some "https://project.supabase.co") (Some "anon-key")
                   "Bearer token-1") "token-1"
      :: rest.
Proof.
  exact (bearer_token_is_the_rest Samples.primary_up_world Samples.hello "token-1"
           ltac:(discriminate) eq_refl eq_refl ltac:(discriminate) eq_refl).
Defined.

(** ** The provider clients *)

(** X11.  The two provider clients are the same adapter: given the same
    upstream answer, each to its own request, they return the same result
    or throw the same error. *)
Theorem clients_agree
    (w w' : World) (msgs msgs' : list Message) (key key' : string) :
  fetch w grok_url (grok_init msgs key)
  = fetch w' campus_url (campus_init msgs' key') ->
  fst (call (callGrok w msgs key))
  = fst (call (callCampusAssistantAI w' msgs' key')).
Proof.
  intros Hsame. unfold callGrok, callCampusAssistantAI. rewrite Hsame.
  destruct (fetch w' campus_url (campus_init msgs' key')) as [up|e];
    cbn [await bind]; [|reflexivity].
  destruct (upstream_text up) as [raw|e]; cbn [eval bind ret throw]; [|reflexivity].
  destruct (upstream_ok up); cbn [negb return_]; [|reflexivity].
  destruct (upstream_json up) as [data|e]; cbn [eval bind ret throw]; [|reflexivity].
  destruct (first_choice_content data); reflexivity.
Qed.

Lemma clients_agree_witness :
  fst (call (callGrok Samples.primary_up_world Samples.hello_messages "k1"))
  = fst (call (callCampusAssistantAI
                 (Samples.sample_world None (Some "k2") Samples.never_called
                    (Samples.answers "Hi there"))
                 Samples.hello_messages "k2")).
Proof.
  exact (clients_agree Samples.primary_up_world
           (Samples.sample_world None (Some "k2") Samples.never_called
              (Samples.answers "Hi there"))
           Samples.hello_messages Samples.hello_messages "k1" "k2" eq_refl).
Defined.

(** X12.  A provider client returns [ok: false] exactly when the endpoint
    answered with a status outside 200..299 and the body could be read; the
    result then repeats that status and the raw body, which is never
    parsed. *)
Theorem http_failure_is_a_result
    (w : World) (msgs : list Message) (key : string) (r : ProviderResult) :
  (fst (call (callGrok w msgs key)) = Resolved r /\ ok r = false) <->
  (exists up raw,
     fetch w grok_url (grok_init msgs key) = Resolved up /\
     (upstream_status up < 200 \/ 299 < upstream_status up) /\
     upstream_text up = Resolved raw /\
     r = {| ok := false; response := undefined;
            status := Some (upstream_status up); errorDetails := Some raw |}).
Proof.
  unfold callGrok. split.
  - destruct (fetch w grok_url (grok_init msgs key)) as [up|e];
      cbn [await bind call fst]; [|intros [H _]; discriminate H].
    destruct (upstream_text up) as [raw|e] eqn:Ht;
      cbn [eval bind ret throw call fst]; [|intros [H _]; discriminate H].
    destruct (upstream_ok up) eqn:Hok; cbn [negb return_].
    + destruct (upstream_json up) as [data|e];
        cbn [eval bind ret throw call fst]; [|intros [H _]; discriminate H].
      destruct (first_choice_content data);
        cbn [eval bind ret throw return_ call fst]; intros [H Hf];
        [injection H as <-; discriminate Hf | discriminate H].
    + cbn [call fst]. intros [H _]. injection H as <-.
      exists up, raw. split; [reflexivity|].
      split; [|split; [exact Ht | reflexivity]].
      unfold upstream_ok in Hok. apply andb_false_iff in Hok. lia.
  - intros (up & raw & Hf & Hst & Ht & ->). rewrite Hf. cbn [await bind].
    rewrite Ht. cbn [eval bind ret].
    assert (Hok : upstream_ok up = false).
    { unfold upstream_ok. apply andb_false_iff. lia. }
    rewrite Hok. split; reflexivity.
Qed.

Lemma opt_member_get (j : json) (k : string) :
  opt_member (Some j) k = get j k.
Proof.
  destruct j; reflexivity.
Qed.

(** X13.  The text of a provider result is the [content] of the [message]
    of the first choice of the parsed answer, as it is: nothing is trimmed
    or converted, and later choices are ignored. *)
Theorem answer_is_first_choice_content
    (w : World) (msgs : list Message) (key : string)
    (up : Upstream) (raw : string) (data choice message : json) (others : list json) :
  fetch w grok_url (grok_init msgs key) = Resolved up ->
  upstream_ok up = true ->
  upstream_text up = Resolved raw ->
  upstream_json up = Resolved data ->
  get data "choices" = Some (JArr (choice :: others)) ->
  get choice "message" = Some message ->
  call (callGrok w msgs key)
  = (Resolved {| ok := true; response := get message "content";
                 status := None; errorDetails := None |},
     [ Fetch grok_url (grok_init msgs key) ]).
Proof.
  intros Hf Hok Ht Hj Hchoices Hmessage.
  unfold callGrok. rewrite Hf. cbn [await bind]. rewrite Ht. cbn [eval bind ret].
  rewrite Hok, Hj. cbn [negb eval bind ret].
  assert (Hcontent : first_choice_content data = Resolved (get message "content")).
  { unfold first_choice_content, member.
    destruct data; try discriminate Hchoices.
    rewrite Hchoices. cbn [opt_first nth_error].
    rewrite opt_member_get, Hmessage, opt_member_get. reflexivity. }
  rewrite Hcontent. reflexivity.
Qed.

Lemma first_choice_witness :
  call (callGrok Samples.primary_up_world Samples.hello_messages "k1")
  = (Resolved {| ok := true; response := Some (JStr "Hi there");
                 status := None; errorDetails := None |},
     [ Fetch grok_url (grok_init Samples.hello_messages "k1") ]).
Proof.
  exact (answer_is_first_choice_content
           Samples.primary_up_world Samples.hello_messages "k1"
           {| upstream_status := 200;
              upstream_text := Resolved "(raw completion)";
              upstream_json := Resolved (Samples.completion "Hi there") |}
           "(raw completion)" (Samples.completion "Hi there")
           (JObj [ ("message", JObj [ ("role", JStr "assistant");
                                      ("content", JStr "Hi there") ]) ])
           (JObj [ ("role", JStr "assistant"); ("content", JStr "Hi there") ])
           []
           eq_refl eq_refl eq_refl eq_refl eq_refl eq_refl).
Defined.

(** X14.  A 2xx answer whose body is not JSON, or is the JSON [null], makes
    the client throw; a 2xx answer that parses to anything else but carries
    no first choice ([choices] absent, [null] or empty) is returned as
    [ok: true] without text. *)
Theorem answer_without_choice
    (w : World) (msgs : list Message) (key : string) (up : Upstream) (raw : string) :
  fetch w grok_url (grok_init msgs key) = Resolved up ->
  upstream_ok up = true ->
  upstream_text up = Resolved raw ->
  (forall e,
   upstream_json up = Rejected e ->
   fst (call (callGrok w msgs key)) = Rejected e) /\
  (upstream_json up = Resolved JNull ->
   exists e, fst (call (callGrok w msgs key)) = Rejected e) /\
  (forall data,
   upstream_json up = Resolved data ->
   data <> JNull ->
   get data "choices" = undefined \/
   get data "choices" = Some JNull \/
   get data "choices" = Some (JArr []) ->
   fst (call (callGrok w msgs key))
   = Resolved {| ok := true; response := undefined;
                 status := None; errorDetails := None |}).
Proof.
  intros Hf Hok Ht. unfold callGrok. rewrite Hf. cbn [await bind].
  rewrite Ht. cbn [eval bind ret]. rewrite Hok. cbn [negb].
  split; [|split].
  - intros e Hj. rewrite Hj. reflexivity.
  - intros Hj. rewrite Hj. eexists. reflexivity.
  - intros data Hj Hn Hchoices. rewrite Hj. cbn [eval bind ret].
    assert (Hcontent : first_choice_content data = Resolved undefined).
    { unfold first_choice_content, member.
      destruct data; try contradiction;
        destruct Hchoices as [-> | [-> | ->]]; reflexivity. }
    rewrite Hcontent. reflexivity.
Qed.

Lemma answer_without_choice_witness :
  fst (call (callGrok Samples.no_choices_world Samples.hello_messages "k1"))
  = Resolved {| ok := true; response := undefined;
                status := None; errorDetails := None |}.
Proof.
  destruct (answer_without_choice
              Samples.no_choices_world Samples.hello_messages "k1"
              {| upstream_status := 200;
                 upstream_text := Resolved "(raw completion)";
                 upstream_json := Resolved (JObj [ ("choices", JArr []) ]) |}
              "(raw completion)" eq_refl eq_refl eq_refl)
    as (_ & _ & Hnone).
  exact (Hnone (JObj [ ("choices", JArr []) ]) eq_refl ltac:(discriminate)
           (or_intror (or_intror eq_refl))).
Defined.

(** ** The pages and the handler together *)

Lemma slice_last_length {A : Type} (n : nat) (arr : list A) :
  length (Client.slice_last n arr) = Nat.min n (length arr).
Proof.
  unfold Client.slice_last. rewrite length_skipn. lia.
Qed.

Lemma slice_last_suffix {A : Type} (n : nat) (arr : list A) :
  arr = firstn (length arr - n) arr ++ Client.slice_last n arr.
Proof.
  unfold Client.slice_last. symmetry. apply firstn_skipn.
Qed.

Lemma history_entries_assemble (entries : list Client.Message) :
  map_history (map Client.history_entry entries)
  = Resolved (map (fun m => {| role := Some (JStr (Client.role_name (Client.role m)));
                               content := Some (JStr (Client.content m)) |})
                  entries).
Proof.
  rewrite map_history_entries.
  - rewrite map_map. reflexivity.
  - apply Forall_forall. intros j Hin. apply in_map_iff in Hin as (m & <- & _).
    discriminate.
Qed.

(** X15.  The body a chat page sends is always accepted: for a non-empty
    [userMessage] and any [messages] state, an authenticated request with
    that body passes the message check and the assembly.  The provider
    messages are the system message, the last ten of [messages] in their
    order (all of them when there are fewer) with their roles and contents,
    and the new user message: at most twelve, and these are what every
    provider request carries. *)
Theorem page_request_is_accepted
    (w : World) (req : Request) (h : string)
    (userMessage : string) (messages : list Client.Message) :
  method req <> "OPTIONS" ->
  configured w = true ->
  authenticated w req h ->
  json_body req = Resolved (Client.invoke_body userMessage messages) ->
  userMessage <> "" ->
  exists older recent msgs,
    messages = older ++ recent /\
    length recent = Nat.min 10 (length messages) /\
    Passes w req h (Client.invoke_body userMessage messages) userMessage /\
    assembled (Client.invoke_body userMessage messages) userMessage = Resolved msgs /\
    msgs = system_message
           :: map (fun m => {| role := Some (JStr (Client.role_name (Client.role m)));
                               content := Some (JStr (Client.content m)) |})
                  recent
           ++ [ user_message userMessage ] /\
    (length msgs <= 12)%nat /\
    Forall (sends msgs) (snd (serve w req)).
Proof.
  intros Hm Hc Hauth Hbody Hne.
  exists (firstn (length messages - 10) messages), (Client.slice_last 10 messages).
  eexists.
  assert (HP : Passes w req h (Client.invoke_body userMessage messages) userMessage).
  { constructor; try assumption. split; [reflexivity | assumption]. }
  assert (Hasm : assembled (Client.invoke_body userMessage messages) userMessage
                 = Resolved (system_message
                    :: map (fun m =>
                              {| role := Some (JStr (Client.role_name (Client.role m)));
                                 content := Some (JStr (Client.content m)) |})
                           (Client.slice_last 10 messages)
                    ++ [ user_message userMessage ])).
  { unfold assembled, build_messages, history_of, Client.invoke_body.
    cbn [get lookup String.eqb Ascii.eqb Bool.eqb nullish history_messages].
    rewrite history_entries_assemble. reflexivity. }
  split; [apply slice_last_suffix|].
  split; [apply slice_last_length|].
  split; [exact HP|]. split; [exact Hasm|]. split; [reflexivity|]. split.
  - cbn [length]. rewrite length_app, length_map, slice_last_length. cbn [length]. lia.
  - rewrite (passes_reaches_providers w req h _ userMessage _ HP Hasm).
    cbn [snd]. apply Forall_app. split.
    + unfold entry_log. repeat (apply Forall_cons; [exact I|]). apply Forall_nil.
    + rewrite caught_log. apply attempt_providers_sends.
Qed.

Lemma page_request_witness :
  exists older recent msgs,
    [ {| Client.id := "1"; Client.role := Client.user; Client.content := "Hi";
         Client.inputType := Client.text; Client.timestamp := "10:00" |} ]
    = older ++ recent /\
    length recent = 1%nat /\
    assembled
      (Client.invoke_body "And the fees?"
         [ {| Client.id := "1"; Client.role := Client.user; Client.content := "Hi";
              Client.inputType := Client.text; Client.timestamp := "10:00" |} ])
      "And the fees?" = Resolved msgs /\
    (length msgs <= 12)%nat.
Proof.
  destruct (page_request_is_accepted Samples.primary_up_world
              (Samples.post (Some "Bearer token-1")
                 (Resolved (Client.invoke_body "And the fees?"
                    [ {| Client.id := "1"; Client.role := Client.user;
                         Client.content := "Hi"; Client.inputType := Client.text;
                         Client.timestamp := "10:00" |} ])))
              "Bearer token-1" "And the fees?"
              [ {| Client.id := "1"; Client.role := Client.user;
                   Client.content := "Hi"; Client.inputType := Client.text;
                   Client.timestamp := "10:00" |} ]
              ltac:(discriminate) eq_refl
              ltac:(repeat split; reflexivity) eq_refl ltac:(discriminate))
    as (older & recent & msgs & Hsplit & Hlen & _ & Hasm & _ & Hbound & _).
  exists older, recent, msgs. repeat split; assumption.
Defined.

Lemma configured_has_key (w : World) :
  configured w = true ->
  narrowed (env_get w "GROK_API_KEY") = None ->
  narrowed (env_get w "CAMPUS_ASSISTANT_API_KEY") = None ->
  False.
Proof.
  unfold configured. rewrite !narrowed_truthy. intros Hc H1 H2.
  rewrite H1, H2 in Hc. discriminate Hc.
Qed.

Lemma campus_429 (w : World) (msgs : list Message) (key : string) (r : ProviderResult) :
  narrowed (env_get w "CAMPUS_ASSISTANT_API_KEY") = Some key ->
  fst (call (callCampusAssistantAI w msgs key)) = Resolved r ->
  is_status (status r) 429 = true ->
  secondary_failed w msgs 429 (errorDetails r).
Proof.
  intros Hkey Hcall Hst. exists key, r.
  destruct (status r) as [st|] eqn:Hs; [|discriminate Hst].
  cbn [is_status] in Hst. apply Z.eqb_eq in Hst. subst st.
  destruct (ok r) eqn:Hok.
  - destruct (callCampusAssistantAI_ok_shape w msgs key r Hcall Hok) as [Hnone _].
    congruence.
  - auto.
Qed.

(** X16.  Two statuses tell their cause.  503 is answered only when no
    secondary credential is configured and the primary call failed with one
    of the fallback statuses; 429 is answered only when the secondary call
    itself failed with 429 (a 429 of the primary is never passed on). *)
Theorem status_tells_cause (w : World) (req : Request) :
  (status_of (serve w req) = Some 503 ->
   narrowed (env_get w "CAMPUS_ASSISTANT_API_KEY") = None /\
   calls_to campus_url (snd (serve w req)) = 0%nat /\
   exists msgs st details,
     primary_failed w msgs st details /\ In st fallback_statuses) /\
  (status_of (serve w req) = Some 429 ->
   calls_to campus_url (snd (serve w req)) = 1%nat /\
   exists msgs details, secondary_failed w msgs 429 details).
Proof.
  split; intros Hst.
  - on_served w req; try discriminate Hst.
    match goal with
    | Ha : Paths.Attempted _ _ _ |- _ => inversion Ha; subst; clear Ha
    end; cbn [Paths.settled] in *; try discriminate Hst.
    + exfalso.
      match goal with
      | Hcall : fst (call (callGrok _ _ ?key)) = Resolved ?r',
        Hs : succeeded ?r' = false, Hinc : includes _ _ = false |- _ =>
          destruct (hard_failure_cases w msgs key r' Hcall Hs Hinc)
            as [[Hnone _] | (up & raw & _ & _ & Hnin & Hsome & _)];
          rewrite ?Hnone, ?Hsome in Hst; cbn in Hst;
          [ discriminate Hst
          | injection Hst as Hst; apply Hnin; rewrite Hst; cbn; tauto ]
      end.
    + match goal with Hft : Paths.FellThrough _ _ _ |- _ =>
        inversion Hft; subst
      end.
      * exfalso.
        match goal with HP : Passes _ _ _ _ _ |- _ => destruct HP as [_ Hc _ _ _] end.
        eapply configured_has_key; eassumption.
      * split; [assumption|]. split; [reflexivity|].
        match goal with
        | Hkey : narrowed (env_get w "GROK_API_KEY") = Some ?key,
          Hcall : fst (call (callGrok _ _ ?key)) = Resolved ?r',
          Hs : succeeded ?r' = false, Hinc : includes _ _ = true |- _ =>
            destruct (retryable_is_failure w msgs key r' Hkey Hcall Hs Hinc)
              as (st & Hfail & Hin);
            exists msgs, st, (errorDetails r'); split; assumption
        end.
    + exfalso. revert Hst. unfold Paths.campus_failure_response.
      repeat match goal with
             | |- context [if is_status ?s ?n then _ else _] => destruct (is_status s n)
             end; discriminate.
  - on_served w req; try discriminate Hst.
    match goal with
    | Ha : Paths.Attempted _ _ _ |- _ => inversion Ha; subst; clear Ha
    end; cbn [Paths.settled] in *; try discriminate Hst.
    + exfalso.
      match goal with
      | Hcall : fst (call (callGrok _ _ ?key)) = Resolved ?r',
        Hs : succeeded ?r' = false, Hinc : includes _ _ = false |- _ =>
          destruct (hard_failure_cases w msgs key r' Hcall Hs Hinc)
            as [[Hnone _] | (up & raw & _ & _ & Hnin & Hsome & _)];
          rewrite ?Hnone, ?Hsome in Hst; cbn in Hst;
          [ discriminate Hst
          | injection Hst as Hst; apply Hnin; rewrite Hst; cbn; tauto ]
      end.
    + match goal with
      | Hkey : narrowed (env_get w "CAMPUS_ASSISTANT_API_KEY") = Some ?key,
        Hcall : fst (call (callCampusAssistantAI _ _ ?key)) = Resolved ?r',
        Hft : Paths.FellThrough _ _ _ |- _ =>
          destruct (fell_through_calls _ _ _ Hft) as (Hc & _);
          destruct (is_status (status r') 429) eqn:H429;
          [ split;
            [ cbn [calls_to app]; rewrite ?calls_to_app, Hc; reflexivity
            | exists msgs, (errorDetails r');
              apply (campus_429 w msgs key r' Hkey Hcall H429) ]
          | exfalso; revert Hst; unfold Paths.campus_failure_response;
            rewrite H429; destruct (is_status (status r') 402); discriminate ]
      end.
Qed.

Lemma status_tells_cause_witness :
  narrowed (env_get Samples.primary_only_down_world "CAMPUS_ASSISTANT_API_KEY") = None /\
  calls_to campus_url (snd (serve Samples.primary_only_down_world Samples.hello)) = 0%nat.
Proof.
  destruct (proj1 (status_tells_cause Samples.primary_only_down_world Samples.hello)
              eq_refl)
    as (Hnone & Hcalls & _).
  split; assumption.
Defined.

(** An answer with another status or another [error] than the one
    assumed. *)
Ltac other_answer Hst Herr :=
  exfalso;
  cbn [Paths.settled] in Hst, Herr;
  unfold Paths.campus_failure_response in Hst, Herr;
  repeat match type of Herr with
         | context [if is_status (status ?r) ?n then _ else _] =>
             destruct (is_status (status r) n)
         | context [ChatGrok.text (errorDetails ?r)] => destruct (errorDetails r)
         | context [number (status ?r)] => destruct (status r)
         | context [response ?r] => is_var r; destruct (response r)
         end;
  cbv [json_response object defined_members nullish get lookup
       ChatGrok.text number Paths.preflight_response Http.status body] in Hst, Herr;
  first [ discriminate Hst | discriminate Herr ].

(** X17.  The two client-error responses are exact.  Status 401 with the
    body member [error: 'Unauthorized'] is served exactly when the bearer
    header is missing, or the verifier answers and does not accept the
    token (a 401 passed on from the primary provider has another [error]);
    status 400 with [error: 'Message is required'] is served exactly to an
    authenticated request whose parsed body has a rejected [message]. *)
Theorem client_errors_are_exact (w : World) (req : Request) :
  (status_of (serve w req) = Some 401 /\
   body_member (serve w req) "error" = Some (JStr "Unauthorized") <->
   method req <> "OPTIONS" /\
   configured w = true /\
   (bearer_of req = None \/
    exists h r,
      bearer_of req = Some h /\
      identity w h = Resolved r /\
      verified r = false)) /\
  (status_of (serve w req) = Some 400 /\
   body_member (serve w req) "error" = Some (JStr "Message is required") <->
   method req <> "OPTIONS" /\
   configured w = true /\
   exists h parsed,
     authenticated w req h /\
     json_body req = Resolved parsed /\
     parsed <> JNull /\
     message_rejected (get parsed "message") = true).
Proof.
  split; split.
  - intros [Hst Herr]. on_served w req; try (other_answer Hst Herr).
    + auto.
    + split; [assumption|]. split; [assumption|]. right. eexists _, _. eauto.
    + match goal with
      | Ha : Paths.Attempted _ _ _ |- _ => inversion Ha; subst; clear Ha
      end; other_answer Hst Herr.
  - intros (Hm & Hc & [Hnone | (h & r & Hb & Hid & Hv)]);
      unfold status_of, body_member.
    + destruct (bearer_of_none req Hnone) as [Hn | (h & Ha & Hp)].
      * rewrite (serve_no_header w req Hm Hc Hn). split; reflexivity.
      * rewrite (serve_not_bearer w req Hm h Hc Ha Hp). split; reflexivity.
    + apply bearer_of_some in Hb as [Ha Hp].
      rewrite (serve_not_verified w req Hm h r Hc Ha Hp Hid Hv). split; reflexivity.
  - intros [Hst Herr]. on_served w req; try (other_answer Hst Herr).
    + split; [assumption|]. split; [assumption|]. eexists _, _. eauto.
    + match goal with
      | Ha : Paths.Attempted _ _ _ |- _ => inversion Ha; subst; clear Ha
      end; other_answer Hst Herr.
  - intros (Hm & Hc & h & parsed & Hauth & Hj & Hn & Hrej).
    unfold status_of, body_member.
    rewrite (serve_message_invalid w req Hm h Hc Hauth parsed Hj Hn
               (proj1 (message_rejected_spec _) Hrej)).
    split; reflexivity.
Qed.

Lemma client_errors_witness :
  (status_of (serve Samples.primary_up_world Samples.anonymous) = Some 401 /\
   body_member (serve Samples.primary_up_world Samples.anonymous) "error"
   = Some (JStr "Unauthorized")) /\
  (status_of (serve Samples.primary_up_world Samples.wordless) = Some 400 /\
   body_member (serve Samples.primary_up_world Samples.wordless) "error"
   = Some (JStr "Message is required")).
Proof.
  split.
  - apply (proj2 (proj1 (client_errors_are_exact
                           Samples.primary_up_world Samples.anonymous))).
    split; [discriminate|]. split; [reflexivity|]. left. reflexivity.
  - apply (proj2 (proj2 (client_errors_are_exact
                           Samples.primary_up_world Samples.wordless))).
    split; [discriminate|]. split; [reflexivity|].
    exists "Bearer token-1", (JObj [ ("conversationHistory", JArr []) ]).
    split; [repeat split; reflexivity|].
    split; [reflexivity|]. split; [discriminate | reflexivity].
Defined.

(** X18.  An identity check that throws is answered by the [catch] block:
    status 500 with the message of the error, and no provider is contacted.
    When it is [createClient] that throws (as it does without
    [SUPABASE_URL]), nothing at all has happened before the answer; when it
    is [getClaims], the identity check is the one interaction. *)
Theorem identity_failure_is_500 (w : World) (req : Request) (h : string) (e : JsError) :
  method req <> "OPTIONS" ->
  configured w = true ->
  bearer_of req = Some h ->
  identity w h = Rejected e ->
  status_of (serve w req) = Some 500 /\
  body_member (serve w req) "error" = Some (JStr (error_message e)) /\
  provider_calls (snd (serve w req)) = 0%nat /\
  (createClient_throws w (client_of w h) = Some e -> snd (serve w req) = []) /\
  (createClient_throws w (client_of w h) = None ->
   snd (serve w req) = [ GetClaims (client_of w h) (token_of h) ]).
Proof.
  intros Hm Hc Hb Hid. apply bearer_of_some in Hb as [Ha Hp].
  unfold identity in Hid. unfold status_of, body_member.
  destruct (created w (client_of w h)) as [client|e'] eqn:Hcr.
  - pose proof (created_same w _ _ Hcr) as ->.
    rewrite (serve_claims_threw w req Hm h e Hc Ha Hp Hcr Hid).
    unfold created in Hcr.
    destruct (createClient_throws w (client_of w h)); [discriminate Hcr|].
    repeat split. intros Hthrows. discriminate Hthrows.
  - injection Hid as ->.
    rewrite (serve_client_threw w req Hm h e Hc Ha Hp Hcr).
    unfold created in Hcr.
    destruct (createClient_throws w (client_of w h)); [|discriminate Hcr].
    repeat split. intros Hnone. discriminate Hnone.
Qed.

Lemma identity_failure_witness :
  status_of (serve Samples.no_supabase_world Samples.hello) = Some 500 /\
  body_member (serve Samples.no_supabase_world Samples.hello) "error"
  = Some (JStr "supabaseUrl is required.") /\
  snd (serve Samples.no_supabase_world Samples.hello) = [].
Proof.
  destruct (identity_failure_is_500 Samples.no_supabase_world Samples.hello
              "Bearer token-1" (ErrorObject "Error" "supabaseUrl is required.")
              ltac:(discriminate) eq_refl eq_refl eq_refl)
    as (Hstatus & Herror & _ & Hlog & _).
  split; [exact Hstatus|]. split; [exact Herror | exact (Hlog eq_refl)].
Defined.
